(* ===== verification/_CoqProject ===== *)
-Q . S2P
Prelude.v
Triple.v
Defs.v
CoapToken.v
PathSplit.v
Platform.v
Session.v
Scripted.v
Sign.v
AuthToken.v
Dispatch.v
DispatchSpec.v
Auth.v
Keeps.v
Invariant.v
Lifecycle.v
Complete.v
MsgWf.v
Liveness.v
Reach.v
Heap.v
Retry.v
