(* ===== verification/Prelude.v ===== *)
(** * A verification development for the CoAP device client of iotkit-embedded

    The program is one C file, [src/src/coap/iotx_coap_api.c]: the device side
    of the Alibaba IoT CoAP client.  It authenticates a device identity
    against the cloud ([IOT_CoAP_DeviceNameAuth]), keeps the session's token
    and [is_authed] flag ([iotx_coap_t]), and sends application messages over
    the session ([IOT_CoAP_SendMessage]).  Below it sit two collaborators that
    are not in [src/]: the CoAP engine (message ids, send, receive, pairing a
    response with its request, the event notifier) and the host platform
    (HMAC, JSON lookup, allocation, sleep, partner and module ids).

    ** How the code is modelled

    A C function that touches memory is a function of the monad [ST] of this
    file: it threads a [world] (Session.v) holding the session object behind
    [p_context], the count of live heap blocks, a script of allocation
    outcomes and the time slept, and returns [Ok (result, world)] or gets
    [Stuck]: [UB why] for undefined behaviour of the C code (a buffer
    overrun, a NULL or mistyped pointer dereferenced), [NoFuel] when the
    bound on re-entrant calls is exhausted.  Unsigned arithmetic is [Z] with
    its wrap-around written out ([u32], [u16]); C strings are [string]s
    without their NUL; [HAL_Snprintf] and a [strncpy] into a zeroed buffer
    are prefixes ([snprintf], [strncpy_trunc]).  The collaborators are the
    classes [HostPlatform] and [CoapEngine] (Platform.v), whose laws state
    what the client relies on (a read consumes a datagram and times out
    only when none is to arrive; a send logs the message it accepts; a fresh
    context has an empty log; a datagram arriving from the network is read
    after those already on their way); the theorems hold for every instance, and
    [Scripted] gives one instance of each on which the witnesses run.

    ** Files (in dependency order)
    - [Prelude]: the monad and its notations, integers and strings, the
      [iotx] hint databases and tactics.
    - [Triple]: Hoare triples [{{ P }} m {{ Q }}] over the monad, with the
      rules of a semantic Hoare logic (return, bind, consequence, frame).
    - [Defs]: the macros of the file (lines 32-43) and the SDK types and
      constants it uses ([iotx_err_t], [CoAPMessage] and its setters,
      [iotx_message_t], [iotx_deviceinfo_t], [iotx_coap_config_t]).
    - [CoapToken] (Module [CoapToken]): [iotx_get_coap_token].
    - [PathSplit] (Module [PathSplit]): [iotx_split_path_2_option], its char
      pointers as suffixes of the uri, and a reference segmentation.
    - [Platform], [Session]: the collaborators' classes; [iotx_coap_t], the
      world and the primitives ([coap_malloc], [coap_free], [HAL_SleepMs],
      the engine calls through [p_coap_ctx]).
    - [Scripted]: the scripted engine and platform, and demo sessions.
    - [Sign] (Module [Sign]): [iotx_calc_sign].
    - [AuthToken] (Module [AuthToken]): [iotx_get_token_from_json] with
      [LITE_json_value_of]'s allocation.
    - [Dispatch] (Module [Dispatch]): [IOT_CoAP_SendMessage] and the two
      message accessors.
    - [DispatchSpec] (Module [DispatchSpec]): the dispatcher's contract of
      spec section 4.5 as a function on an abstract request, and its
      refinement by [IOT_CoAP_SendMessage].
    - [Auth] (Module [Auth]): [iotx_device_name_auth_callback],
      [iotx_event_notifyer], the response handlers, the engine's receive
      loop and cycle, [iotx_coap_report_mid], [IOT_CoAP_DeviceNameAuth],
      [IOT_CoAP_Yield]; the handshake when the module-id report is refused
      and when the signature cannot be allocated.
    - [Keeps] (Module [Keeps]): [keeps P m], a world predicate kept by
      every run of [m] that returns, and the section [Composite] that derives
      it for the notifier, the receive loop, the report, the handshake at
      every fuel and [IOT_CoAP_Yield] from the primitives, the dispatcher and
      the callback; the invariants below are its instances.
    - [Invariant] (Module [SessionInv]): the session invariant and its
      preservation by every entry point.
    - [Lifecycle] (Module [Lifecycle]): [IOT_CoAP_Init] with its [err:]
      unwind, [IOT_CoAP_Deinit], [iotx_get_well_known].
    - [Complete] (Module [Complete]): an open session's token buffer,
      device info and engine context are set, as [IOT_CoAP_Init] leaves
      them, and every later call keeps them so.
    - [MsgWf] (Module [MsgWf]): a well-formed CoAP message (options in order
      of number, URI-path values within the path buffer, payload within a
      PDU) and the proof that the client only sends such messages.
    - [Liveness] (Module [Liveness]): the application's loop of
      [IOT_CoAP_Yield] calls and its progress.
    - [Reach] (Module [Reach]): the API calls and the arrival of a datagram
      as a step relation, the worlds reachable from one with no session and
      no live block, and their invariants, by one rule induction
      ([reachable_inv]); the dispatcher run on any reachable authenticated
      session.
    - [Heap] (Module [Heap]): the allocation discipline: heap triples at a
      level [h <= w_heap], a [coap_malloc] ... [coap_free] pair proved by
      raising the level between the two calls; exact balance
      ([heap_balanced]) with the level [h = w_heap] while nothing is to be
      read; and the blocks of a session.
    - [Retry] (Module [Retry]): the handshake on the scripted engine against
      a server that answers 5.00 [k] times, then 2.05.

    ** What is proved
    - the dispatcher's request, for every path and payload it accepts
      (Dispatch); its refusals: unauthenticated session, payload at or over
      the limit (the spec accepts the limit); the dispatcher refines the
      contract of the spec (DispatchSpec);
    - the handshake: termination of the re-entrant calls, the 2.05
      callback, the 4.01/4.02 re-authentication, authenticate-then-send,
      the chain of [k] nested 5.00 retries for every [k] (Retry), the
      payload of the request, never truncated for an identity within its
      capacities (Auth),
      and its defects: a timeout is reported as [IOTX_SUCCESS] without a
      partner id and as [IOTX_ERR_SEND_MSG_FAILED] with one, a failed
      signature allocation sends an empty sign, and the notifier writes
      [is_authed] through an application's [user_data] when a cycle of
      [IOT_CoAP_Yield] dispatches a 4.01 answer to an application's
      request, and a handshake on
      an authenticated session sends a new request where the spec allows it
      only from the unauthenticated state (Auth);
    - the session invariant (token within its buffer, 32-bit counter) kept
      by the handshake, [IOT_CoAP_Yield] and the dispatcher (Invariant),
      established by [IOT_CoAP_Init], which unwinds every failure without a
      leak; [IOT_CoAP_Deinit] frees what [IOT_CoAP_Init] allocated
      (Lifecycle); every message handed to the engine is a well-formed CoAP
      message (MsgWf); both invariants hold in every world reachable by any
      sequence of API calls and datagram arrivals (Reach), where an open
      session never has a NULL token buffer, identity or context, so the
      unchecked dereferences of lines 280, 307, 370-376 and 497 are safe
      (Complete, Reach); composed over the whole client,
      [IOT_CoAP_SendMessage] on a reachable authenticated session attaches
      the session's token to what it sends (Reach);
    - progress: a loop of [IOT_CoAP_Yield] as long as the datagrams to
      arrive reads and handles all of them (Liveness);
    - the heap: no entry point that runs on a session frees a block it did
      not allocate, at any depth of nesting; with nothing to read, the
      handshake, the report, the signature, the dispatcher and
      [iotx_get_well_known] free every block they allocate; in every
      reachable world a
      live session accounts for the three blocks of [IOT_CoAP_Init] (Heap);
      the correlation tokens have period exactly 2^32 requests
      (CoapToken);
    - the path encoder equals the reference segmentation on the paths it
      accepts, overruns its buffer on a long middle segment and truncates a
      long last one (PathSplit); the token encoding round-trips and tokens
      are distinct within 2^32 calls (CoapToken); the signature and token
      extraction on every branch, with the leak of an over-long token
      (Sign, AuthToken).

    ** Bounds and fuel
    The nesting handshake -> receive -> callback or notifier -> handshake
    has no bound in C; the model gives [IOT_CoAP_DeviceNameAuth] a fuel
    argument.  [Auth.auth_terminates] shows that a fuel larger than the
    number of datagrams still to arrive is never exhausted: each nested
    handshake starts only after a read, which consumes a datagram.  The
    engine's wait time is not modelled: a read either delivers the next
    datagram or times out.  The same measure bounds the application's loop:
    [Liveness.yield_loop_drains] needs as many cycles as datagrams to
    arrive, and the handshake fuel of [Reach] is a parameter of the step
    relation, since the invariants hold at every fuel.

    ** Not modelled
    Logging ([COAP_INFO], [log_debug]) has no effect on state and is
    dropped.  The CoAP engine's framing, retransmission and DTLS, and the
    HMAC and JSON parser, are the collaborators' business and appear only
    through their classes.  Threads: the code is single-threaded and
    cooperative, and so is the model.  The model holds one session; a
    second [IOT_CoAP_Init] replaces it in the world.  The rest of the file
    is its [#include] lines: every function and macro of it is modelled. *)

From Stdlib Require Import ZArith Lia String List.
From stdpp Require Import base decidable strings.
Import ListNotations.

Declare Scope iotx_scope.
Delimit Scope iotx_scope with iotx.
Open Scope Z_scope.

(** ** Outcomes of C code

    A run of modelled C code either returns a value with the new state, or
    gets stuck: on undefined behaviour (a write through a pointer of the
    wrong type, a buffer overrun) or when the fuel that bounds the depth of
    re-entrant calls runs out. *)
Inductive stuck :=
| UB (what : string)
| NoFuel.

Inductive outcome (A : Type) :=
| Ok (a : A)
| Stuck (why : stuck).
Arguments Ok {A} a.
Arguments Stuck {A} why.

(** The state monad of the development: [ST S A] threads a state [S]. *)
Definition ST (S A : Type) : Type := S -> outcome (A * S).

Definition st_ret {S A} (a : A) : ST S A := fun s => Ok (a, s).
Definition st_bind {S A B} (m : ST S A) (k : A -> ST S B) : ST S B :=
  fun s => match m s with
           | Ok (a, s') => k a s'
           | Stuck r => Stuck r
           end.
Definition st_get {S} : ST S S := fun s => Ok (s, s).
Definition st_put {S} (s : S) : ST S unit := fun _ => Ok (tt, s).
Definition st_modify {S} (f : S -> S) : ST S unit := fun s => Ok (tt, f s).
Definition st_stuck {S A} (r : stuck) : ST S A := fun _ => Stuck r.

Notation "x <- m ;; k" := (st_bind m (fun x => k))
  (at level 100, m at next level, right associativity) : iotx_scope.
Notation "m ;; k" := (st_bind m (fun _ => k))
  (at level 100, right associativity) : iotx_scope.
Notation "'ret' a" := (st_ret a) (at level 10) : iotx_scope.

(** ** Machine integers *)

(** [unsigned int] arithmetic wraps modulo 2^32. *)
Definition u32 (z : Z) : Z := z mod 2 ^ 32.
(** The cast [(unsigned short)] keeps the low 16 bits. *)
Definition u16 (z : Z) : Z := z mod 2 ^ 16.

(** ** C strings

    A NUL-terminated string is modelled by its contents before the NUL. *)
Definition strlen (s : string) : Z := Z.of_nat (String.length s).

(** The NUL character, and the check that a modelled string is a C string
    (it holds no NUL before its end). *)
Definition NUL : Ascii.ascii := Ascii.zero.

Fixpoint no_nul (s : string) : bool :=
  match s with
  | EmptyString => true
  | String c s' => negb (Ascii.eqb c NUL) && no_nul s'
  end.

(** [HAL_Snprintf(buf, cap, ...)] writes at most [cap - 1] characters. *)
Definition snprintf (cap : Z) (s : string) : string :=
  substring 0 (Z.to_nat (cap - 1)) s.

(** [strncpy(dst, src, n)] into a zeroed buffer of [n + 1] bytes keeps
    the first [n] characters. *)
Definition strncpy_trunc (n : Z) (s : string) : string :=
  substring 0 (Z.to_nat n) s.

(** ** Shared lemmas and automation *)

Create HintDb iotx discriminated.
Create Rewrite HintDb iotx_rw.

Lemma st_bind_ok {S A B} (m : ST S A) (k : A -> ST S B) s a s' :
  m s = Ok (a, s') -> st_bind m k s = k a s'.
Proof. intros H. unfold st_bind. now rewrite H. Qed.

Lemma st_bind_stuck {S A B} (m : ST S A) (k : A -> ST S B) s r :
  m s = Stuck r -> st_bind m k s = Stuck r.
Proof. intros H. unfold st_bind. now rewrite H. Qed.

Lemma st_bind_assoc {S A B C} (m : ST S A) (k : A -> ST S B) (h : B -> ST S C) s :
  st_bind (st_bind m k) h s = st_bind m (fun a => st_bind (k a) h) s.
Proof. unfold st_bind. destruct (m s) as [[a s']|r]; reflexivity. Qed.

Lemma substring_0_all (s : string) n :
  (String.length s <= n)%nat -> substring 0 n s = s.
Proof.
  revert n. induction s as [|c s IH]; intros [|n] H; simpl in *; try lia; auto.
  f_equal. apply IH. lia.
Qed.

Lemma substring_0_length (s : string) n :
  String.length (substring 0 n s) = Nat.min n (String.length s).
Proof.
  revert n. induction s as [|c s IH]; intros [|n]; simpl; auto.
Qed.

(** stdpp makes [String.append] opaque to [simpl]: its two equations. *)
Lemma string_app_cons (x : Ascii.ascii) (a b : string) :
  (String x a ++ b)%string = String x (a ++ b).
Proof. reflexivity. Qed.

Lemma string_app_nil_l (b : string) : ("" ++ b)%string = b.
Proof. reflexivity. Qed.

Lemma string_app_assoc (a b c : string) : ((a ++ b) ++ c)%string = (a ++ (b ++ c))%string.
Proof. induction a as [|x a IH]; [reflexivity|]. rewrite !string_app_cons. now f_equal. Qed.

Lemma string_app_nil_r (a : string) : (a ++ "")%string = a.
Proof. induction a as [|x a IH]; [reflexivity|]. rewrite string_app_cons. now f_equal. Qed.

Lemma string_length_app (a b : string) :
  String.length (a ++ b) = (String.length a + String.length b)%nat.
Proof. induction a as [|x a IH]; [reflexivity|]. rewrite string_app_cons. simpl. lia. Qed.

Lemma substring_0_prefix (a b : string) :
  substring 0 (String.length a) (a ++ b) = a.
Proof.
  induction a as [|x a IH]; [now destruct b|].
  rewrite string_app_cons. simpl. now f_equal.
Qed.

Lemma no_nul_app (a b : string) : no_nul (a ++ b) = no_nul a && no_nul b.
Proof.
  induction a as [|x a IH]; [reflexivity|].
  rewrite string_app_cons. simpl. rewrite IH. apply andb_assoc.
Qed.

Lemma u32_range z : 0 <= u32 z < 2 ^ 32.
Proof. unfold u32. apply Z.mod_pos_bound. lia. Qed.

Lemma u32_small z : 0 <= z < 2 ^ 32 -> u32 z = z.
Proof. unfold u32. apply Z.mod_small. Qed.

Lemma u16_range z : 0 <= u16 z < 2 ^ 16.
Proof. unfold u16. apply Z.mod_pos_bound. lia. Qed.

Lemma u16_small z : 0 <= z < 2 ^ 16 -> u16 z = z.
Proof. unfold u16. apply Z.mod_small. Qed.

Lemma strlen_nonneg s : 0 <= strlen s.
Proof. unfold strlen. lia. Qed.

Lemma snprintf_fits cap s : strlen s < cap -> snprintf cap s = s.
Proof. unfold snprintf, strlen. intros H. apply substring_0_all. lia. Qed.

Lemma snprintf_bound cap s : 1 <= cap -> strlen (snprintf cap s) <= cap - 1.
Proof.
  unfold snprintf, strlen. intros H. rewrite substring_0_length. lia.
Qed.

Lemma strncpy_trunc_fits n s : strlen s <= n -> strncpy_trunc n s = s.
Proof. unfold strncpy_trunc, strlen. intros H. apply substring_0_all. lia. Qed.

Lemma strncpy_trunc_bound n s : 0 <= n -> strlen (strncpy_trunc n s) <= n.
Proof.
  unfold strncpy_trunc, strlen. intros H. rewrite substring_0_length. lia.
Qed.

#[export] Hint Resolve u32_range u16_range strlen_nonneg : iotx.
#[export] Hint Rewrite @st_bind_assoc string_app_cons string_app_nil_l string_app_assoc string_app_nil_r
  string_length_app no_nul_app : iotx_rw.

(** Unfold the monad's plumbing after a definition has been unfolded. *)
Ltac st_unfold :=
  unfold st_bind, st_ret, st_get, st_put, st_modify, st_stuck in *.

(** Discharge a hypothesis of a property at a concrete input by evaluation. *)
Ltac wit_hyp :=
  solve [ vm_compute; first [reflexivity | discriminate | lia | intros ?; discriminate] | lia ].
