(* ===== verification/Triple.v ===== *)
(** * Hoare triples for the state monad

    [{{ P }} m {{ Q }}]: every run of [m] from a state satisfying [P] that
    returns [Ok (a, s')] ends with [Q a s'].  A run that gets [Stuck] (on
    undefined behaviour or when the fuel is exhausted) satisfies every
    triple: the triples here are partial-correctness statements, and the
    development proves separately that the code it states them of neither
    runs out of fuel ([Auth.auth_terminates]) nor, on the inputs of each
    functional theorem, reaches undefined behaviour.  The rules are the
    sound rules of a semantic Hoare logic, proved from the definition of
    [st_bind]; the invariants of [Keeps] and the heap discipline of [Heap]
    are stated with them. *)

From Stdlib Require Import ZArith Lia.
From S2P Require Import Prelude.
Open Scope Z_scope.
Local Open Scope iotx_scope.

Section Triple.
Context {S : Type}.

Definition triple {A} (P : S -> Prop) (m : ST S A) (Q : A -> S -> Prop) : Prop :=
  forall s, P s -> match m s with Ok (a, s') => Q a s' | Stuck _ => True end.

Lemma triple_ret {A} (Q : A -> S -> Prop) (a : A) : triple (Q a) (st_ret a) Q.
Proof. intros s Hs. exact Hs. Qed.

Lemma triple_stuck {A} P (Q : A -> S -> Prop) r : triple P (st_stuck r) Q.
Proof. intros s _. exact I. Qed.

Lemma triple_bind {A B} P (m : ST S A) Q (k : A -> ST S B) R :
  triple P m Q -> (forall a, triple (Q a) (k a) R) -> triple P (st_bind m k) R.
Proof.
  intros Hm Hk s Hs. unfold st_bind. specialize (Hm s Hs).
  destruct (m s) as [[a s']|r]; [exact (Hk a s' Hm)|exact I].
Qed.

Lemma triple_consequence {A} (P P' : S -> Prop) (m : ST S A) (Q Q' : A -> S -> Prop) :
  triple P m Q -> (forall s, P' s -> P s) -> (forall a s, Q a s -> Q' a s) -> triple P' m Q'.
Proof.
  intros H HP HQ s Hs. specialize (H s (HP s Hs)).
  destruct (m s) as [[a s']|r]; [exact (HQ a s' H)|exact I].
Qed.

Lemma triple_pre {A} (P P' : S -> Prop) (m : ST S A) (Q : A -> S -> Prop) :
  triple P m Q -> (forall s, P' s -> P s) -> triple P' m Q.
Proof. intros H HP. exact (triple_consequence P P' m Q Q H HP (fun _ _ x => x)). Qed.

Lemma triple_post {A} (P : S -> Prop) (m : ST S A) (Q Q' : A -> S -> Prop) :
  triple P m Q -> (forall a s, Q a s -> Q' a s) -> triple P m Q'.
Proof. intros H HQ. exact (triple_consequence P P m Q Q' H (fun _ x => x) HQ). Qed.

(** A run that leaves a projection of the state alone keeps every
    property of that projection. *)
Lemma triple_frame {A V} (f : S -> V) (m : ST S A) (R : V -> Prop) :
  (forall s, match m s with Ok (_, s') => f s' = f s | Stuck _ => True end) ->
  triple (fun s => R (f s)) m (fun _ s => R (f s)).
Proof.
  intros Hm s Hs. specialize (Hm s). destruct (m s) as [[a s']|r]; [|exact I].
  now rewrite Hm.
Qed.

End Triple.

Notation "{{ P }} m {{ Q }}" := (triple P m Q)
  (at level 90, m at next level, format "{{  P  }}  m  {{  Q  }}") : iotx_scope.
