(* ===== verification/Defs.v ===== *)
(** * The data of the CoAP client

    The macros of [iotx_coap_api.c] (lines 32-43), the types it uses from the
    SDK headers ([iotx_ret_code_t], [iotx_message_t], [iotx_deviceinfo_t],
    [iotx_coap_config_t], [CoAPMessage]) and the CoAP constants it passes to
    the CoAP engine.  The headers are not part of [src/]: their values are
    those of the SDK and are recorded as modelled from the specification. *)

From Stdlib Require Import ZArith Lia String List Ascii.
From stdpp Require Import base decidable strings.
From S2P Require Import Prelude.
Import ListNotations.
Open Scope Z_scope.

(** ** Macros of iotx_coap_api.c *)

Definition IOTX_SIGN_LENGTH : Z := 40 + 1.
Definition IOTX_SIGN_SOURCE_LEN : Z := 256.
Definition IOTX_AUTH_TOKEN_LEN : Z := 192 + 1.
Definition IOTX_COAP_INIT_TOKEN : Z := 16909060. (* 0x01020304 *)
Definition IOTX_LIST_MAX_ITEM : Z := 10.
Definition IOTX_AUTH_STR : string := "auth".

(** The double quote, written without a doubled quote in a literal. *)
Definition dq : string := String (ascii_of_nat 34) EmptyString.

(** [IOTX_SIGN_SRC_STR] = ["clientId%sdeviceName%sproductKey%s"]. *)
Definition IOTX_SIGN_SRC_STR (client_id device_name product_key : string) : string :=
  "clientId" ++ client_id ++ "deviceName" ++ device_name ++ "productKey" ++ product_key.

(** [IOTX_AUTH_DEVICENAME_STR] =
    [{"productKey":"%s","deviceName":"%s","clientId":"%s","sign":"%s"}]. *)
Definition json_field (key value : string) : string :=
  dq ++ key ++ dq ++ ":" ++ dq ++ value ++ dq.

Definition IOTX_AUTH_DEVICENAME_STR (pk dn cid sign : string) : string :=
  "{" ++ json_field "productKey" pk ++ "," ++ json_field "deviceName" dn ++ ","
      ++ json_field "clientId" cid ++ "," ++ json_field "sign" sign ++ "}".

(** [IOTX_COAP_ONLINE_DTLS_SERVER_URL]. *)
Definition IOTX_COAP_ONLINE_DTLS_SERVER_URL (product_key : string) : string :=
  "coaps://" ++ product_key ++ ".iot-as-coap.cn-shanghai.aliyuncs.com:5684".

(** ** Constants of the SDK headers *)

Definition IOTX_PRODUCT_KEY_LEN : Z := 20.
Definition IOTX_DEVICE_NAME_LEN : Z := 32.
Definition IOTX_DEVICE_ID_LEN : Z := 64.
Definition IOTX_DEVICE_SECRET_LEN : Z := 64.
Definition IOTX_URI_MAX_LEN : Z := 135.
Definition COAP_MSG_MAX_PATH_LEN : Z := 128.
Definition COAP_MSG_MAX_PDU_LEN : Z := 1280.
Definition SUCCESS_RETURN : Z := 0.
Definition FAIL_RETURN : Z := -1.

(** [iotx_ret_code_t]. *)
Inductive iotx_ret_code :=
| IOTX_ERR_RECV_MSG_TIMEOUT
| IOTX_ERR_SEND_MSG_FAILED
| IOTX_ERR_MSG_TOO_LOOG
| IOTX_ERR_URI_TOO_LOOG
| IOTX_ERR_NOT_AUTHED
| IOTX_ERR_AUTH_FAILED
| IOTX_ERR_BUFF_TOO_SHORT
| IOTX_ERR_NO_MEM
| IOTX_ERR_INVALID_PARAM
| IOTX_SUCCESS.

#[export] Instance iotx_ret_code_eq_dec : EqDecision iotx_ret_code.
Proof. solve_decision. Defined.

Definition iotx_ret_code_val (r : iotx_ret_code) : Z :=
  match r with
  | IOTX_ERR_RECV_MSG_TIMEOUT => -9
  | IOTX_ERR_SEND_MSG_FAILED => -8
  | IOTX_ERR_MSG_TOO_LOOG => -7
  | IOTX_ERR_URI_TOO_LOOG => -6
  | IOTX_ERR_NOT_AUTHED => -5
  | IOTX_ERR_AUTH_FAILED => -4
  | IOTX_ERR_BUFF_TOO_SHORT => -3
  | IOTX_ERR_NO_MEM => -2
  | IOTX_ERR_INVALID_PARAM => -1
  | IOTX_SUCCESS => 0
  end.

(** Return codes of the CoAP engine. *)
Inductive coap_ret :=
| COAP_SUCCESS
| COAP_ERROR_NULL
| COAP_ERROR_DATA_SIZE
| COAP_ERROR_MALLOC
| COAP_ERROR_WRITE_FAILED.

#[export] Instance coap_ret_eq_dec : EqDecision coap_ret.
Proof. solve_decision. Defined.

(** ** CoAP constants (RFC 7252 and the Alibaba auth-token option) *)

Definition COAP_MSG_CODE_GET : Z := 1.
Definition COAP_MSG_CODE_POST : Z := 2.
Definition COAP_MSG_CODE_205_CONTENT : Z := 69.
Definition COAP_MSG_CODE_401_UNAUTHORIZED : Z := 129.
Definition COAP_MSG_CODE_402_BAD_OPTION : Z := 130.
Definition COAP_MSG_CODE_500_INTERNAL_SERVER_ERROR : Z := 160.

Definition COAP_OPTION_URI_PATH : Z := 11.
Definition COAP_OPTION_CONTENT_FORMAT : Z := 12.
Definition COAP_OPTION_ACCEPT : Z := 17.
Definition COAP_OPTION_AUTH_TOKEN : Z := 2088.

Definition COAP_CT_APP_LINK_FORMAT : Z := 40.
Definition COAP_CT_APP_OCTET_STREAM : Z := 42.
Definition COAP_CT_APP_JSON : Z := 50.
Definition COAP_CT_APP_CBOR : Z := 60.

Inductive coap_msg_type :=
| COAP_MESSAGE_TYPE_CON
| COAP_MESSAGE_TYPE_NON
| COAP_MESSAGE_TYPE_ACK
| COAP_MESSAGE_TYPE_RST.

#[export] Instance coap_msg_type_eq_dec : EqDecision coap_msg_type.
Proof. solve_decision. Defined.

(** ** Pointers and callbacks

    A [void *] that the code stores in a message or casts back: NULL, the
    session object itself ([iotx_coap_t *]), or data owned by the
    application, named by a tag. *)
Inductive ptr :=
| NULL
| P_SESSION
| P_APP (tag : Z).

#[export] Instance ptr_eq_dec : EqDecision ptr.
Proof. solve_decision. Defined.

(** The response handlers the code installs in a message. *)
Inductive coap_handler :=
| NO_HANDLER
| H_DEVICE_NAME_AUTH   (* iotx_device_name_auth_callback *)
| H_GET_WELL_KNOWN     (* iotx_get_well_known_handler *)
| H_MID_RSPHDL         (* iotx_coap_mid_rsphdl *)
| H_APP (tag : Z).     (* a callback of the application *)

#[export] Instance coap_handler_eq_dec : EqDecision coap_handler.
Proof. solve_decision. Defined.

(** ** CoAP messages *)

Inductive coap_opt_value :=
| OptStr (s : string)
| OptUint (n : Z).

Record coap_option := mk_option { opt_num : Z; opt_val : coap_opt_value }.

(** [CoAPMessage]: header fields, token, handler, user data, options in the
    order they were added, payload. *)
Record CoAPMessage := mk_message {
  cm_type : coap_msg_type;
  cm_code : Z;
  cm_msgid : Z;
  cm_token : list Z;
  cm_handler : coap_handler;
  cm_user : ptr;
  cm_options : list coap_option;
  cm_payload : string
}.

Definition CoAPMessage_init : CoAPMessage :=
  mk_message COAP_MESSAGE_TYPE_CON 0 0 [] NO_HANDLER NULL [] "".

Definition CoAPMessageType_set (m : CoAPMessage) (t : coap_msg_type) : CoAPMessage :=
  mk_message t (cm_code m) (cm_msgid m) (cm_token m) (cm_handler m) (cm_user m)
    (cm_options m) (cm_payload m).
Definition CoAPMessageCode_set (m : CoAPMessage) (c : Z) : CoAPMessage :=
  mk_message (cm_type m) c (cm_msgid m) (cm_token m) (cm_handler m) (cm_user m)
    (cm_options m) (cm_payload m).
Definition CoAPMessageId_set (m : CoAPMessage) (id : Z) : CoAPMessage :=
  mk_message (cm_type m) (cm_code m) id (cm_token m) (cm_handler m) (cm_user m)
    (cm_options m) (cm_payload m).
Definition CoAPMessageToken_set (m : CoAPMessage) (tok : list Z) : CoAPMessage :=
  mk_message (cm_type m) (cm_code m) (cm_msgid m) tok (cm_handler m) (cm_user m)
    (cm_options m) (cm_payload m).
Definition CoAPMessageHandler_set (m : CoAPMessage) (h : coap_handler) : CoAPMessage :=
  mk_message (cm_type m) (cm_code m) (cm_msgid m) (cm_token m) h (cm_user m)
    (cm_options m) (cm_payload m).
Definition CoAPMessageUserData_set (m : CoAPMessage) (u : ptr) : CoAPMessage :=
  mk_message (cm_type m) (cm_code m) (cm_msgid m) (cm_token m) (cm_handler m) u
    (cm_options m) (cm_payload m).
Definition CoAPStrOption_add (m : CoAPMessage) (num : Z) (s : string) : CoAPMessage :=
  mk_message (cm_type m) (cm_code m) (cm_msgid m) (cm_token m) (cm_handler m) (cm_user m)
    (cm_options m ++ [mk_option num (OptStr s)]) (cm_payload m).
Definition CoAPUintOption_add (m : CoAPMessage) (num v : Z) : CoAPMessage :=
  mk_message (cm_type m) (cm_code m) (cm_msgid m) (cm_token m) (cm_handler m) (cm_user m)
    (cm_options m ++ [mk_option num (OptUint v)]) (cm_payload m).
Definition CoAPMessagePayload_set (m : CoAPMessage) (p : string) : CoAPMessage :=
  mk_message (cm_type m) (cm_code m) (cm_msgid m) (cm_token m) (cm_handler m) (cm_user m)
    (cm_options m) p.

(** The URI-path options of a message, in order. *)
Definition uri_path_options (m : CoAPMessage) : list string :=
  flat_map (fun o => match o with
                     | mk_option n (OptStr s) => if Z.eqb n COAP_OPTION_URI_PATH then [s] else []
                     | _ => []
                     end) (cm_options m).

(** ** Application-level types *)

Inductive iotx_msg_type :=
| IOTX_MESSAGE_CON
| IOTX_MESSAGE_NON
| IOTX_MESSAGE_ACK
| IOTX_MESSAGE_RST.

Inductive iotx_content_type :=
| IOTX_CONTENT_TYPE_JSON
| IOTX_CONTENT_TYPE_CBOR.

#[export] Instance iotx_content_type_eq_dec : EqDecision iotx_content_type.
Proof. solve_decision. Defined.

(** [iotx_message_t]: [p_payload] is [None] for a NULL pointer. *)
Record iotx_message_t := mk_iotx_message {
  p_payload : option string;
  payload_len : Z;
  resp_callback : coap_handler;
  user_data : ptr;
  msg_type : iotx_msg_type;
  content_type : iotx_content_type
}.

(** [iotx_deviceinfo_t]. *)
Record iotx_deviceinfo_t := mk_devinfo {
  product_key : string;
  device_name : string;
  device_id : string;
  device_secret : string
}.

(** [iotx_coap_config_t]: [p_devinfo] and [p_url] are [None] when NULL;
    the event handle is an application callback, named by a tag. *)
Record iotx_coap_config_t := mk_config {
  cfg_devinfo : option iotx_deviceinfo_t;
  cfg_url : option string;
  cfg_wait_time_ms : Z;
  cfg_event_handle : option Z
}.
