(* ===== verification/CoapToken.v ===== *)
(** * The correlation token generator

    [iotx_get_coap_token] (iotx_coap_api.c, lines 144-153) writes the
    session's [unsigned int coap_token] into four bytes, least significant
    first, and post-increments the counter, which wraps modulo 2^32.  The
    bytes become the CoAP token that pairs a request with its response. *)

From Stdlib Require Import ZArith Lia List.
From S2P Require Import Prelude.
Import ListNotations.
Open Scope Z_scope.

Module CoapToken.

(** One byte of the encoding: [(unsigned char)((value & mask) >> shift)]. *)
Definition encode_byte (value mask shift : Z) : Z :=
  Z.shiftr (Z.land value mask) shift.

(** The body of [iotx_get_coap_token], on the counter [coap_token]: the
    four encoded bytes, the length it returns ([sizeof(unsigned int)]) and
    the incremented counter. *)
Definition iotx_get_coap_token (coap_token : Z) : list Z * Z * Z :=
  let value := coap_token in
  ([encode_byte value 255 0; encode_byte value 65280 8;
    encode_byte value 16711680 16; encode_byte value 4278190080 24],
   4,
   u32 (coap_token + 1)).

Definition token_bytes (c : Z) : list Z := fst (fst (iotx_get_coap_token c)).
Definition next_counter (c : Z) : Z := snd (iotx_get_coap_token c).

(** The counter after [k] calls. *)
Fixpoint counter_after (k : nat) (c : Z) : Z :=
  match k with
  | O => c
  | S k' => next_counter (counter_after k' c)
  end.

(** Little-endian reading of a byte string, the inverse of the encoding. *)
Fixpoint le_decode (bs : list Z) : Z :=
  match bs with
  | [] => 0
  | b :: bs' => b + 256 * le_decode bs'
  end.

(** ** Lemmas *)

Lemma encode_byte_div (v : Z) (k : Z) :
  0 <= k -> encode_byte v (255 * 2 ^ (8 * k)) (8 * k) = (v / 2 ^ (8 * k)) mod 256.
Proof.
  intros Hk. unfold encode_byte.
  rewrite Z.shiftr_land, (Z.shiftr_div_pow2 (255 * _)) by lia.
  rewrite Z.div_mul by (apply Z.pow_nonzero; lia).
  change 255 with (Z.ones 8). rewrite Z.land_ones, Z.shiftr_div_pow2 by lia.
  reflexivity.
Qed.

Lemma token_bytes_eq (v : Z) :
  token_bytes v =
  [v mod 256; (v / 2 ^ 8) mod 256; (v / 2 ^ 16) mod 256; (v / 2 ^ 24) mod 256].
Proof.
  unfold token_bytes, iotx_get_coap_token; simpl fst.
  pose proof (encode_byte_div v 0 ltac:(lia)) as E0.
  pose proof (encode_byte_div v 1 ltac:(lia)) as E1.
  pose proof (encode_byte_div v 2 ltac:(lia)) as E2.
  pose proof (encode_byte_div v 3 ltac:(lia)) as E3.
  replace (255 * 2 ^ (8 * 0)) with 255 in E0 by reflexivity.
  replace (255 * 2 ^ (8 * 1)) with 65280 in E1 by reflexivity.
  replace (255 * 2 ^ (8 * 2)) with 16711680 in E2 by reflexivity.
  replace (255 * 2 ^ (8 * 3)) with 4278190080 in E3 by reflexivity.
  rewrite Z.mul_0_r, Z.pow_0_r, Z.div_1_r in E0.
  replace (8 * 1) with 8 in E1 by reflexivity.
  replace (8 * 2) with 16 in E2 by reflexivity.
  replace (8 * 3) with 24 in E3 by reflexivity.
  rewrite E0, E1, E2, E3. reflexivity.
Qed.

Lemma counter_after_u32 (k : nat) (c : Z) :
  counter_after k c = if (k =? 0)%nat then c else u32 (c + Z.of_nat k).
Proof.
  induction k as [|k IH]; [reflexivity|]. simpl counter_after.
  unfold next_counter, iotx_get_coap_token; simpl snd. rewrite IH. cbn [Nat.eqb].
  destruct (k =? 0)%nat eqn:E.
  - apply Nat.eqb_eq in E; subst. reflexivity.
  - unfold u32. rewrite Zplus_mod_idemp_l. f_equal. lia.
Qed.

Lemma le_decode_token_bytes (v : Z) :
  0 <= v < 2 ^ 32 -> le_decode (token_bytes v) = v.
Proof.
  intros Hv. rewrite token_bytes_eq. simpl le_decode.
  replace (v / 2 ^ 16) with (v / 2 ^ 8 / 2 ^ 8) by (rewrite !Z.div_div by lia; reflexivity).
  replace (v / 2 ^ 24) with (v / 2 ^ 8 / 2 ^ 8 / 2 ^ 8)
    by (rewrite !Z.div_div by lia; reflexivity).
  set (a := v / 2 ^ 8). set (b := a / 2 ^ 8). set (c := b / 2 ^ 8).
  assert (Hc : 0 <= c < 256).
  { subst a b c. rewrite !Z.div_div by lia.
    split; [apply Z.div_pos; lia | apply Z.div_lt_upper_bound; lia]. }
  rewrite (Z.mod_small c) by lia.
  pose proof (Z.div_mod v 256 ltac:(lia)).
  pose proof (Z.div_mod a 256 ltac:(lia)).
  pose proof (Z.div_mod b 256 ltac:(lia)).
  change (2 ^ 8) with 256 in *. lia.
Qed.

Lemma counter_after_mod (k : nat) (c : Z) :
  0 <= c < 2 ^ 32 -> counter_after k c = (c + Z.of_nat k) mod 2 ^ 32.
Proof.
  intros Hc. rewrite counter_after_u32.
  destruct (Nat.eqb_spec k 0) as [->|_]; [rewrite Z.add_0_r, Z.mod_small|]; auto.
Qed.

(** Two counters of the [unsigned int] range write the same token exactly
    when they are equal. *)
Lemma token_bytes_inj (a b : Z) :
  0 <= a < 2 ^ 32 -> 0 <= b < 2 ^ 32 -> token_bytes a = token_bytes b <-> a = b.
Proof.
  intros Ha Hb. split; [|now intros ->]. intros E.
  apply (f_equal le_decode) in E. now rewrite !le_decode_token_bytes in E.
Qed.

(** Counters [i] and [j] calls on agree exactly when [i] and [j] agree
    modulo 2^32. *)
Lemma counter_after_eq_mod (c : Z) (i j : nat) :
  0 <= c < 2 ^ 32 ->
  counter_after i c = counter_after j c <-> Z.of_nat i mod 2 ^ 32 = Z.of_nat j mod 2 ^ 32.
Proof.
  intros Hc. rewrite !counter_after_mod by exact Hc.
  rewrite <- (Zplus_mod_idemp_r (Z.of_nat i)), <- (Zplus_mod_idemp_r (Z.of_nat j)).
  split; intros E; [|now rewrite E].
  change (2 ^ 32) with 4294967296 in *. Z.to_euclidean_division_equations. lia.
Qed.

#[export] Hint Rewrite token_bytes_eq : iotx_rw.

(** ** Properties *)

(** C25 (roundtrip): for every counter value of the [unsigned int] range,
    the four bytes [iotx_get_coap_token] writes, read least significant
    first, give back the counter. *)
Theorem get_coap_token_roundtrip (v : Z) :
  0 <= v < 2 ^ 32 -> le_decode (token_bytes v) = v.
Proof. apply le_decode_token_bytes. Qed.

Lemma get_coap_token_roundtrip_witness :
  (0 <= 4278190081 < 2 ^ 32) /\ le_decode (token_bytes 4278190081) = 4278190081.
Proof. split; [lia | apply get_coap_token_roundtrip; lia]. Defined.

(** C40 (bounds): [iotx_get_coap_token] returns 4 and writes exactly four
    values, each a byte, and the counter after [k] calls is the start value
    plus [k] modulo 2^32: [0xFFFFFFFF] wraps to 0. *)
Theorem get_coap_token_bounds (c : Z) (k : nat) :
  snd (fst (iotx_get_coap_token c)) = 4 /\
  length (token_bytes c) = 4%nat /\
  Forall (fun b => 0 <= b < 256) (token_bytes c) /\
  counter_after (S k) c = u32 (c + Z.of_nat (S k)).
Proof.
  split; [reflexivity|]. split; [reflexivity|]. split.
  - rewrite token_bytes_eq.
    repeat constructor; apply Z.mod_pos_bound; lia.
  - apply counter_after_u32.
Qed.

(** C26 (safety): the correlation tokens are unique within a window of 2^32
    consecutive requests: starting from any valid counter, the [i]-th and the
    [j]-th calls write different bytes when [i <> j] and both are below
    2^32. *)
Theorem coap_tokens_distinct (c : Z) (i j : nat) :
  0 <= c < 2 ^ 32 -> (i < j)%nat -> Z.of_nat j < 2 ^ 32 ->
  token_bytes (counter_after i c) <> token_bytes (counter_after j c).
Proof.
  intros Hc Hij Hj Heq.
  rewrite !counter_after_mod in Heq by exact Hc.
  apply token_bytes_inj in Heq; [|apply Z.mod_pos_bound; lia..].
  rewrite <- !counter_after_mod in Heq by exact Hc. apply counter_after_eq_mod in Heq; [|exact Hc].
  rewrite !Z.mod_small in Heq by lia. lia.
Qed.

(** C27 (bounds; the window of [coap_tokens_distinct] is tight): the
    counter is an [unsigned int] that steps by one and wraps around: after
    2^32 calls it is back at its start value, and the tokens of two calls
    are equal exactly when the numbers of calls before them agree modulo
    2^32.  A reply to a request still pending from 2^32 calls earlier is
    matched to the new one; within 2^32 calls no two tokens meet. *)
Theorem coap_tokens_period (c : Z) (i j : nat) :
  0 <= c < 2 ^ 32 ->
  counter_after (Z.to_nat (2 ^ 32)) c = c /\
  (token_bytes (counter_after i c) = token_bytes (counter_after j c) <->
   Z.of_nat i mod 2 ^ 32 = Z.of_nat j mod 2 ^ 32).
Proof.
  intros Hc. split.
  - rewrite counter_after_mod, Z2Nat.id by lia.
    rewrite <- Zplus_mod_idemp_r, Z_mod_same_full, Z.add_0_r. now apply Z.mod_small.
  - rewrite <- counter_after_eq_mod by exact Hc.
    rewrite !counter_after_mod by exact Hc. apply token_bytes_inj; apply Z.mod_pos_bound; lia.
Qed.

Lemma coap_tokens_period_witness :
  (0 <= 7 < 2 ^ 32) /\
  counter_after (Z.to_nat (2 ^ 32)) 7 = 7 /\
  (token_bytes (counter_after 3 7) = token_bytes (counter_after (3 + Z.to_nat (2 ^ 32)) 7) <->
   Z.of_nat 3 mod 2 ^ 32 = Z.of_nat (3 + Z.to_nat (2 ^ 32)) mod 2 ^ 32).
Proof. split; [lia|]. apply coap_tokens_period; lia. Defined.

Lemma coap_tokens_distinct_witness :
  (0 <= 4294967295 < 2 ^ 32 /\ (0 < 1)%nat /\ Z.of_nat 1 < 2 ^ 32) /\
  token_bytes (counter_after 0 4294967295) <> token_bytes (counter_after 1 4294967295).
Proof.
  split; [split; [lia | split; lia] |].
  apply coap_tokens_distinct; lia.
Defined.

End CoapToken.
