(* ===== verification/PathSplit.v ===== *)
(** * The path encoder

    [iotx_split_path_2_option] (iotx_coap_api.c, lines 406-444) checks the
    length of a resource path and walks it with two [char *] cursors: [ptr]
    visits every character, [pstr] marks the start of the current segment.
    At each ['/'] after a non-empty segment it copies the [ptr - pstr]
    characters into the stack buffer [path[COAP_MSG_MAX_PATH_LEN]] and adds
    a URI-path option; at the last character it copies the pending segment,
    at most [sizeof(path) - 1] characters of it.

    A cursor into the C string is modelled by the suffix of the string that
    starts at it: [*p] is the suffix's first character (NUL at the end),
    [p + 1] its tail, and [ptr - pstr] the difference of the two lengths. *)

From Stdlib Require Import ZArith Lia String List Ascii Bool.
From stdpp Require Import base decidable strings.
From S2P Require Import Prelude Defs.
Import ListNotations.
Open Scope Z_scope.

Module PathSplit.

(** [*p] for a cursor [p]. *)
Definition deref (p : string) : ascii :=
  match p with
  | EmptyString => NUL
  | String c _ => c
  end.

Definition slash : ascii := "/"%char.

(** The [while ('\0' != *ptr)] loop; the loop advances [ptr] by one
    character per iteration, so it recurses on the suffix [ptr]. *)
Fixpoint split_loop (ptr pstr : string) (message : CoAPMessage) : outcome CoAPMessage :=
  match ptr with
  | EmptyString => Ok message
  | String c next =>
      if Ascii.eqb c NUL then Ok message else
      (* if ('/' == *ptr) { if (ptr != pstr) { strncpy; add } pstr = ptr + 1; } *)
      let step :=
        if Ascii.eqb c slash then
          if negb (String.length ptr =? String.length pstr)%nat then
            let n := (String.length pstr - String.length ptr)%nat in
            if Z.of_nat n <? COAP_MSG_MAX_PATH_LEN then
              Ok (CoAPStrOption_add message COAP_OPTION_URI_PATH (substring 0 n pstr), next)
            else Stuck (UB "strncpy(path, pstr, ptr - pstr) leaves path without its NUL")
          else Ok (message, next)
        else Ok (message, pstr) in
      match step with
      | Stuck r => Stuck r
      | Ok (m1, pstr1) =>
          (* if ('\0' == *(ptr + 1) && '\0' != *pstr) { strncpy(path, pstr, sizeof(path) - 1); add } *)
          let m2 :=
            if Ascii.eqb (deref next) NUL && negb (Ascii.eqb (deref pstr1) NUL) then
              CoAPStrOption_add m1 COAP_OPTION_URI_PATH
                (strncpy_trunc (COAP_MSG_MAX_PATH_LEN - 1) pstr1)
            else m1 in
          split_loop next pstr1 m2
      end
  end.

(** [iotx_split_path_2_option(uri, message)]: NULL arguments are [None]; it
    returns the code and the message it has added options to. *)
Definition iotx_split_path_2_option (uri : option string) (message : option CoAPMessage)
  : outcome (iotx_ret_code * option CoAPMessage) :=
  match uri, message with
  | Some u, Some m =>
      if IOTX_URI_MAX_LEN <? strlen u then Ok (IOTX_ERR_URI_TOO_LOOG, Some m)
      else match split_loop u u m with
           | Ok m' => Ok (IOTX_SUCCESS, Some m')
           | Stuck r => Stuck r
           end
  | _, _ => Ok (IOTX_ERR_INVALID_PARAM, message)
  end.

(** ** The reference segmentation *)

(** The first segment of [s] and the segments after each ['/']. *)
Fixpoint split_slash (s : string) : string * list string :=
  match s with
  | EmptyString => (EmptyString, [])
  | String c s' =>
      let (cur, rest) := split_slash s' in
      if Ascii.eqb c slash then (EmptyString, cur :: rest) else (String c cur, rest)
  end.

Definition nonempty (x : string) : bool := negb (String.eqb x "").

(** The non-empty segments of a path, in order: what the encoder should add. *)
Definition path_segments (uri : string) : list string :=
  let (cur, rest) := split_slash uri in List.filter nonempty (cur :: rest).

(** Adding one URI-path option per segment. *)
Definition add_uri_paths (m : CoAPMessage) (segs : list string) : CoAPMessage :=
  fold_left (fun m s => CoAPStrOption_add m COAP_OPTION_URI_PATH s) segs m.

(** The segments still to be added when [seg] is pending before [s]. *)
Definition pending_segments (seg s : string) : list string :=
  let (cur, rest) := split_slash s in List.filter nonempty ((seg ++ cur)%string :: rest).

Definition fits_path (x : string) : Prop := strlen x < COAP_MSG_MAX_PATH_LEN.

Fixpoint no_slash (s : string) : bool :=
  match s with
  | EmptyString => true
  | String c s' => negb (Ascii.eqb c slash) && no_slash s'
  end.

(** ** Lemmas on the reference segmentation *)

Lemma add_uri_paths_app m l1 l2 :
  add_uri_paths m (l1 ++ l2) = add_uri_paths (add_uri_paths m l1) l2.
Proof. apply fold_left_app. Qed.

Lemma nonempty_false x : nonempty x = false -> x = "".
Proof. unfold nonempty. destruct (String.eqb_spec x ""); simpl; congruence. Qed.

Lemma pending_segments_nil seg : pending_segments seg "" = List.filter nonempty [seg].
Proof. unfold pending_segments; simpl. now rewrite string_app_nil_r. Qed.

Lemma pending_segments_slash seg c rest :
  Ascii.eqb c slash = true ->
  pending_segments seg (String c rest) = List.filter nonempty [seg] ++ pending_segments "" rest.
Proof.
  intros Hc. unfold pending_segments; simpl.
  destruct (split_slash rest) as [cur r]. rewrite Hc.
  rewrite string_app_nil_r. simpl. now destruct (nonempty seg).
Qed.

Lemma pending_segments_char seg c rest :
  Ascii.eqb c slash = false ->
  pending_segments seg (String c rest) = pending_segments (seg ++ String c "") rest.
Proof.
  intros Hc. unfold pending_segments; simpl.
  destruct (split_slash rest) as [cur r]. rewrite Hc.
  now rewrite string_app_assoc.
Qed.

Lemma deref_app_nonnul seg c rest :
  no_nul (seg ++ String c rest) = true -> Ascii.eqb (deref (seg ++ String c rest)) NUL = false.
Proof.
  destruct seg as [|x seg]; simpl; intros H;
    apply andb_prop in H as [H _]; now apply negb_true_iff in H.
Qed.

Lemma length_eqb_suffix seg ptr :
  (String.length ptr =? String.length (seg ++ ptr))%nat = String.eqb seg "".
Proof.
  rewrite string_length_app.
  destruct seg; simpl; [apply Nat.eqb_refl|]. apply Nat.eqb_neq. lia.
Qed.

#[local] Hint Rewrite pending_segments_nil string_app_nil_r length_eqb_suffix : iotx_rw.

Lemma nonempty_app_cons seg c rest : nonempty (seg ++ String c rest) = true.
Proof. destruct seg; reflexivity. Qed.

Lemma filter_nonempty_one seg c rest :
  List.filter nonempty [(seg ++ String c rest)%string] = [(seg ++ String c rest)%string].
Proof. simpl. now rewrite nonempty_app_cons. Qed.

Lemma no_slash_app a b : no_slash (a ++ b) = no_slash a && no_slash b.
Proof.
  induction a as [|x a IH]; [reflexivity|].
  rewrite string_app_cons. simpl. rewrite IH. apply andb_assoc.
Qed.

Lemma split_loop_cons c next pstr m :
  split_loop (String c next) pstr m =
  if Ascii.eqb c NUL then Ok m else
  match (if Ascii.eqb c slash then
          if negb (String.length (String c next) =? String.length pstr)%nat then
            let n := (String.length pstr - String.length (String c next))%nat in
            if Z.of_nat n <? COAP_MSG_MAX_PATH_LEN then
              Ok (CoAPStrOption_add m COAP_OPTION_URI_PATH (substring 0 n pstr), next)
            else Stuck (UB "strncpy(path, pstr, ptr - pstr) leaves path without its NUL")
          else Ok (m, next)
        else Ok (m, pstr)) with
  | Stuck r => Stuck r
  | Ok (m1, pstr1) =>
      split_loop next pstr1
        (if Ascii.eqb (deref next) NUL && negb (Ascii.eqb (deref pstr1) NUL) then
           CoAPStrOption_add m1 COAP_OPTION_URI_PATH
             (strncpy_trunc (COAP_MSG_MAX_PATH_LEN - 1) pstr1)
         else m1)
  end.
Proof. reflexivity. Qed.

Lemma segment_copy seg p :
  (String.length (seg ++ p) - String.length p)%nat = String.length seg /\
  substring 0 (String.length (seg ++ p) - String.length p) (seg ++ p) = seg.
Proof.
  rewrite string_length_app, Nat.add_sub. split; [reflexivity|].
  apply substring_0_prefix.
Qed.

Lemma fits_head seg l :
  nonempty seg = true -> Forall fits_path (List.filter nonempty [seg] ++ l) ->
  (Z.of_nat (String.length seg) <? COAP_MSG_MAX_PATH_LEN) = true /\ Forall fits_path l.
Proof.
  intros Hn H. simpl in H. rewrite Hn in H. inversion H as [|? ? Hx Hl]; subst.
  split; [apply Z.ltb_lt; exact Hx | exact Hl].
Qed.

Lemma split_loop_pending (rest : string) : forall c seg m,
  no_nul (seg ++ String c rest) = true ->
  no_slash seg = true ->
  Forall fits_path (pending_segments seg (String c rest)) ->
  split_loop (String c rest) (seg ++ String c rest) m =
  Ok (add_uri_paths m (pending_segments seg (String c rest))).
Proof.
  induction rest as [|c' rest IH]; intros c seg m Hnul Hseg Hfit;
    pose proof (deref_app_nonnul seg c _ Hnul) as Hpstr;
    rewrite no_nul_app in Hnul; apply andb_prop in Hnul as [Hnseg Hnc];
    simpl in Hnc; apply andb_prop in Hnc as [Hc Hnrest]; apply negb_true_iff in Hc;
    rewrite split_loop_cons, Hc, length_eqb_suffix; cbv zeta;
    [destruct (segment_copy seg (String c "")) as [-> ->] | destruct (segment_copy seg (String c (String c' rest))) as [-> ->]];
    destruct (Ascii.eqb c slash) eqn:Hs.
  - (* '/' is the last character *)
    rewrite pending_segments_slash in * by exact Hs.
    destruct (nonempty seg) eqn:Hn.
    + destruct (fits_head seg _ Hn Hfit) as [Hlt _].
      replace (negb (seg =? "")%string) with true by (symmetry; exact Hn).
      rewrite Hlt. simpl. now rewrite Hn.
    + apply nonempty_false in Hn; subst seg. reflexivity.
  - (* another character is the last one *)
    rewrite pending_segments_char in * by exact Hs.
    rewrite Hpstr. rewrite pending_segments_nil, filter_nonempty_one in *.
    inversion Hfit as [|? ? Hx _]; subst. simpl.
    rewrite strncpy_trunc_fits by (unfold fits_path in Hx; lia).
    reflexivity.
  - (* '/' followed by more characters *)
    apply andb_prop in Hnrest as [Hc' Hnrest]. apply negb_true_iff in Hc'.
    cbn [deref]. rewrite Hc'. simpl andb.
    rewrite pending_segments_slash in * by exact Hs.
    destruct (nonempty seg) eqn:Hn.
    + destruct (fits_head seg _ Hn Hfit) as [Hlt Hrest].
      replace (negb (seg =? "")%string) with true by (symmetry; exact Hn).
      rewrite Hlt. simpl. rewrite Hn. simpl.
      apply (IH c' "" _); simpl; auto. now rewrite Hc'.
    + apply nonempty_false in Hn; subst seg. simpl.
      apply (IH c' "" _); simpl; auto. now rewrite Hc'.
  - (* another character followed by more characters *)
    apply andb_prop in Hnrest as [Hc' Hnrest]. apply negb_true_iff in Hc'.
    cbn [deref]. rewrite Hc'. simpl andb.
    rewrite pending_segments_char in * by exact Hs.
    replace (seg ++ String c (String c' rest))%string
      with ((seg ++ String c "") ++ String c' rest)%string
      by (now rewrite string_app_assoc).
    apply IH; auto.
    + rewrite !no_nul_app. simpl. now rewrite Hnseg, Hc, Hc', Hnrest.
    + rewrite no_slash_app. simpl. now rewrite Hseg, Hs.
Qed.


Lemma pending_segments_empty s : pending_segments "" s = path_segments s.
Proof. unfold pending_segments, path_segments. now destruct (split_slash s). Qed.

Lemma deref_app_ne seg p :
  no_nul seg = true -> deref p <> NUL -> Ascii.eqb (deref (seg ++ p)) NUL = false.
Proof.
  destruct seg as [|x seg]; simpl; intros H Hp.
  - now apply Ascii.eqb_neq.
  - apply andb_prop in H as [H _]. now apply negb_true_iff.
Qed.

(** Characters other than ['/'] before a non-empty remainder leave the
    message and [pstr] untouched. *)
Lemma split_loop_skip (seg : string) : forall pre p m,
  no_nul seg = true -> no_slash seg = true -> deref p <> NUL ->
  split_loop (seg ++ p) (pre ++ seg ++ p) m = split_loop p (pre ++ seg ++ p) m.
Proof.
  induction seg as [|c seg IH]; intros pre p m Hnul Hsl Hp; [reflexivity|].
  simpl in Hnul, Hsl. apply andb_prop in Hnul as [Hc Hnul]. apply andb_prop in Hsl as [Hs Hsl].
  apply negb_true_iff in Hc, Hs.
  rewrite string_app_cons, split_loop_cons, Hc, Hs.
  rewrite (deref_app_ne seg p Hnul Hp). simpl andb. cbv iota.
  replace (pre ++ String c (seg ++ p))%string with ((pre ++ String c "") ++ seg ++ p)%string
    by (now rewrite string_app_assoc).
  apply IH; auto.
Qed.

Lemma string_snoc_cases (s : string) : s = "" \/ exists s' c, s = (s' ++ String c "")%string.
Proof.
  induction s as [|x s [->|[s' [c ->]]]]; [now left| |]; right.
  - now exists "", x.
  - exists (String x s'), c. reflexivity.
Qed.

Lemma no_nul_no_slash_snoc s c :
  no_nul (s ++ String c "") = true -> no_slash (s ++ String c "") = true ->
  no_nul s = true /\ no_slash s = true /\ Ascii.eqb c NUL = false /\ Ascii.eqb c slash = false.
Proof.
  rewrite no_nul_app, no_slash_app. simpl. rewrite !andb_true_r.
  intros [H1 H2]%andb_prop [H3 H4]%andb_prop.
  apply negb_true_iff in H2, H4. auto.
Qed.

Lemma split_path_ok (uri : string) (m : CoAPMessage) :
  no_nul uri = true -> strlen uri <= IOTX_URI_MAX_LEN ->
  Forall fits_path (path_segments uri) ->
  iotx_split_path_2_option (Some uri) (Some m) =
  Ok (IOTX_SUCCESS, Some (add_uri_paths m (path_segments uri))).
Proof.
  intros Hnul Hlen Hfit. unfold iotx_split_path_2_option.
  replace (IOTX_URI_MAX_LEN <? strlen uri) with false by (symmetry; apply Z.ltb_ge; lia).
  destruct uri as [|c rest]; [reflexivity|].
  rewrite <- pending_segments_empty in *.
  change (split_loop (String c rest) (String c rest) m)
    with (split_loop (String c rest) ("" ++ String c rest) m).
  now rewrite split_loop_pending.
Qed.

Lemma uri_path_options_str_add m s :
  uri_path_options (CoAPStrOption_add m COAP_OPTION_URI_PATH s) = uri_path_options m ++ [s].
Proof. unfold uri_path_options. simpl. rewrite flat_map_app. reflexivity. Qed.

Lemma uri_path_options_add_uri_paths m segs :
  uri_path_options (add_uri_paths m segs) = uri_path_options m ++ segs.
Proof.
  revert m. induction segs as [|x segs IH]; intros m; simpl.
  - now rewrite app_nil_r.
  - rewrite IH, uri_path_options_str_add. now rewrite <- app_assoc.
Qed.

Lemma add_uri_paths_header m segs :
  cm_type (add_uri_paths m segs) = cm_type m /\ cm_code (add_uri_paths m segs) = cm_code m /\
  cm_msgid (add_uri_paths m segs) = cm_msgid m /\ cm_token (add_uri_paths m segs) = cm_token m /\
  cm_handler (add_uri_paths m segs) = cm_handler m /\ cm_user (add_uri_paths m segs) = cm_user m /\
  cm_payload (add_uri_paths m segs) = cm_payload m.
Proof.
  revert m. induction segs as [|x segs IH]; intros m; [now repeat split|].
  exact (IH (CoAPStrOption_add m COAP_OPTION_URI_PATH x)).
Qed.

Lemma split_loop_not_nofuel ptr : forall pstr m, split_loop ptr pstr m <> Stuck NoFuel.
Proof.
  induction ptr as [|c next IH]; intros pstr m; [discriminate|].
  rewrite split_loop_cons. cbv zeta.
  repeat match goal with |- context [if ?b then _ else _] => destruct b end;
    try discriminate; apply IH.
Qed.

(** The encoder gets stuck only on undefined behaviour. *)
Lemma split_path_not_nofuel u m : iotx_split_path_2_option u m <> Stuck NoFuel.
Proof.
  unfold iotx_split_path_2_option. destruct u, m; try discriminate.
  destruct (_ <? _); [discriminate|].
  destruct (split_loop s s c) eqn:E; [discriminate|].
  intros F. inversion F; subst. now apply (split_loop_not_nofuel s s c).
Qed.

(** C21 (equivalence): on a C string within [IOTX_URI_MAX_LEN] whose
    non-empty segments fit the [path] buffer, [iotx_split_path_2_option]
    succeeds and adds exactly the non-empty ['/']-separated segments of the
    path, in order, as URI-path options. *)
Theorem split_path_2_option_segments (uri : string) (m : CoAPMessage) :
  no_nul uri = true -> strlen uri <= IOTX_URI_MAX_LEN ->
  Forall fits_path (path_segments uri) ->
  iotx_split_path_2_option (Some uri) (Some m) =
  Ok (IOTX_SUCCESS, Some (add_uri_paths m (path_segments uri))) /\
  uri_path_options (add_uri_paths m (path_segments uri)) = uri_path_options m ++ path_segments uri.
Proof.
  intros Hnul Hlen Hfit. split.
  - now apply split_path_ok.
  - apply uri_path_options_add_uri_paths.
Qed.

Lemma split_path_2_option_segments_witness :
  (no_nul "/a/b/c" = true /\ strlen "/a/b/c" <= IOTX_URI_MAX_LEN /\
   Forall fits_path (path_segments "/a/b/c")) /\
  iotx_split_path_2_option (Some "/a/b/c") (Some CoAPMessage_init) =
  Ok (IOTX_SUCCESS, Some (add_uri_paths CoAPMessage_init (path_segments "/a/b/c"))) /\
  uri_path_options (add_uri_paths CoAPMessage_init (path_segments "/a/b/c")) =
  uri_path_options CoAPMessage_init ++ path_segments "/a/b/c".
Proof.
  assert (H : no_nul "/a/b/c" = true /\ strlen "/a/b/c" <= IOTX_URI_MAX_LEN /\
              Forall fits_path (path_segments "/a/b/c")).
  { split; [reflexivity|]. split; [vm_compute; discriminate|].
    repeat constructor; vm_compute; reflexivity. }
  split; [exact H|]. destruct H as (H1 & H2 & H3).
  apply split_path_2_option_segments; assumption.
Defined.

(** C34 (error): a path longer than [IOTX_URI_MAX_LEN] is refused with
    [IOTX_ERR_URI_TOO_LOOG] and the message is left unchanged; a path of
    exactly [IOTX_URI_MAX_LEN] characters passes the check (C4). *)
Theorem split_path_2_option_too_long (uri : string) (m : CoAPMessage) :
  IOTX_URI_MAX_LEN < strlen uri ->
  iotx_split_path_2_option (Some uri) (Some m) = Ok (IOTX_ERR_URI_TOO_LOOG, Some m).
Proof.
  intros H. unfold iotx_split_path_2_option.
  now replace (IOTX_URI_MAX_LEN <? strlen uri) with true by (symmetry; apply Z.ltb_lt; lia).
Qed.

(** C30 (safety, a defect of the code): a segment of [COAP_MSG_MAX_PATH_LEN]
    characters or more followed by ['/'] is copied with
    [strncpy(path, pstr, ptr - pstr)] into [path[COAP_MSG_MAX_PATH_LEN]]: the
    copy overruns the buffer or leaves it without its NUL, although the path
    passes the [IOTX_URI_MAX_LEN] check. *)
Theorem split_path_middle_segment_overrun (seg rest : string) (m : CoAPMessage) :
  no_nul (seg ++ "/" ++ rest)%string = true -> no_slash seg = true ->
  COAP_MSG_MAX_PATH_LEN <= strlen seg ->
  strlen (seg ++ "/" ++ rest)%string <= IOTX_URI_MAX_LEN ->
  exists why, iotx_split_path_2_option (Some (seg ++ "/" ++ rest)%string) (Some m) = Stuck (UB why).
Proof.
  intros Hnul Hsl Hseg Hlen. unfold iotx_split_path_2_option.
  replace (IOTX_URI_MAX_LEN <? strlen _) with false by (symmetry; apply Z.ltb_ge; lia).
  rewrite no_nul_app in Hnul. apply andb_prop in Hnul as [Hnseg _].
  change (split_loop (seg ++ "/" ++ rest)%string (seg ++ "/" ++ rest)%string m)
    with (split_loop (seg ++ String slash rest)%string ("" ++ seg ++ String slash rest)%string m).
  rewrite split_loop_skip by (auto; discriminate).
  rewrite split_loop_cons. cbn [Ascii.eqb Bool.eqb NUL slash Ascii.zero]. simpl (Ascii.eqb _ _).
  rewrite string_app_nil_l, length_eqb_suffix.
  destruct (segment_copy seg (String slash rest)) as [-> _].
  replace (seg =? "")%string with false.
  2:{ destruct seg; [unfold strlen in Hseg; simpl in Hseg; unfold COAP_MSG_MAX_PATH_LEN in Hseg; lia|]. reflexivity. }
  replace (Z.of_nat (String.length seg) <? COAP_MSG_MAX_PATH_LEN) with false
    by (symmetry; apply Z.ltb_ge; unfold strlen in Hseg; lia).
  eexists. reflexivity.
Qed.

(** C35 (functional, a defect of the code): a path that is one segment is
    copied with [strncpy(path, pstr, sizeof(path) - 1)]: the option holds its
    first [COAP_MSG_MAX_PATH_LEN - 1] characters, and a longer last segment
    is cut silently where the same segment before a ['/'] is an overrun
    (C6). *)
Theorem split_path_last_segment_truncated (seg : string) (m : CoAPMessage) :
  seg <> "" -> no_nul seg = true -> no_slash seg = true -> strlen seg <= IOTX_URI_MAX_LEN ->
  iotx_split_path_2_option (Some seg) (Some m) =
  Ok (IOTX_SUCCESS, Some (CoAPStrOption_add m COAP_OPTION_URI_PATH
                            (strncpy_trunc (COAP_MSG_MAX_PATH_LEN - 1) seg))).
Proof.
  intros Hne Hnul Hsl Hlen. unfold iotx_split_path_2_option.
  replace (IOTX_URI_MAX_LEN <? strlen seg) with false by (symmetry; apply Z.ltb_ge; lia).
  destruct (string_snoc_cases seg) as [->|[s [c ->]]]; [congruence|].
  destruct (no_nul_no_slash_snoc s c Hnul Hsl) as (Hn & Hs & Hc & Hcs).
  change (split_loop (s ++ String c "")%string (s ++ String c "")%string m)
    with (split_loop (s ++ String c "")%string ("" ++ s ++ String c "")%string m).
  rewrite split_loop_skip by (auto; simpl; intros E; rewrite E in Hc; discriminate).
  rewrite split_loop_cons, Hc, Hcs, string_app_nil_l.
  cbn [deref]. rewrite deref_app_ne by (auto; simpl; intros E; rewrite E in Hc; discriminate).
  reflexivity.
Qed.

Lemma split_path_2_option_too_long_witness :
  IOTX_URI_MAX_LEN < strlen (string_of_list_ascii (repeat "a"%char 136)) /\
  iotx_split_path_2_option (Some (string_of_list_ascii (repeat "a"%char 136)))
    (Some CoAPMessage_init) = Ok (IOTX_ERR_URI_TOO_LOOG, Some CoAPMessage_init).
Proof.
  assert (H : IOTX_URI_MAX_LEN < strlen (string_of_list_ascii (repeat "a"%char 136)))
    by (vm_compute; reflexivity).
  split; [exact H | apply split_path_2_option_too_long; exact H].
Defined.

Lemma split_path_middle_segment_overrun_witness :
  (no_nul (string_of_list_ascii (repeat "a"%char 128) ++ "/" ++ "b")%string = true /\
   no_slash (string_of_list_ascii (repeat "a"%char 128)) = true /\
   COAP_MSG_MAX_PATH_LEN <= strlen (string_of_list_ascii (repeat "a"%char 128)) /\
   strlen (string_of_list_ascii (repeat "a"%char 128) ++ "/" ++ "b")%string <= IOTX_URI_MAX_LEN) /\
  exists why, iotx_split_path_2_option
    (Some (string_of_list_ascii (repeat "a"%char 128) ++ "/" ++ "b")%string)
    (Some CoAPMessage_init) = Stuck (UB why).
Proof.
  assert (H1 : no_nul (string_of_list_ascii (repeat "a"%char 128) ++ "/" ++ "b")%string = true)
    by reflexivity.
  assert (H2 : no_slash (string_of_list_ascii (repeat "a"%char 128)) = true) by reflexivity.
  assert (H3 : COAP_MSG_MAX_PATH_LEN <= strlen (string_of_list_ascii (repeat "a"%char 128)))
    by (vm_compute; discriminate).
  assert (H4 : strlen (string_of_list_ascii (repeat "a"%char 128) ++ "/" ++ "b")%string
               <= IOTX_URI_MAX_LEN) by (vm_compute; discriminate).
  split; [auto|]. apply split_path_middle_segment_overrun; assumption.
Defined.

Lemma split_path_last_segment_truncated_witness :
  (string_of_list_ascii (repeat "a"%char 130) <> "" /\
   no_nul (string_of_list_ascii (repeat "a"%char 130)) = true /\
   no_slash (string_of_list_ascii (repeat "a"%char 130)) = true /\
   strlen (string_of_list_ascii (repeat "a"%char 130)) <= IOTX_URI_MAX_LEN) /\
  iotx_split_path_2_option (Some (string_of_list_ascii (repeat "a"%char 130)))
    (Some CoAPMessage_init) =
  Ok (IOTX_SUCCESS, Some (CoAPStrOption_add CoAPMessage_init COAP_OPTION_URI_PATH
                            (string_of_list_ascii (repeat "a"%char 127)))).
Proof.
  assert (H1 : string_of_list_ascii (repeat "a"%char 130) <> "") by discriminate.
  assert (H2 : no_nul (string_of_list_ascii (repeat "a"%char 130)) = true) by reflexivity.
  assert (H3 : no_slash (string_of_list_ascii (repeat "a"%char 130)) = true) by reflexivity.
  assert (H4 : strlen (string_of_list_ascii (repeat "a"%char 130)) <= IOTX_URI_MAX_LEN)
    by (vm_compute; discriminate).
  split; [auto|]. rewrite (split_path_last_segment_truncated _ _ H1 H2 H3 H4).
  reflexivity.
Defined.


End PathSplit.
