(* ===== verification/Platform.v ===== *)
(** * Interfaces of the collaborators

    [iotx_coap_api.c] calls two collaborators that are not part of [src/]:
    - the host platform ([iot_import.h], [utils_hmac.h], [lite-utils.h],
      [utils_sysinfo]): the HMAC, the JSON lookup, the partner and module
      identifiers, the formatting of the module-id report;
    - the CoAP engine ([CoAPExport.h], [CoAPMessage.h]): message ids,
      sending, reading datagrams, pairing a response with the request that
      carried its token, creating a context.
    Each is a class: the client's theorems are proved against the class, with
    the laws stated here, and [Scripted] gives one instance of each. *)

From Stdlib Require Import ZArith Lia String List.
From stdpp Require Import base decidable.
From S2P Require Import Prelude Defs.
Import ListNotations.
Open Scope Z_scope.

(** A datagram the engine reads from the network. *)
Record datagram := mk_datagram {
  dg_type : coap_msg_type;
  dg_code : Z;
  dg_token : list Z;
  dg_payload : string
}.

(** The size the engine reports for a datagram it has read: a 4-byte
    header, the token, the payload. *)
Definition datagram_len (d : datagram) : Z :=
  4 + Z.of_nat (length (dg_token d)) + strlen (dg_payload d).

Class HostPlatform := {
  (** [utils_hmac_md5(msg, len, digest, key, keylen)]: the hex digest. *)
  utils_hmac_md5 : string -> string -> string;
  (** [LITE_json_value_of(key, src)]: a freshly allocated copy of the value,
      or NULL. *)
  LITE_json_value_of : string -> string -> option string;
  (** [HAL_GetPartnerID], [HAL_GetModuleID]: the identifiers they write. *)
  HAL_GetPartnerID : string;
  HAL_GetModuleID : string;
  (** [iotx_midreport_reqid], [iotx_midreport_payload],
      [iotx_midreport_topic] (None when it returns a negative code). *)
  iotx_midreport_reqid : string -> string -> string;
  iotx_midreport_payload : string -> string -> string -> string;
  iotx_midreport_topic : string -> string -> string -> option string
}.

Class CoapEngine (ctx : Type) := {
  CoAPMessageId_gen : ctx -> Z * ctx;
  CoAPMessage_send : ctx -> CoAPMessage -> coap_ret * ctx;
  (** One [CoAPNetwork_read] within the wait time: [None] on a timeout. *)
  coap_read : ctx -> option (datagram * ctx);
  (** The pending request whose token the datagram carries, removed from
      the send list: its handler and user data. *)
  coap_match : ctx -> datagram -> option (coap_handler * ptr) * ctx;
  (** [CoAPContext_create] with the url, the maximum count of pending
      requests and the wait time. *)
  CoAPContext_create : string -> Z -> Z -> option ctx;
  (** Observations: the messages handed to the network, and how many
      datagrams are still to arrive. *)
  engine_sent : ctx -> list CoAPMessage;
  engine_inbox : ctx -> nat;

  msgid_gen_sent : forall c, engine_sent (snd (CoAPMessageId_gen c)) = engine_sent c;
  msgid_gen_inbox : forall c, engine_inbox (snd (CoAPMessageId_gen c)) = engine_inbox c;
  send_sent : forall c m,
    engine_sent (snd (CoAPMessage_send c m)) =
    engine_sent c ++ (if decide (fst (CoAPMessage_send c m) = COAP_SUCCESS) then [m] else []);
  send_inbox : forall c m, engine_inbox (snd (CoAPMessage_send c m)) = engine_inbox c;
  read_sent : forall c d c', coap_read c = Some (d, c') -> engine_sent c' = engine_sent c;
  read_inbox : forall c d c', coap_read c = Some (d, c') -> (engine_inbox c' < engine_inbox c)%nat;
  (** A read times out only when no datagram is still to arrive. *)
  read_none : forall c, coap_read c = None -> engine_inbox c = O;
  match_sent : forall c d, engine_sent (snd (coap_match c d)) = engine_sent c;
  match_inbox : forall c d, engine_inbox (snd (coap_match c d)) = engine_inbox c;
  (** A fresh context has handed nothing to the network. *)
  create_sent : forall url n t c, CoAPContext_create url n t = Some c -> engine_sent c = [];
  (** The network: a datagram arrives for the context, to be read after
      those already on their way. *)
  coap_deliver : ctx -> datagram -> ctx;
  deliver_sent : forall c d, engine_sent (coap_deliver c d) = engine_sent c;
  deliver_inbox : forall c d, engine_inbox (coap_deliver c d) = S (engine_inbox c)
}.

Arguments engine_sent {ctx _} _.
Arguments engine_inbox {ctx _} _.
