(* ===== verification/Session.v ===== *)
(** * The session object and the state of a run

    [iotx_coap_t] (iotx_coap_api.c, lines 46-54) is the session: the auth
    token buffer and its capacity, the [is_authed] flag, the device identity,
    the CoAP engine context, the correlation counter and the application's
    event handle.  A run of the client threads a [world]: the session object
    [p_context] points to (absent before [IOT_CoAP_Init] and after
    [IOT_CoAP_Deinit]), the count of live heap blocks the file allocated, the
    outcomes of the next allocations ([coap_malloc], [HAL_Malloc], the copy
    made by [LITE_json_value_of]; all succeed once the list is exhausted) and
    the time spent in [HAL_SleepMs].  This file gives the primitives the
    handlers are written with. *)

From Stdlib Require Import ZArith Lia String List.
From stdpp Require Import base decidable.
From S2P Require Import Prelude Defs CoapToken Platform.
Import ListNotations.
Open Scope Z_scope.
Local Open Scope iotx_scope.

(** [iotx_coap_t]: NULL pointers are [None]; the token buffer is modelled by
    its contents. *)
Record iotx_coap_t (ctx : Type) := mk_session {
  p_auth_token : option string;
  auth_token_len : Z;
  is_authed : bool;
  p_devinfo : option iotx_deviceinfo_t;
  p_coap_ctx : option ctx;
  coap_token : Z;
  event_handle : option Z
}.
Arguments mk_session {ctx}.
Arguments p_auth_token {ctx}. Arguments auth_token_len {ctx}. Arguments is_authed {ctx}.
Arguments p_devinfo {ctx}. Arguments p_coap_ctx {ctx}. Arguments coap_token {ctx}.
Arguments event_handle {ctx}.

Record world (ctx : Type) := mk_world {
  w_session : option (iotx_coap_t ctx);
  w_heap : Z;
  w_malloc : list bool;
  w_slept : Z
}.
Arguments mk_world {ctx}.
Arguments w_session {ctx}. Arguments w_heap {ctx}. Arguments w_malloc {ctx}.
Arguments w_slept {ctx}.

Section Primitives.
Context {ctx : Type} `{CoapEngine ctx}.

Local Abbreviation M := (ST (world ctx)).

(** ** Field updates *)

Definition set_auth_token (t : option string) (s : iotx_coap_t ctx) : iotx_coap_t ctx :=
  mk_session t (auth_token_len s) (is_authed s) (p_devinfo s) (p_coap_ctx s)
    (coap_token s) (event_handle s).
Definition set_is_authed (b : bool) (s : iotx_coap_t ctx) : iotx_coap_t ctx :=
  mk_session (p_auth_token s) (auth_token_len s) b (p_devinfo s) (p_coap_ctx s)
    (coap_token s) (event_handle s).
Definition set_coap_ctx (c : option ctx) (s : iotx_coap_t ctx) : iotx_coap_t ctx :=
  mk_session (p_auth_token s) (auth_token_len s) (is_authed s) (p_devinfo s) c
    (coap_token s) (event_handle s).
Definition set_coap_token (n : Z) (s : iotx_coap_t ctx) : iotx_coap_t ctx :=
  mk_session (p_auth_token s) (auth_token_len s) (is_authed s) (p_devinfo s)
    (p_coap_ctx s) n (event_handle s).

Definition set_session (o : option (iotx_coap_t ctx)) (w : world ctx) : world ctx :=
  mk_world o (w_heap w) (w_malloc w) (w_slept w).

(** ** The session behind [p_context] *)

Definition sess_get : M (iotx_coap_t ctx) :=
  fun w => match w_session w with
           | Some s => Ok (s, w)
           | None => Stuck (UB "p_context points to no live iotx_coap_t")
           end.

Definition sess_put (s : iotx_coap_t ctx) : M unit :=
  fun w => Ok (tt, set_session (Some s) w).

Definition sess_update (f : iotx_coap_t ctx -> iotx_coap_t ctx) : M unit :=
  s <- sess_get ;; sess_put (f s).

(** ** Heap and host *)

(** [coap_malloc] / [HAL_Malloc]: [true] for a non-NULL block. *)
Definition coap_malloc : M bool :=
  fun w => match w_malloc w with
           | [] => Ok (true, mk_world (w_session w) (w_heap w + 1) [] (w_slept w))
           | b :: rest =>
               Ok (b, mk_world (w_session w) (if b then w_heap w + 1 else w_heap w) rest (w_slept w))
           end.

Definition coap_free : M unit :=
  fun w => Ok (tt, mk_world (w_session w) (w_heap w - 1) (w_malloc w) (w_slept w)).

Definition HAL_SleepMs (ms : Z) : M unit :=
  fun w => Ok (tt, mk_world (w_session w) (w_heap w) (w_malloc w) (w_slept w + ms)).

(** ** The engine context of the session *)

(** Run an engine operation on [p_iotx_coap->p_coap_ctx]. *)
Definition with_ctx {A} (f : ctx -> A * ctx) : M A :=
  s <- sess_get ;;
  match p_coap_ctx s with
  | None => st_stuck (UB "p_coap_ctx is NULL")
  | Some c => let (a, c') := f c in sess_put (set_coap_ctx (Some c') s) ;; ret a
  end.

Definition msgid_gen : M Z := with_ctx CoAPMessageId_gen.
Definition msg_send (m : CoAPMessage) : M coap_ret := with_ctx (fun c => CoAPMessage_send c m).
Definition net_read : M (option datagram) :=
  with_ctx (fun c => match coap_read c with
                     | None => (None, c)
                     | Some (d, c') => (Some d, c')
                     end).
Definition net_match (d : datagram) : M (option (coap_handler * ptr)) :=
  with_ctx (fun c => coap_match c d).

(** [iotx_get_coap_token(p_iotx_coap, token)] on the session: the bytes
    written into [token], the counter post-incremented. *)
Definition get_coap_token : M (list Z) :=
  s <- sess_get ;;
  let '(bytes, _, next) := CoapToken.iotx_get_coap_token (coap_token s) in
  sess_put (set_coap_token next s) ;; ret bytes.

(** ** Observations *)

Definition sent_of (w : world ctx) : list CoAPMessage :=
  match w_session w with
  | Some s => match p_coap_ctx s with Some c => engine_sent c | None => [] end
  | None => []
  end.

Definition inbox_of (w : world ctx) : nat :=
  match w_session w with
  | Some s => match p_coap_ctx s with Some c => engine_inbox c | None => O end
  | None => O
  end.

(** ** Lemmas *)

Lemma sess_get_ok (w : world ctx) s : w_session w = Some s -> sess_get w = Ok (s, w).
Proof. intros E. unfold sess_get. now rewrite E. Qed.

Lemma set_session_session (w : world ctx) o : w_session (set_session o w) = o.
Proof. reflexivity. Qed.

Lemma set_session_twice (w : world ctx) o o' :
  set_session o' (set_session o w) = set_session o' w.
Proof. reflexivity. Qed.

Lemma with_ctx_ok {A} (f : ctx -> A * ctx) (w : world ctx) s c :
  w_session w = Some s -> p_coap_ctx s = Some c ->
  with_ctx f w = Ok (fst (f c), set_session (Some (set_coap_ctx (Some (snd (f c))) s)) w).
Proof.
  intros Ew Ec. unfold with_ctx, sess_put. st_unfold. rewrite (sess_get_ok w s Ew), Ec.
  now destruct (f c).
Qed.

Lemma get_coap_token_ok (w : world ctx) s :
  w_session w = Some s ->
  get_coap_token w =
  Ok (CoapToken.token_bytes (coap_token s),
      set_session (Some (set_coap_token (u32 (coap_token s + 1)) s)) w).
Proof. intros Ew. unfold get_coap_token, sess_put. st_unfold. now rewrite (sess_get_ok w s Ew). Qed.

Lemma sent_of_set (w : world ctx) s c :
  p_coap_ctx s = Some c -> sent_of (set_session (Some s) w) = engine_sent c.
Proof. intros E. unfold sent_of. simpl. now rewrite E. Qed.

Lemma inbox_of_set (w : world ctx) s c :
  p_coap_ctx s = Some c -> inbox_of (set_session (Some s) w) = engine_inbox c.
Proof. intros E. unfold inbox_of. simpl. now rewrite E. Qed.

End Primitives.
