(* ===== verification/Scripted.v ===== *)
(** * One instance of each collaborator

    [script_ctx] is a CoAP engine driven by a script: the datagrams the
    server will send are queued in [sc_inbox]; a sent confirmable request
    waits in [sc_pending] until a datagram with its token arrives; every
    message handed to the network is logged in [sc_sent]; a message whose
    serialized size exceeds [COAP_MSG_MAX_PDU_LEN] is refused with
    [COAP_ERROR_DATA_SIZE], as [CoAPMessage_send] does.  [scripted_platform]
    is a host platform whose [LITE_json_value_of] finds the string value of
    a key in a flat JSON object and whose HMAC is a deterministic stand-in.
    Both discharge the laws of [Platform]; the witnesses of the development
    run on them. *)

From Stdlib Require Import ZArith Lia String List Ascii.
From stdpp Require Import base decidable.
From S2P Require Import Prelude Defs Platform Session.
Import ListNotations.
Open Scope Z_scope.

Module Scripted.

Record script_ctx := mk_sctx {
  sc_next_mid : Z;
  sc_pending : list (list Z * coap_handler * ptr);
  sc_sent : list CoAPMessage;
  sc_inbox : list datagram
}.

(** The serialized size of a message: header, token, options, payload. *)
Definition opt_len (o : coap_option) : Z :=
  match opt_val o with
  | OptStr s => 1 + strlen s
  | OptUint _ => 3
  end.

Definition msg_wire_len (m : CoAPMessage) : Z :=
  4 + Z.of_nat (length (cm_token m)) + fold_right (fun o acc => opt_len o + acc) 0 (cm_options m)
  + (if String.eqb (cm_payload m) "" then 0 else 1 + strlen (cm_payload m)).

Definition sc_msgid_gen (c : script_ctx) : Z * script_ctx :=
  (sc_next_mid c,
   mk_sctx ((sc_next_mid c + 1) mod 2 ^ 16) (sc_pending c) (sc_sent c) (sc_inbox c)).

Definition sc_send (c : script_ctx) (m : CoAPMessage) : coap_ret * script_ctx :=
  if COAP_MSG_MAX_PDU_LEN <? msg_wire_len m then (COAP_ERROR_DATA_SIZE, c)
  else (COAP_SUCCESS,
        mk_sctx (sc_next_mid c)
          (if decide (cm_type m = COAP_MESSAGE_TYPE_CON)
           then sc_pending c ++ [(cm_token m, cm_handler m, cm_user m)] else sc_pending c)
          (sc_sent c ++ [m]) (sc_inbox c)).

Definition sc_read (c : script_ctx) : option (datagram * script_ctx) :=
  match sc_inbox c with
  | [] => None
  | d :: rest => Some (d, mk_sctx (sc_next_mid c) (sc_pending c) (sc_sent c) rest)
  end.

Fixpoint take_pending (tok : list Z) (l : list (list Z * coap_handler * ptr))
  : option (coap_handler * ptr) * list (list Z * coap_handler * ptr) :=
  match l with
  | [] => (None, [])
  | (t, h, u) :: rest =>
      if decide (t = tok) then (Some (h, u), rest)
      else let (r, rest') := take_pending tok rest in (r, (t, h, u) :: rest')
  end.

Definition sc_match (c : script_ctx) (d : datagram) : option (coap_handler * ptr) * script_ctx :=
  let (r, pend) := take_pending (dg_token d) (sc_pending c) in
  (r, mk_sctx (sc_next_mid c) pend (sc_sent c) (sc_inbox c)).

Definition sc_create (url : string) (maxcount waittime : Z) : option script_ctx :=
  Some (mk_sctx 1 [] [] []).

Definition sc_deliver (c : script_ctx) (d : datagram) : script_ctx :=
  mk_sctx (sc_next_mid c) (sc_pending c) (sc_sent c) (sc_inbox c ++ [d]).

#[export] Instance script_engine : CoapEngine script_ctx.
Proof.
  refine {| CoAPMessageId_gen := sc_msgid_gen; CoAPMessage_send := sc_send;
            coap_read := sc_read; coap_match := sc_match; CoAPContext_create := sc_create;
            coap_deliver := sc_deliver;
            engine_sent := sc_sent; engine_inbox := fun c => length (sc_inbox c) |}.
  - reflexivity.
  - reflexivity.
  - intros c m. unfold sc_send. destruct (COAP_MSG_MAX_PDU_LEN <? msg_wire_len m); simpl.
    + now rewrite app_nil_r.
    + reflexivity.
  - intros c m. unfold sc_send. now destruct (COAP_MSG_MAX_PDU_LEN <? msg_wire_len m).
  - intros c d c'. unfold sc_read. destruct (sc_inbox c); intros E; inversion E; reflexivity.
  - intros c d c'. unfold sc_read. destruct (sc_inbox c); intros E; inversion E; simpl; lia.
  - intros c. unfold sc_read. now destruct (sc_inbox c).
  - intros c d. unfold sc_match. now destruct (take_pending _ _).
  - intros c d. unfold sc_match. now destruct (take_pending _ _).
  - intros url n t c E. injection E as <-. reflexivity.
  - reflexivity.
  - intros c d. unfold sc_deliver. simpl. rewrite length_app. simpl. lia.
Defined.

(** ** The platform *)

Definition dq_char : ascii := ascii_of_nat 34.

(** The characters before the next double quote. *)
Fixpoint take_until_quote (s : string) : option string :=
  match s with
  | EmptyString => None
  | String c r =>
      if Ascii.eqb c dq_char then Some EmptyString
      else option_map (String c) (take_until_quote r)
  end.

(** The string value that follows the pattern [pat] (the quoted key, a
    colon and an opening quote) at its first occurrence in [src]. *)
Fixpoint json_lookup (pat src : string) : option string :=
  match src with
  | EmptyString => None
  | String _ r =>
      if String.prefix pat src then take_until_quote (substring (String.length pat)
                                                        (String.length src) src)
      else json_lookup pat r
  end.

Definition json_value_of (key src : string) : option string :=
  json_lookup (dq ++ key ++ dq ++ ":" ++ dq)%string src.

Definition hmac_stub (msg key : string) : string :=
  substring 0 32 (msg ++ key ++ "00000000000000000000000000000000")%string.

Definition scripted_platform (pid mid : string) : HostPlatform := {|
  utils_hmac_md5 := hmac_stub;
  LITE_json_value_of := json_value_of;
  HAL_GetPartnerID := pid;
  HAL_GetModuleID := mid;
  iotx_midreport_reqid := fun pk dn => ("MID-" ++ pk ++ "-" ++ dn)%string;
  iotx_midreport_payload := fun reqid m p =>
    ("{" ++ json_field "id" reqid ++ "," ++ json_field "mid" m ++ "," ++ json_field "pid" p ++ "}")%string;
  iotx_midreport_topic := fun prefix pk dn =>
    Some (prefix ++ "/sys/" ++ pk ++ "/" ++ dn ++ "/thing/status/update")%string
|}.

(** ** Sessions to run the handlers on *)

Definition demo_devinfo : iotx_deviceinfo_t := mk_devinfo "a1PK" "dev1" "id1" "secret".

Definition demo_session (authed : bool) (pending : list (list Z * coap_handler * ptr))
  (inbox : list datagram) : iotx_coap_t script_ctx :=
  mk_session (Some "T123"%string) IOTX_AUTH_TOKEN_LEN authed (Some demo_devinfo)
    (Some (mk_sctx 1 pending [] inbox)) IOTX_COAP_INIT_TOKEN None.

Definition demo_world (s : iotx_coap_t script_ctx) : world script_ctx :=
  mk_world (Some s) 0 [] 0.

Definition demo_message : iotx_message_t :=
  mk_iotx_message (Some "hello"%string) 5 (H_APP 1) (P_APP 7) IOTX_MESSAGE_NON
    IOTX_CONTENT_TYPE_JSON.

End Scripted.
