(* ===== verification/Sign.v ===== *)
(** * The signature generator

    [iotx_calc_sign] (iotx_coap_api.c, lines 57-79) allocates a scratch
    buffer of [IOTX_SIGN_SOURCE_LEN] bytes, renders
    ["clientId%sdeviceName%sproductKey%s"] into it with [HAL_Snprintf],
    computes [utils_hmac_md5] of it keyed by the device secret into the
    caller's [sign[IOTX_SIGN_LENGTH]], frees the buffer and returns.  When
    the allocation fails it returns [IOTX_ERR_NO_MEM] before touching
    [sign]. *)

From Stdlib Require Import ZArith Lia String List.
From stdpp Require Import base decidable.
From S2P Require Import Prelude Defs Platform Session Scripted.
Import ListNotations.
Open Scope Z_scope.
Local Open Scope iotx_scope.

Module Sign.
Section Sign.
Context `{HostPlatform} {ctx : Type} `{CoapEngine ctx}.

Local Abbreviation M := (ST (world ctx)).

(** The source string of the signature, as [HAL_Snprintf] leaves it. *)
Definition sign_source (client_id device_name product_key : string) : string :=
  snprintf IOTX_SIGN_SOURCE_LEN (IOTX_SIGN_SRC_STR client_id device_name product_key).

(** [iotx_calc_sign(secret, client_id, device_name, product_key, sign)]:
    [sign0] is the caller's buffer before the call; the result is the code
    and the buffer after it. *)
Definition iotx_calc_sign (sign0 p_device_secret p_client_id p_device_name p_product_key : string)
  : M (iotx_ret_code * string) :=
  ok <- coap_malloc ;;
  if negb ok then ret (IOTX_ERR_NO_MEM, sign0) else
  let p_msg := sign_source p_client_id p_device_name p_product_key in
  let sign := utils_hmac_md5 p_msg p_device_secret in
  if IOTX_SIGN_LENGTH <=? strlen sign then st_stuck (UB "utils_hmac_md5 overruns sign[IOTX_SIGN_LENGTH]")
  else coap_free ;; ret (IOTX_SUCCESS, sign).

(** Identity fields within the capacities of [iotx_deviceinfo_t]. *)
Definition devinfo_bounded (d : iotx_deviceinfo_t) : Prop :=
  strlen (product_key d) <= IOTX_PRODUCT_KEY_LEN /\
  strlen (device_name d) <= IOTX_DEVICE_NAME_LEN /\
  strlen (device_id d) <= IOTX_DEVICE_ID_LEN /\
  strlen (device_secret d) <= IOTX_DEVICE_SECRET_LEN.

Lemma sign_src_length cid dn pk :
  strlen (IOTX_SIGN_SRC_STR cid dn pk) = 28 + strlen cid + strlen dn + strlen pk.
Proof.
  unfold IOTX_SIGN_SRC_STR, strlen.
  rewrite !string_length_app. simpl String.length. lia.
Qed.

Lemma calc_sign_ok (sign0 secret cid dn pk : string) (w : world ctx) :
  hd true (w_malloc w) = true ->
  strlen (utils_hmac_md5 (sign_source cid dn pk) secret) < IOTX_SIGN_LENGTH ->
  iotx_calc_sign sign0 secret cid dn pk w =
  Ok ((IOTX_SUCCESS, utils_hmac_md5 (sign_source cid dn pk) secret),
      mk_world (w_session w) (w_heap w) (tl (w_malloc w)) (w_slept w)).
Proof.
  intros Hm Hlen. unfold iotx_calc_sign, coap_malloc, coap_free; st_unfold.
  replace (IOTX_SIGN_LENGTH <=? _) with false by (symmetry; apply Z.leb_gt; lia).
  destruct (w_malloc w) as [|b rest]; simpl in Hm; [|subst b]; simpl;
    do 2 f_equal; destruct w; simpl; f_equal; lia.
Qed.

Lemma sign_source_bounded d :
  devinfo_bounded d ->
  sign_source (device_id d) (device_name d) (product_key d) =
  IOTX_SIGN_SRC_STR (device_id d) (device_name d) (product_key d).
Proof.
  intros (Hpk & Hdn & Hid & _). unfold sign_source.
  apply snprintf_fits. rewrite sign_src_length.
  unfold IOTX_SIGN_SOURCE_LEN, IOTX_PRODUCT_KEY_LEN, IOTX_DEVICE_NAME_LEN, IOTX_DEVICE_ID_LEN in *.
  lia.
Qed.

(** C32 (functional): when its allocation succeeds and the digest fits the
    buffer, [iotx_calc_sign] returns [IOTX_SUCCESS] with the HMAC, keyed by
    the secret, of the source string; for identity fields within the
    capacities of [iotx_deviceinfo_t] the source is the whole template
    (nothing is cut by [IOTX_SIGN_SOURCE_LEN]); the scratch buffer is freed. *)
Theorem calc_sign_success (d : iotx_deviceinfo_t) (sign0 : string) (w : world ctx) :
  devinfo_bounded d ->
  hd true (w_malloc w) = true ->
  strlen (utils_hmac_md5 (IOTX_SIGN_SRC_STR (device_id d) (device_name d) (product_key d))
            (device_secret d)) < IOTX_SIGN_LENGTH ->
  iotx_calc_sign sign0 (device_secret d) (device_id d) (device_name d) (product_key d) w =
  Ok ((IOTX_SUCCESS,
       utils_hmac_md5 (IOTX_SIGN_SRC_STR (device_id d) (device_name d) (product_key d))
         (device_secret d)),
      mk_world (w_session w) (w_heap w) (tl (w_malloc w)) (w_slept w)).
Proof.
  intros Hb Hm Hlen. rewrite <- (sign_source_bounded d Hb) in *.
  now apply calc_sign_ok.
Qed.

(** C39 (error): when the scratch allocation fails, [iotx_calc_sign] returns
    [IOTX_ERR_NO_MEM], leaves the caller's [sign] buffer as it was and
    allocates nothing. *)
Theorem calc_sign_no_mem (sign0 secret cid dn pk : string) (w : world ctx) (rest : list bool) :
  w_malloc w = false :: rest ->
  iotx_calc_sign sign0 secret cid dn pk w =
  Ok ((IOTX_ERR_NO_MEM, sign0), mk_world (w_session w) (w_heap w) rest (w_slept w)).
Proof.
  intros Hm. unfold iotx_calc_sign, coap_malloc; st_unfold. now rewrite Hm.
Qed.

End Sign.

(** ** Witnesses, on the scripted platform *)

Import Scripted.
Local Open Scope string_scope.
#[local] Existing Instance script_engine.

Lemma calc_sign_success_witness :
  (devinfo_bounded demo_devinfo /\
   hd true (w_malloc (demo_world (demo_session false [] []))) = true /\
   strlen (@utils_hmac_md5 (scripted_platform "" "")
             (IOTX_SIGN_SRC_STR "id1" "dev1" "a1PK") "secret") < IOTX_SIGN_LENGTH) /\
  @iotx_calc_sign (scripted_platform "" "") script_ctx ""
    "secret" "id1" "dev1" "a1PK" (demo_world (demo_session false [] [])) =
  Ok ((IOTX_SUCCESS, @utils_hmac_md5 (scripted_platform "" "")
                       (IOTX_SIGN_SRC_STR "id1" "dev1" "a1PK") "secret"),
      mk_world (Some (demo_session false [] [])) 0 [] 0).
Proof.
  assert (H : devinfo_bounded demo_devinfo /\
   hd true (w_malloc (demo_world (demo_session false [] []))) = true /\
   strlen (@utils_hmac_md5 (scripted_platform "" "")
             (IOTX_SIGN_SRC_STR "id1" "dev1" "a1PK") "secret") < IOTX_SIGN_LENGTH).
  { repeat split; vm_compute; try reflexivity; discriminate. }
  split; [exact H|]. destruct H as (H1 & H2 & H3).
  exact (@calc_sign_success (scripted_platform "" "") script_ctx
           demo_devinfo "" (demo_world (demo_session false [] [])) H1 H2 H3).
Defined.

Lemma calc_sign_no_mem_witness :
  w_malloc (mk_world (Some (demo_session false [] [])) 0 [false] 0) = [false] /\
  @iotx_calc_sign (scripted_platform "" "") script_ctx ""
    "secret" "id1" "dev1" "a1PK" (mk_world (Some (demo_session false [] [])) 0 [false] 0) =
  Ok ((IOTX_ERR_NO_MEM, ""%string), mk_world (Some (demo_session false [] [])) 0 [] 0).
Proof.
  split; [reflexivity|].
  exact (@calc_sign_no_mem (scripted_platform "" "") script_ctx
           "" "secret" "id1" "dev1" "a1PK" (mk_world (Some (demo_session false [] [])) 0 [false] 0) [] eq_refl).
Defined.

End Sign.
