(* ===== verification/AuthToken.v ===== *)
(** * The token extractor

    [iotx_get_token_from_json] (iotx_coap_api.c, lines 81-101) looks the
    field ["token"] up with [LITE_json_value_of], which returns a freshly
    allocated copy of the value or NULL.  A value that does not fit the
    [len]-byte buffer [p_token] is refused with [IOTX_ERR_BUFF_TOO_SHORT];
    otherwise the buffer is zeroed, the value copied and the copy freed. *)

From Stdlib Require Import ZArith Lia String List.
From stdpp Require Import base decidable.
From S2P Require Import Prelude Defs Platform Session Scripted.
Import ListNotations.
Open Scope Z_scope.
Local Open Scope iotx_scope.

Module AuthToken.
Section AuthToken.
Context `{HostPlatform} {ctx : Type} `{CoapEngine ctx}.

Local Abbreviation M := (ST (world ctx)).

(** [size_t] on the SDK's 32-bit targets: [len - 1 < strlen(p_value)]
    compares [len - 1] converted to [size_t]. *)
Definition size_t_of (z : Z) : Z := z mod 2 ^ 32.

(** [LITE_json_value_of(key, src)]: the lookup, then the allocation of the
    copy ([NULL] when it fails). *)
Definition lite_json_value_of (key src : string) : M (option string) :=
  match LITE_json_value_of key src with
  | None => ret None
  | Some v => ok <- coap_malloc ;; ret (if ok then Some v else None)
  end.

(** [iotx_get_token_from_json(p_str, p_token, len)]: [p_token] is the
    buffer's contents, [None] for NULL; the result is the code and the
    buffer after the call. *)
Definition iotx_get_token_from_json (p_str p_token : option string) (len : Z)
  : M (iotx_ret_code * option string) :=
  match p_str, p_token with
  | Some str, Some _ =>
      p_value <- lite_json_value_of "token" str ;;
      match p_value with
      | None => ret (IOTX_ERR_AUTH_FAILED, p_token)
      | Some v =>
          if size_t_of (len - 1) <? strlen v then ret (IOTX_ERR_BUFF_TOO_SHORT, p_token)
          else if len <? strlen v then st_stuck (UB "strncpy(p_token, p_value, strlen(p_value)) overruns p_token")
          else coap_free ;; ret (IOTX_SUCCESS, Some v)
      end
  | _, _ => ret (IOTX_ERR_INVALID_PARAM, p_token)
  end.

(** The world after one successful allocation. *)
Definition after_alloc (w : world ctx) : world ctx :=
  mk_world (w_session w) (w_heap w + 1) (tl (w_malloc w)) (w_slept w).

Lemma lite_json_value_of_some key src v w :
  LITE_json_value_of key src = Some v -> hd true (w_malloc w) = true ->
  lite_json_value_of key src w = Ok (Some v, after_alloc w).
Proof.
  intros Hv Hm. unfold lite_json_value_of, coap_malloc, after_alloc. rewrite Hv. st_unfold.
  destruct (w_malloc w) as [|b rest]; simpl in Hm; [|subst b]; reflexivity.
Qed.

Lemma token_from_json_ok (str tok0 v : string) (len : Z) (w : world ctx) :
  LITE_json_value_of "token" str = Some v -> hd true (w_malloc w) = true ->
  strlen v <= len - 1 -> len <= 2 ^ 32 ->
  iotx_get_token_from_json (Some str) (Some tok0) len w =
  Ok ((IOTX_SUCCESS, Some v), mk_world (w_session w) (w_heap w) (tl (w_malloc w)) (w_slept w)).
Proof.
  intros Hv Hm Hlen Hcap. unfold iotx_get_token_from_json. st_unfold.
  rewrite (lite_json_value_of_some _ _ _ _ Hv Hm).
  assert (0 <= strlen v) by apply strlen_nonneg.
  unfold size_t_of. rewrite Z.mod_small by lia.
  replace (len - 1 <? strlen v) with false by (symmetry; apply Z.ltb_ge; lia).
  replace (len <? strlen v) with false by (symmetry; apply Z.ltb_ge; lia).
  unfold coap_free, after_alloc. simpl. do 3 f_equal. lia.
Qed.

(** C33 (functional): on a response whose ["token"] field holds [v] with
    [strlen v <= len - 1], the extractor returns [IOTX_SUCCESS] with the
    buffer holding [v], and frees the copy: the heap is as before. *)
Theorem get_token_from_json_success (str tok0 v : string) (len : Z) (w : world ctx) :
  LITE_json_value_of "token" str = Some v -> hd true (w_malloc w) = true ->
  strlen v <= len - 1 -> len <= 2 ^ 32 ->
  iotx_get_token_from_json (Some str) (Some tok0) len w =
  Ok ((IOTX_SUCCESS, Some v), mk_world (w_session w) (w_heap w) (tl (w_malloc w)) (w_slept w)).
Proof.
  apply token_from_json_ok.
Qed.

(** C31 (error; a leak in the code): a ["token"] value of [len] characters
    or more is refused with [IOTX_ERR_BUFF_TOO_SHORT], the buffer untouched,
    and the copy [LITE_json_value_of] allocated is never freed: the count of
    live blocks grows by one. *)
Theorem get_token_from_json_too_long (str tok0 v : string) (len : Z) (w : world ctx) :
  LITE_json_value_of "token" str = Some v -> hd true (w_malloc w) = true ->
  1 <= len <= strlen v -> len <= 2 ^ 32 ->
  iotx_get_token_from_json (Some str) (Some tok0) len w =
  Ok ((IOTX_ERR_BUFF_TOO_SHORT, Some tok0),
      mk_world (w_session w) (w_heap w + 1) (tl (w_malloc w)) (w_slept w)).
Proof.
  intros Hv Hm Hlen Hcap. unfold iotx_get_token_from_json. st_unfold.
  rewrite (lite_json_value_of_some _ _ _ _ Hv Hm).
  unfold size_t_of. rewrite Z.mod_small by lia.
  now replace (len - 1 <? strlen v) with true by (symmetry; apply Z.ltb_lt; lia).
Qed.

(** C38 (error): with no ["token"] field the extractor returns
    [IOTX_ERR_AUTH_FAILED] and changes nothing; with a NULL argument it
    returns [IOTX_ERR_INVALID_PARAM]. *)
Theorem get_token_from_json_absent (p_str p_token : option string) (len : Z) (w : world ctx) :
  (forall str, p_str = Some str -> LITE_json_value_of "token" str = None) ->
  iotx_get_token_from_json p_str p_token len w =
  Ok ((if p_str is Some _ then if p_token is Some _ then IOTX_ERR_AUTH_FAILED
       else IOTX_ERR_INVALID_PARAM else IOTX_ERR_INVALID_PARAM, p_token), w).
Proof.
  intros Habs. unfold iotx_get_token_from_json, lite_json_value_of. st_unfold.
  destruct p_str as [str|]; [|reflexivity]. destruct p_token; [|reflexivity].
  now rewrite (Habs str eq_refl).
Qed.

End AuthToken.

(** ** Witnesses, on the scripted platform *)

Import Scripted.
Local Open Scope string_scope.

(** The body of a 2.05 response to the authentication request. *)
Definition demo_auth_body : string := ("{" ++ json_field "token" "T123" ++ "}")%string.

Lemma get_token_from_json_success_witness :
  (@LITE_json_value_of (scripted_platform "" "") "token" demo_auth_body = Some "T123"%string /\
   hd true (w_malloc (demo_world (demo_session false [] []))) = true /\
   strlen "T123" <= IOTX_AUTH_TOKEN_LEN - 1 /\ IOTX_AUTH_TOKEN_LEN <= 2 ^ 32) /\
  @iotx_get_token_from_json (scripted_platform "" "") script_ctx
    (Some demo_auth_body) (Some ""%string) IOTX_AUTH_TOKEN_LEN (demo_world (demo_session false [] [])) =
  Ok ((IOTX_SUCCESS, Some "T123"%string), mk_world (Some (demo_session false [] [])) 0 [] 0).
Proof.
  assert (H1 : @LITE_json_value_of (scripted_platform "" "") "token" demo_auth_body
               = Some "T123"%string) by reflexivity.
  assert (H2 : hd true (w_malloc (demo_world (demo_session false [] []))) = true) by reflexivity.
  assert (H3 : strlen "T123" <= IOTX_AUTH_TOKEN_LEN - 1) by (vm_compute; discriminate).
  assert (H4 : IOTX_AUTH_TOKEN_LEN <= 2 ^ 32) by (vm_compute; discriminate).
  split; [auto|].
  exact (@get_token_from_json_success (scripted_platform "" "") script_ctx
           demo_auth_body "" "T123" IOTX_AUTH_TOKEN_LEN _ H1 H2 H3 H4).
Defined.

Lemma get_token_from_json_too_long_witness :
  (@LITE_json_value_of (scripted_platform "" "") "token" demo_auth_body = Some "T123"%string /\
   hd true (w_malloc (demo_world (demo_session false [] []))) = true /\
   1 <= 3 <= strlen "T123" /\ 3 <= 2 ^ 32) /\
  @iotx_get_token_from_json (scripted_platform "" "") script_ctx
    (Some demo_auth_body) (Some "old"%string) 3 (demo_world (demo_session false [] [])) =
  Ok ((IOTX_ERR_BUFF_TOO_SHORT, Some "old"%string), mk_world (Some (demo_session false [] [])) 1 [] 0).
Proof.
  assert (H1 : @LITE_json_value_of (scripted_platform "" "") "token" demo_auth_body
               = Some "T123"%string) by reflexivity.
  assert (H2 : hd true (w_malloc (demo_world (demo_session false [] []))) = true) by reflexivity.
  assert (H3 : 1 <= 3 <= strlen "T123") by (vm_compute; split; discriminate).
  assert (H4 : 3 <= 2 ^ 32) by lia.
  split; [auto|].
  exact (@get_token_from_json_too_long (scripted_platform "" "") script_ctx
           demo_auth_body "old" "T123" 3 _ H1 H2 H3 H4).
Defined.

Lemma get_token_from_json_absent_witness :
  (forall str, Some "{}"%string = Some str ->
     @LITE_json_value_of (scripted_platform "" "") "token" str = None) /\
  @iotx_get_token_from_json (scripted_platform "" "") script_ctx
    (Some "{}"%string) (Some ""%string) IOTX_AUTH_TOKEN_LEN (demo_world (demo_session false [] [])) =
  Ok ((IOTX_ERR_AUTH_FAILED, Some ""%string), demo_world (demo_session false [] [])).
Proof.
  assert (H : forall str, Some "{}"%string = Some str ->
     @LITE_json_value_of (scripted_platform "" "") "token" str = None)
    by (intros str E; injection E as <-; reflexivity).
  split; [exact H|].
  exact (@get_token_from_json_absent (scripted_platform "" "") script_ctx
           (Some "{}"%string) (Some ""%string) IOTX_AUTH_TOKEN_LEN _ H).
Defined.

End AuthToken.
