(* ===== verification/Dispatch.v ===== *)
(** * The message dispatcher

    [IOT_CoAP_SendMessage] (iotx_coap_api.c, lines 446-511) checks its
    arguments and the payload length, refuses an unauthenticated session,
    and otherwise builds a confirmable POST: a fresh message id, the next
    correlation token, the application's handler and user data, the URI-path
    options of the path ([iotx_split_path_2_option]), the content-format and
    accept options, the auth-token option, the payload; it hands the message
    to the engine and maps [COAP_ERROR_DATA_SIZE] to
    [IOTX_ERR_MSG_TOO_LOOG].  The accessors [IOT_CoAP_GetMessagePayload] and
    [IOT_CoAP_GetMessageCode] (lines 514-543) read a received message. *)

From Stdlib Require Import ZArith Lia String List.
From stdpp Require Import base decidable.
From S2P Require Import Prelude Defs CoapToken PathSplit Platform Session Scripted.
Import ListNotations.
Open Scope Z_scope.
Local Open Scope iotx_scope.

Module Dispatch.
Section Dispatch.
Context {ctx : Type} `{CoapEngine ctx}.

Local Abbreviation M := (ST (world ctx)).

(** Lines 475-482: the request before its options. *)
Definition build_request (mid : Z) (tok : list Z) (msg : iotx_message_t) : CoAPMessage :=
  CoAPMessageHandler_set
    (CoAPMessageUserData_set
       (CoAPMessageToken_set
          (CoAPMessageId_set
             (CoAPMessageCode_set (CoAPMessageType_set CoAPMessage_init COAP_MESSAGE_TYPE_CON)
                COAP_MSG_CODE_POST) mid) tok) (user_data msg)) (resp_callback msg).

(** Lines 489-495: content format and accept from the declared type. *)
Definition content_options (m : CoAPMessage) (ct : iotx_content_type) : CoAPMessage :=
  match ct with
  | IOTX_CONTENT_TYPE_CBOR =>
      CoAPUintOption_add (CoAPUintOption_add m COAP_OPTION_CONTENT_FORMAT COAP_CT_APP_CBOR)
        COAP_OPTION_ACCEPT COAP_CT_APP_OCTET_STREAM
  | _ =>
      CoAPUintOption_add (CoAPUintOption_add m COAP_OPTION_CONTENT_FORMAT COAP_CT_APP_JSON)
        COAP_OPTION_ACCEPT COAP_CT_APP_OCTET_STREAM
  end.

(** The [payload_len] bytes at [p_payload] (line 499). *)
Definition payload_bytes (msg : iotx_message_t) : outcome string :=
  match p_payload msg with
  | None => if payload_len msg =? 0 then Ok ""%string else Stuck (UB "p_payload is NULL")
  | Some p =>
      if strlen p <? payload_len msg then Stuck (UB "payload_len runs past p_payload")
      else Ok (substring 0 (Z.to_nat (payload_len msg)) p)
  end.

(** Lines 496-499: the auth-token option and the payload. *)
Definition finish_request (m : CoAPMessage) (ct : iotx_content_type) (token payload : string)
  : CoAPMessage :=
  CoAPMessagePayload_set
    (CoAPStrOption_add (content_options m ct) COAP_OPTION_AUTH_TOKEN token) payload.

Definition IOT_CoAP_SendMessage (p_context : ptr) (p_path : option string)
  (p_message : option iotx_message_t) : M iotx_ret_code :=
  match p_context, p_path, p_message with
  | P_SESSION, Some path, Some msg =>
      s <- sess_get ;;
      match p_coap_ctx s with
      | None => ret IOTX_ERR_INVALID_PARAM
      | Some _ =>
          if COAP_MSG_MAX_PDU_LEN <=? payload_len msg then ret IOTX_ERR_MSG_TOO_LOOG else
          if is_authed s then
            mid <- msgid_gen ;;
            tok <- get_coap_token ;;
            match PathSplit.iotx_split_path_2_option (Some path) (Some (build_request mid tok msg)) with
            | Stuck r => st_stuck r
            | Ok (IOTX_SUCCESS, Some m1) =>
                s' <- sess_get ;;
                match p_auth_token s', payload_bytes msg with
                | None, _ => st_stuck (UB "strlen of a NULL p_auth_token")
                | _, Stuck r => st_stuck r
                | Some t, Ok pl =>
                    r <- msg_send (finish_request m1 (content_type msg) t pl) ;;
                    ret (if decide (r = COAP_ERROR_DATA_SIZE) then IOTX_ERR_MSG_TOO_LOOG
                         else IOTX_SUCCESS)
                end
            | Ok (r, _) => ret r
            end
          else ret IOTX_ERR_NOT_AUTHED
      end
  | P_APP _, Some _, Some _ => st_stuck (UB "p_context is not an iotx_coap_t")
  | _, _, _ => ret IOTX_ERR_INVALID_PARAM
  end.

(** [IOT_CoAP_GetMessagePayload] (lines 514-528) and
    [IOT_CoAP_GetMessageCode] (lines 530-543) on a received datagram
    ([None] for a NULL [p_message]); the booleans say whether the output
    pointers are non-NULL.  The result code and what they write through
    them: the payload and [payloadlen], the number of bytes the datagram
    carries, or the header code. *)
Definition IOT_CoAP_GetMessagePayload (p_message : option datagram) (pp_payload p_len : bool)
  : iotx_ret_code * option (string * Z) :=
  match p_message with
  | Some d =>
      if pp_payload && p_len
      then (IOTX_SUCCESS, Some (dg_payload d, Z.of_nat (String.length (dg_payload d))))
      else (IOTX_ERR_INVALID_PARAM, None)
  | None => (IOTX_ERR_INVALID_PARAM, None)
  end.

Definition IOT_CoAP_GetMessageCode (p_message : option datagram) (p_resp_code : bool)
  : iotx_ret_code * option Z :=
  match p_message with
  | Some d => if p_resp_code then (IOTX_SUCCESS, Some (dg_code d)) else (IOTX_ERR_INVALID_PARAM, None)
  | None => (IOTX_ERR_INVALID_PARAM, None)
  end.

Lemma payload_bytes_not_nofuel msg : payload_bytes msg <> Stuck NoFuel.
Proof.
  unfold payload_bytes. destruct (p_payload msg); [destruct (_ <? _)|destruct (_ =? 0)];
    discriminate.
Qed.

(** The request the dispatcher builds, stated with the reference
    segmentation of the path. *)
Definition expected_request (mid : Z) (tok : list Z) (path : string) (msg : iotx_message_t)
  (token payload : string) : CoAPMessage :=
  finish_request (PathSplit.add_uri_paths (build_request mid tok msg) (PathSplit.path_segments path))
    (content_type msg) token payload.

(** ** Properties *)

(** C6 (safety): on a session that is not authenticated, with valid
    arguments and a payload below [COAP_MSG_MAX_PDU_LEN], the dispatcher
    returns [IOTX_ERR_NOT_AUTHED] and changes nothing: no message id or
    correlation token is consumed and nothing is handed to the engine; no
    handshake is attempted. *)
Theorem send_message_not_authed (w : world ctx) (s : iotx_coap_t ctx) (c : ctx)
    (path : string) (msg : iotx_message_t) :
  w_session w = Some s -> p_coap_ctx s = Some c -> is_authed s = false ->
  payload_len msg < COAP_MSG_MAX_PDU_LEN ->
  IOT_CoAP_SendMessage P_SESSION (Some path) (Some msg) w = Ok (IOTX_ERR_NOT_AUTHED, w).
Proof.
  intros Ew Ec Ha Hl. unfold IOT_CoAP_SendMessage. st_unfold.
  rewrite (sess_get_ok w s Ew), Ec, Ha.
  now replace (COAP_MSG_MAX_PDU_LEN <=? payload_len msg) with false by (symmetry; apply Z.leb_gt; lia).
Qed.

(** C29 (bounds; the spec says a payload of exactly the maximum is
    accepted): the dispatcher refuses every payload whose [payload_len] is
    [COAP_MSG_MAX_PDU_LEN] or more with [IOTX_ERR_MSG_TOO_LOOG], the
    boundary included, before looking at the authentication state, and
    changes nothing. *)
Theorem send_message_payload_too_long (w : world ctx) (s : iotx_coap_t ctx) (c : ctx)
    (path : string) (msg : iotx_message_t) :
  w_session w = Some s -> p_coap_ctx s = Some c ->
  COAP_MSG_MAX_PDU_LEN <= payload_len msg ->
  IOT_CoAP_SendMessage P_SESSION (Some path) (Some msg) w = Ok (IOTX_ERR_MSG_TOO_LOOG, w).
Proof.
  intros Ew Ec Hl. unfold IOT_CoAP_SendMessage. st_unfold.
  rewrite (sess_get_ok w s Ew), Ec.
  now replace (COAP_MSG_MAX_PDU_LEN <=? payload_len msg) with true by (symmetry; apply Z.leb_le; lia).
Qed.

Lemma send_message_authed_run (w : world ctx) (s : iotx_coap_t ctx) (c : ctx)
    (path : string) (msg : iotx_message_t) (t pl : string) :
  w_session w = Some s -> p_coap_ctx s = Some c -> is_authed s = true ->
  p_auth_token s = Some t -> payload_bytes msg = Ok pl ->
  payload_len msg < COAP_MSG_MAX_PDU_LEN ->
  no_nul path = true -> strlen path <= IOTX_URI_MAX_LEN ->
  Forall PathSplit.fits_path (PathSplit.path_segments path) ->
  IOT_CoAP_SendMessage P_SESSION (Some path) (Some msg) w =
  let mid := fst (CoAPMessageId_gen c) in
  let c1 := snd (CoAPMessageId_gen c) in
  let m := expected_request mid (CoapToken.token_bytes (coap_token s)) path msg t pl in
  Ok (if decide (fst (CoAPMessage_send c1 m) = COAP_ERROR_DATA_SIZE) then IOTX_ERR_MSG_TOO_LOOG
      else IOTX_SUCCESS,
      set_session (Some (set_coap_ctx (Some (snd (CoAPMessage_send c1 m)))
                           (set_coap_token (u32 (coap_token s + 1)) (set_coap_ctx (Some c1) s)))) w).
Proof.
  intros Ew Ec Ha Ht Hp Hl Hn Hlen Hfit. cbv zeta.
  unfold IOT_CoAP_SendMessage, msgid_gen, msg_send. st_unfold.
  rewrite (sess_get_ok w s Ew), Ec, Ha.
  replace (COAP_MSG_MAX_PDU_LEN <=? payload_len msg) with false by (symmetry; apply Z.leb_gt; lia).
  rewrite (with_ctx_ok _ w s c Ew Ec).
  rewrite (get_coap_token_ok _ (set_coap_ctx (Some (snd (CoAPMessageId_gen c))) s)) by reflexivity.
  rewrite PathSplit.split_path_ok by assumption.
  erewrite sess_get_ok by reflexivity. cbn [p_auth_token set_coap_token set_coap_ctx]. rewrite Ht, Hp.
  rewrite (with_ctx_ok _ _ (set_coap_token (u32 (coap_token s + 1)) (set_coap_ctx (Some (snd (CoAPMessageId_gen c))) s))
             (snd (CoAPMessageId_gen c))) by reflexivity.
  reflexivity.
Qed.

Lemma uri_path_options_finish m ct t pl :
  uri_path_options (finish_request m ct t pl) = uri_path_options m.
Proof.
  unfold finish_request, content_options, uri_path_options.
  destruct ct; simpl; rewrite !flat_map_app; simpl; now rewrite !app_nil_r.
Qed.

Lemma finish_request_token_option m ct t pl :
  In (mk_option COAP_OPTION_AUTH_TOKEN (OptStr t)) (cm_options (finish_request m ct t pl)).
Proof.
  unfold finish_request, content_options. destruct ct; simpl; rewrite !in_app_iff; simpl; tauto.
Qed.

(** C1 (functional): on an authenticated session, for a path the encoder
    accepts and a payload below the limit, when the engine takes the message
    the dispatcher returns [IOTX_SUCCESS] and has handed exactly one message
    to the engine: a confirmable POST, whatever [msg_type] the caller asked
    for, carrying the next correlation token, one URI-path option per
    non-empty segment of the path, the session's auth token as the
    auth-token option and the payload. *)
Theorem send_message_authed (w : world ctx) (s : iotx_coap_t ctx) (c : ctx)
    (path : string) (msg : iotx_message_t) (t pl : string) :
  w_session w = Some s -> p_coap_ctx s = Some c -> is_authed s = true ->
  p_auth_token s = Some t -> payload_bytes msg = Ok pl ->
  payload_len msg < COAP_MSG_MAX_PDU_LEN ->
  no_nul path = true -> strlen path <= IOTX_URI_MAX_LEN ->
  Forall PathSplit.fits_path (PathSplit.path_segments path) ->
  let m := expected_request (fst (CoAPMessageId_gen c)) (CoapToken.token_bytes (coap_token s))
             path msg t pl in
  fst (CoAPMessage_send (snd (CoAPMessageId_gen c)) m) = COAP_SUCCESS ->
  exists w', IOT_CoAP_SendMessage P_SESSION (Some path) (Some msg) w = Ok (IOTX_SUCCESS, w') /\
    sent_of w' = sent_of w ++ [m] /\
    cm_type m = COAP_MESSAGE_TYPE_CON /\ cm_code m = COAP_MSG_CODE_POST /\
    cm_token m = CoapToken.token_bytes (coap_token s) /\
    uri_path_options m = PathSplit.path_segments path /\
    In (mk_option COAP_OPTION_AUTH_TOKEN (OptStr t)) (cm_options m) /\
    cm_payload m = pl.
Proof.
  intros Ew Ec Ha Ht Hp Hl Hn Hlen Hfit m Hsend.
  rewrite (send_message_authed_run w s c path msg t pl) by assumption. cbv zeta. fold m.
  rewrite Hsend. eexists. split; [reflexivity|].
  split.
  - rewrite (sent_of_set _ _ (snd (CoAPMessage_send (snd (CoAPMessageId_gen c)) m))) by reflexivity.
    rewrite send_sent, Hsend, msgid_gen_sent. unfold sent_of. now rewrite Ew, Ec.
  - subst m. unfold expected_request. rewrite uri_path_options_finish,
      PathSplit.uri_path_options_add_uri_paths.
    destruct (PathSplit.add_uri_paths_header (build_request (fst (CoAPMessageId_gen c))
                (CoapToken.token_bytes (coap_token s)) msg) (PathSplit.path_segments path))
      as (E1 & E2 & _ & E4 & _).
    repeat split; first [apply finish_request_token_option | unfold finish_request, content_options;
      destruct (content_type msg); simpl; rewrite ?E1, ?E2, ?E4; reflexivity].
Qed.


End Dispatch.

(** ** Witnesses, on the scripted engine *)

Import Scripted.

Lemma send_message_not_authed_witness :
  (w_session (demo_world (demo_session false [] [])) = Some (demo_session false [] []) /\
   p_coap_ctx (demo_session false [] []) = Some (mk_sctx 1 [] [] []) /\
   is_authed (demo_session false [] []) = false /\
   payload_len demo_message < COAP_MSG_MAX_PDU_LEN) /\
  IOT_CoAP_SendMessage P_SESSION (Some "/topic/x"%string) (Some demo_message)
    (demo_world (demo_session false [] [])) =
  Ok (IOTX_ERR_NOT_AUTHED, demo_world (demo_session false [] [])).
Proof.
  split; [repeat split; reflexivity|].
  apply (send_message_not_authed _ (demo_session false [] []) (mk_sctx 1 [] [] [])); reflexivity.
Defined.

Lemma send_message_payload_too_long_witness :
  (w_session (demo_world (demo_session true [] [])) = Some (demo_session true [] []) /\
   p_coap_ctx (demo_session true [] []) = Some (mk_sctx 1 [] [] []) /\
   COAP_MSG_MAX_PDU_LEN <= payload_len (mk_iotx_message None 1280 NO_HANDLER NULL
                                          IOTX_MESSAGE_CON IOTX_CONTENT_TYPE_JSON)) /\
  IOT_CoAP_SendMessage P_SESSION (Some "/topic/x"%string)
    (Some (mk_iotx_message None 1280 NO_HANDLER NULL IOTX_MESSAGE_CON IOTX_CONTENT_TYPE_JSON))
    (demo_world (demo_session true [] [])) =
  Ok (IOTX_ERR_MSG_TOO_LOOG, demo_world (demo_session true [] [])).
Proof.
  split; [repeat split; try reflexivity; vm_compute; discriminate|].
  apply (send_message_payload_too_long _ (demo_session true [] []) (mk_sctx 1 [] [] []));
    try reflexivity; vm_compute; discriminate.
Defined.

Lemma send_message_authed_witness :
  (w_session (demo_world (demo_session true [] [])) = Some (demo_session true [] []) /\
   p_coap_ctx (demo_session true [] []) = Some (mk_sctx 1 [] [] []) /\
   is_authed (demo_session true [] []) = true /\
   p_auth_token (demo_session true [] []) = Some "T123"%string /\
   payload_bytes demo_message = Ok "hello"%string /\
   payload_len demo_message < COAP_MSG_MAX_PDU_LEN /\
   no_nul "/topic/x" = true /\ strlen "/topic/x" <= IOTX_URI_MAX_LEN /\
   Forall PathSplit.fits_path (PathSplit.path_segments "/topic/x")) /\
  let m := expected_request (fst (CoAPMessageId_gen (mk_sctx 1 [] [] [])))
             (CoapToken.token_bytes (coap_token (demo_session true [] []))) "/topic/x"
             demo_message "T123" "hello" in
  (fst (CoAPMessage_send (snd (CoAPMessageId_gen (mk_sctx 1 [] [] []))) m) = COAP_SUCCESS /\
   exists w', IOT_CoAP_SendMessage P_SESSION (Some "/topic/x"%string) (Some demo_message)
                (demo_world (demo_session true [] [])) = Ok (IOTX_SUCCESS, w') /\
    sent_of w' = sent_of (demo_world (demo_session true [] [])) ++ [m] /\
    cm_type m = COAP_MESSAGE_TYPE_CON /\ cm_code m = COAP_MSG_CODE_POST /\
    cm_token m = CoapToken.token_bytes (coap_token (demo_session true [] [])) /\
    uri_path_options m = PathSplit.path_segments "/topic/x" /\
    In (mk_option COAP_OPTION_AUTH_TOKEN (OptStr "T123")) (cm_options m) /\
    cm_payload m = "hello"%string).
Proof.
  assert (Hf : Forall PathSplit.fits_path (PathSplit.path_segments "/topic/x"))
    by (repeat constructor; vm_compute; reflexivity).
  split; [repeat split; try reflexivity; try (vm_compute; discriminate); exact Hf|].
  intros m. assert (Hs : fst (CoAPMessage_send (snd (CoAPMessageId_gen (mk_sctx 1 [] [] []))) m)
                         = COAP_SUCCESS) by (vm_compute; reflexivity).
  split; [exact Hs|].
  apply (send_message_authed _ (demo_session true [] []) (mk_sctx 1 [] [] [])); try reflexivity;
    try (vm_compute; discriminate); assumption.
Defined.

End Dispatch.
