(* ===== verification/DispatchSpec.v ===== *)
(** * The dispatcher's contract, and its refinement

    Section 4.5 of the spec states what [IOT_CoAP_SendMessage] promises:
    refuse a payload at or over the PDU limit, refuse an unauthenticated
    session, and otherwise hand the transport one confirmable request with
    a fresh correlation token, the path's non-empty segments, the content
    format of the declared type (CBOR, else JSON) with an octet-stream
    accept, the session token as auth option, and the payload.  [request]
    is that request as the transport sees it, [abstract] reads it off a
    [CoAPMessage], [send_spec] is the contract as a function, and
    [send_message_refines] shows that the dispatcher implements it. *)

From Stdlib Require Import ZArith Lia String List Bool.
From stdpp Require Import base decidable.
From S2P Require Import Prelude Defs CoapToken PathSplit Platform Session Scripted Dispatch.
Import ListNotations.
Open Scope Z_scope.
Local Open Scope iotx_scope.

Module DispatchSpec.

(** ** The abstract request *)

Record request := mk_request {
  rq_confirmable : bool;
  rq_code : Z;
  rq_token : list Z;
  rq_path : list string;
  rq_format : option Z;
  rq_accept : option Z;
  rq_auth : option string;
  rq_payload : string
}.

(** The value of the first option with number [num]. *)
Fixpoint opt_uint (num : Z) (os : list coap_option) : option Z :=
  match os with
  | [] => None
  | mk_option n (OptUint v) :: r => if n =? num then Some v else opt_uint num r
  | _ :: r => opt_uint num r
  end.

Fixpoint opt_str (num : Z) (os : list coap_option) : option string :=
  match os with
  | [] => None
  | mk_option n (OptStr v) :: r => if n =? num then Some v else opt_str num r
  | _ :: r => opt_str num r
  end.

Definition abstract (m : CoAPMessage) : request :=
  mk_request (bool_decide (cm_type m = COAP_MESSAGE_TYPE_CON)) (cm_code m) (cm_token m)
    (uri_path_options m) (opt_uint COAP_OPTION_CONTENT_FORMAT (cm_options m))
    (opt_uint COAP_OPTION_ACCEPT (cm_options m)) (opt_str COAP_OPTION_AUTH_TOKEN (cm_options m))
    (cm_payload m).

(** ** The contract *)

Inductive send_result :=
| Sent (r : request)
| Refused (e : iotx_ret_code).

Definition spec_format (ct : iotx_content_type) : Z :=
  match ct with IOTX_CONTENT_TYPE_CBOR => COAP_CT_APP_CBOR | _ => COAP_CT_APP_JSON end.

(** Section 4.5 on an abstract session: whether it is authenticated, its
    token, the next correlation token; [pl] is the payload. *)
Definition send_spec (authed : bool) (token : string) (corr : list Z) (path : string)
  (msg : iotx_message_t) (pl : string) : send_result :=
  if COAP_MSG_MAX_PDU_LEN <=? payload_len msg then Refused IOTX_ERR_MSG_TOO_LOOG
  else if authed then
    Sent (mk_request true COAP_MSG_CODE_POST corr (PathSplit.path_segments path)
            (Some (spec_format (content_type msg))) (Some COAP_CT_APP_OCTET_STREAM) (Some token) pl)
  else Refused IOTX_ERR_NOT_AUTHED.

(** ** The refinement *)

Lemma add_uri_paths_options m segs :
  cm_options (PathSplit.add_uri_paths m segs) =
  cm_options m ++ map (fun s => mk_option COAP_OPTION_URI_PATH (OptStr s)) segs.
Proof.
  revert m. induction segs as [|x segs IH]; intros m; simpl; [now rewrite app_nil_r|].
  rewrite IH. simpl. now rewrite <- app_assoc.
Qed.

Lemma opt_uint_uri_paths num segs rest :
  opt_uint num (map (fun s => mk_option COAP_OPTION_URI_PATH (OptStr s)) segs ++ rest) = opt_uint num rest.
Proof. induction segs; simpl; auto. Qed.

Lemma opt_str_uri_paths segs rest :
  opt_str COAP_OPTION_AUTH_TOKEN (map (fun s => mk_option COAP_OPTION_URI_PATH (OptStr s)) segs ++ rest) =
  opt_str COAP_OPTION_AUTH_TOKEN rest.
Proof. induction segs; simpl; auto. Qed.

(** The request the dispatcher builds is the one of the contract. *)
Lemma abstract_expected_request mid tok path msg t pl :
  abstract (Dispatch.expected_request mid tok path msg t pl) =
  mk_request true COAP_MSG_CODE_POST tok (PathSplit.path_segments path)
    (Some (spec_format (content_type msg))) (Some COAP_CT_APP_OCTET_STREAM) (Some t) pl.
Proof.
  unfold abstract, Dispatch.expected_request. rewrite Dispatch.uri_path_options_finish, PathSplit.uri_path_options_add_uri_paths.
  destruct (PathSplit.add_uri_paths_header (Dispatch.build_request mid tok msg) (PathSplit.path_segments path))
    as (E1 & E2 & _ & E4 & _).
  unfold Dispatch.finish_request, Dispatch.content_options.
  destruct (content_type msg); cbn [cm_type cm_code cm_token cm_options cm_payload CoAPMessagePayload_set
    CoAPStrOption_add CoAPUintOption_add]; rewrite ?E1, ?E2, ?E4, add_uri_paths_options;
    change (cm_options (Dispatch.build_request mid tok msg)) with (@nil coap_option);
    change (uri_path_options (Dispatch.build_request mid tok msg)) with (@nil string);
    rewrite <- !app_assoc; cbn [app];
    rewrite opt_uint_uri_paths, opt_uint_uri_paths, opt_str_uri_paths; reflexivity.
Qed.

Section Refinement.
Context {ctx : Type} `{CoapEngine ctx}.

(** C18 (refinement): [IOT_CoAP_SendMessage] implements the contract of
    section 4.5: where [send_spec] refuses, the dispatcher returns the same
    code and changes nothing; where it sends a request, the dispatcher
    hands the engine one message whose abstraction is that request, and
    returns [IOTX_SUCCESS] unless the engine reports the message too large. *)
Theorem send_message_refines (w : world ctx) (s : iotx_coap_t ctx) (c : ctx)
    (path : string) (msg : iotx_message_t) (t pl : string) :
  w_session w = Some s -> p_coap_ctx s = Some c -> p_auth_token s = Some t ->
  Dispatch.payload_bytes msg = Ok pl ->
  no_nul path = true -> strlen path <= IOTX_URI_MAX_LEN ->
  Forall PathSplit.fits_path (PathSplit.path_segments path) ->
  match send_spec (is_authed s) t (CoapToken.token_bytes (coap_token s)) path msg pl with
  | Refused e => Dispatch.IOT_CoAP_SendMessage P_SESSION (Some path) (Some msg) w = Ok (e, w)
  | Sent rq => exists m r w',
      Dispatch.IOT_CoAP_SendMessage P_SESSION (Some path) (Some msg) w = Ok (r, w') /\
      abstract m = rq /\
      sent_of w' = sent_of w ++
        (if decide (fst (CoAPMessage_send (snd (CoAPMessageId_gen c)) m) = COAP_SUCCESS) then [m] else []) /\
      r = (if decide (fst (CoAPMessage_send (snd (CoAPMessageId_gen c)) m) = COAP_ERROR_DATA_SIZE)
           then IOTX_ERR_MSG_TOO_LOOG else IOTX_SUCCESS)
  end.
Proof.
  intros Ew Ec Ht Hp Hn Hlen Hfit. unfold send_spec.
  destruct (COAP_MSG_MAX_PDU_LEN <=? payload_len msg) eqn:El.
  - unfold Dispatch.IOT_CoAP_SendMessage. st_unfold. now rewrite (sess_get_ok w s Ew), Ec, El.
  - destruct (is_authed s) eqn:Ea.
    + apply Z.leb_gt in El.
      rewrite (Dispatch.send_message_authed_run w s c path msg t pl) by assumption. cbv zeta.
      do 3 eexists. split; [reflexivity|]. split; [apply abstract_expected_request|]. split; [|reflexivity].
      rewrite (sent_of_set _ _ (snd (CoAPMessage_send (snd (CoAPMessageId_gen c)) _))) by reflexivity.
      rewrite send_sent, msgid_gen_sent. unfold sent_of. now rewrite Ew, Ec.
    + unfold Dispatch.IOT_CoAP_SendMessage. st_unfold. now rewrite (sess_get_ok w s Ew), Ec, El, Ea.
Qed.

End Refinement.


(** ** Witness, on the scripted engine *)

Import Scripted.

Lemma send_message_refines_witness :
  let s := demo_session true [] [] in
  let c := mk_sctx 1 [] [] [] in
  match send_spec (is_authed s) "T123" (CoapToken.token_bytes (coap_token s)) "/topic/a" demo_message
          "hello" with
  | Refused e => Dispatch.IOT_CoAP_SendMessage P_SESSION (Some "/topic/a"%string) (Some demo_message)
                   (demo_world s) = Ok (e, demo_world s)
  | Sent rq => exists m r w',
      Dispatch.IOT_CoAP_SendMessage P_SESSION (Some "/topic/a"%string) (Some demo_message) (demo_world s)
        = Ok (r, w') /\
      abstract m = rq /\
      sent_of w' = sent_of (demo_world s) ++
        (if decide (fst (CoAPMessage_send (snd (CoAPMessageId_gen c)) m) = COAP_SUCCESS) then [m] else []) /\
      r = (if decide (fst (CoAPMessage_send (snd (CoAPMessageId_gen c)) m) = COAP_ERROR_DATA_SIZE)
           then IOTX_ERR_MSG_TOO_LOOG else IOTX_SUCCESS)
  end.
Proof.
  refine (@send_message_refines script_ctx script_engine (demo_world (demo_session true [] []))
            (demo_session true [] []) (mk_sctx 1 [] [] []) "/topic/a" demo_message "T123" "hello"
            eq_refl eq_refl eq_refl eq_refl eq_refl ltac:(wit_hyp) _).
  repeat constructor; vm_compute; reflexivity.
Defined.

End DispatchSpec.
