(* ===== verification/Auth.v ===== *)
(** * The handshake and re-authentication

    [IOT_CoAP_DeviceNameAuth] (iotx_coap_api.c, lines 332-404) sends a
    confirmable POST to the path ["auth"] whose payload carries the device's
    identity and signature, then blocks in [CoAPMessage_recv(ctx, timeout, 2)].
    The engine hands each datagram it reads to the handler of the request
    with the same token: [iotx_device_name_auth_callback] (lines 103-142)
    stores the token of a 2.05 response and sets [is_authed], and on a 5.00
    response sleeps 1000 ms and calls [IOT_CoAP_DeviceNameAuth] again; the
    engine's notifier [iotx_event_notifyer] (lines 155-181) clears
    [is_authed] on a 4.01 or 4.02 response and calls it too.  After the
    receive, the handshake reports the module id ([iotx_coap_report_mid],
    lines 249-330), which sends through [IOT_CoAP_SendMessage] and receives
    once more.

    The calls nest: handshake, receive, callback, handshake.  The model
    bounds the depth of the nesting with fuel; [Stuck NoFuel] is its
    exhaustion, never a behaviour of the code (see [auth_terminates]).
    The receive loop, the dispatch of a datagram to its handler and to the
    notifier, and one cycle of the engine are the engine's code
    ([CoAPMessage.c]), modelled from its interface. *)

From Stdlib Require Import ZArith Lia String List Bool.
From stdpp Require Import base decidable.
From S2P Require Import Prelude Defs CoapToken PathSplit Platform Session Scripted Sign AuthToken Dispatch.
Import ListNotations.
Open Scope Z_scope.
Local Open Scope iotx_scope.

Module Auth.
Section Auth.
Context `{HostPlatform} {ctx : Type} `{CoapEngine ctx}.

Local Abbreviation M := (ST (world ctx)).

(** [iotx_device_name_auth_callback(user, p_message)]; [auth] is the call
    [IOT_CoAP_DeviceNameAuth(p_iotx_coap)]. *)
Definition iotx_device_name_auth_callback (auth : M iotx_ret_code) (user : ptr)
  (message : option datagram) : M unit :=
  match user with
  | NULL => ret tt
  | P_APP _ => st_stuck (UB "user is not an iotx_coap_t")
  | P_SESSION =>
      match message with
      | None => ret tt
      | Some d =>
          if dg_code d =? COAP_MSG_CODE_205_CONTENT then
            s <- sess_get ;;
            r <- AuthToken.iotx_get_token_from_json (Some (dg_payload d)) (p_auth_token s)
                   (auth_token_len s) ;;
            sess_update (fun s' =>
              let s1 := set_auth_token (snd r) s' in
              if decide (fst r = IOTX_SUCCESS) then set_is_authed true s1 else s1)
          else if dg_code d =? COAP_MSG_CODE_500_INTERNAL_SERVER_ERROR then
            HAL_SleepMs 1000 ;; _ <- auth ;; ret tt
          else ret tt
      end
  end.

(** [iotx_event_notifyer(code, message)]; [user] is [message->user]. *)
Definition iotx_event_notifyer (auth : M iotx_ret_code) (code : Z) (message : option datagram)
  (user : ptr) : M unit :=
  match message with
  | None => ret tt
  | Some _ =>
      if (code =? COAP_MSG_CODE_402_BAD_OPTION) || (code =? COAP_MSG_CODE_401_UNAUTHORIZED) then
        match user with
        | NULL => ret tt
        | P_SESSION => sess_update (set_is_authed false) ;; _ <- auth ;; ret tt
        | P_APP _ => st_stuck (UB "message->user is not an iotx_coap_t")
        end
      else ret tt
  end.

(** [iotx_get_well_known_handler(arg, p_response)] (lines 183-193): reads
    the code and the payload of the response and only logs them. *)
Definition iotx_get_well_known_handler (user : ptr) (d : datagram) : M unit :=
  let _ := Dispatch.IOT_CoAP_GetMessageCode (Some d) true in
  let _ := Dispatch.IOT_CoAP_GetMessagePayload (Some d) true true in
  ret tt.

(** [iotx_coap_mid_rsphdl(arg, p_response)] (lines 224-246): looks the
    ["id"] field of a non-empty payload up and only logs it. *)
Definition iotx_coap_mid_rsphdl (user : ptr) (d : datagram) : M unit :=
  let _ := Dispatch.IOT_CoAP_GetMessageCode (Some d) true in
  let p_payload_len := match snd (Dispatch.IOT_CoAP_GetMessagePayload (Some d) true true) with
                       | Some (_, n) => n
                       | None => 0
                       end in
  let _ := if 0 <? p_payload_len then LITE_json_value_of "id" (dg_payload d) else None in
  ret tt.

(** The engine's handling of a datagram: the handler of the request with
    its token (the application's callbacks do not touch the session), then
    the notifier, which the spec (section 6) says is called with the code
    and the originating message, so with the request's user data.  The
    order of the two calls does not matter here: on the codes where the
    notifier acts (4.01, 4.02) the handlers of this file do nothing. *)
Definition run_handler (auth : M iotx_ret_code) (h : coap_handler) (user : ptr) (d : datagram)
  : M unit :=
  match h with
  | H_DEVICE_NAME_AUTH => iotx_device_name_auth_callback auth user (Some d)
  | H_GET_WELL_KNOWN => iotx_get_well_known_handler user d
  | H_MID_RSPHDL => iotx_coap_mid_rsphdl user d
  | _ => ret tt
  end.

Definition CoAPMessage_handle (auth : M iotx_ret_code) (d : datagram) : M unit :=
  hu <- net_match d ;;
  match hu with
  | None => ret tt
  | Some (h, user) =>
      run_handler auth h user d ;;
      iotx_event_notifyer auth (dg_code d) (Some d) user
  end.

(** [CoAPMessage_recv(ctx, timeout, count)]: handles up to [count]
    datagrams; the length of the last one when [count] arrived, 0 on a
    timeout. *)
Fixpoint CoAPMessage_recv (auth : M iotx_ret_code) (count : nat) : M Z :=
  match count with
  | O => ret 0
  | S c =>
      od <- net_read ;;
      match od with
      | None => ret 0
      | Some d =>
          CoAPMessage_handle auth d ;;
          match c with
          | O => ret (datagram_len d)
          | S _ => CoAPMessage_recv auth c
          end
      end
  end.

(** [CoAPMessage_cycle(ctx)]: one read, its handling. *)
Definition CoAPMessage_cycle (auth : M iotx_ret_code) : M Z :=
  od <- net_read ;;
  match od with
  | None => ret 0
  | Some d => CoAPMessage_handle auth d ;; ret 0
  end.

(** Lines 296-302: the report, in a zeroed [iotx_message_t]. *)
Definition midreport_message (msg : string) : iotx_message_t :=
  mk_iotx_message (Some msg) (u16 (strlen msg)) H_MID_RSPHDL NULL IOTX_MESSAGE_NON
    IOTX_CONTENT_TYPE_JSON.

(** [iotx_coap_report_mid(p_context)] (lines 249-330). *)
Definition iotx_coap_report_mid (auth : M iotx_ret_code) (p_context : ptr) : M Z :=
  if strlen HAL_GetPartnerID =? 0 then ret SUCCESS_RETURN else
  if strlen HAL_GetModuleID =? 0 then ret SUCCESS_RETURN else
  match p_context with
  | NULL => ret FAIL_RETURN
  | P_APP _ => st_stuck (UB "p_context is not an iotx_coap_t")
  | P_SESSION =>
      s <- sess_get ;;
      match p_devinfo s with
      | None => st_stuck (UB "p_devinfo is NULL")
      | Some di =>
          let requestId := iotx_midreport_reqid (product_key di) (device_name di) in
          ok <- coap_malloc ;;
          if negb ok then ret FAIL_RETURN else
          let message := midreport_message
                           (iotx_midreport_payload requestId HAL_GetModuleID HAL_GetPartnerID) in
          match iotx_midreport_topic "/topic" (product_key di) (device_name di) with
          | None => coap_free ;; ret FAIL_RETURN
          | Some topic_name =>
              r <- Dispatch.IOT_CoAP_SendMessage P_SESSION (Some topic_name) (Some message) ;;
              if negb (bool_decide (r = IOTX_SUCCESS)) then coap_free ;; ret FAIL_RETURN else
              coap_free ;;
              _ <- CoAPMessage_recv auth 1 ;;
              ret SUCCESS_RETURN
          end
      end
  end.

(** Lines 352-363: the authentication request before its payload. *)
Definition auth_request (mid : Z) (tok : list Z) : CoAPMessage :=
  CoAPMessageUserData_set
    (CoAPUintOption_add
       (CoAPUintOption_add
          (CoAPStrOption_add
             (CoAPMessageHandler_set
                (CoAPMessageToken_set
                   (CoAPMessageId_set
                      (CoAPMessageCode_set (CoAPMessageType_set CoAPMessage_init COAP_MESSAGE_TYPE_CON)
                         COAP_MSG_CODE_POST) mid) tok) H_DEVICE_NAME_AUTH)
             COAP_OPTION_URI_PATH IOTX_AUTH_STR)
          COAP_OPTION_CONTENT_FORMAT COAP_CT_APP_JSON)
       COAP_OPTION_ACCEPT COAP_CT_APP_JSON)
    P_SESSION.

(** Lines 370-377: the payload. *)
Definition auth_payload (di : iotx_deviceinfo_t) (sign : string) : string :=
  snprintf COAP_MSG_MAX_PDU_LEN
    (IOTX_AUTH_DEVICENAME_STR (product_key di) (device_name di) (device_id di) sign).

(** Lines 364-377: the request with its payload. *)
Definition auth_message (mid : Z) (tok : list Z) (di : iotx_deviceinfo_t) (sign : string)
  : CoAPMessage :=
  CoAPMessagePayload_set (auth_request mid tok) (auth_payload di sign).

(** Lines 386-403: after the request is sent, the receive, the check of
    [is_authed] and the module-id report; [auth] is the nested handshake. *)
Definition auth_tail (auth : M iotx_ret_code) : M iotx_ret_code :=
  n <- CoAPMessage_recv auth 2 ;;
  s2 <- sess_get ;;
  if (0 <? n) && negb (is_authed s2) then ret IOTX_ERR_AUTH_FAILED else
  r2 <- iotx_coap_report_mid auth P_SESSION ;;
  if negb (r2 =? SUCCESS_RETURN) then ret IOTX_ERR_SEND_MSG_FAILED
  else ret IOTX_SUCCESS.

(** [IOT_CoAP_DeviceNameAuth(p_context)] (lines 332-404). *)
Fixpoint IOT_CoAP_DeviceNameAuth (fuel : nat) (p_context : ptr) : M iotx_ret_code :=
  match fuel with
  | O => st_stuck NoFuel
  | S f =>
      let auth := IOT_CoAP_DeviceNameAuth f P_SESSION in
      match p_context with
      | NULL => ret IOTX_ERR_INVALID_PARAM
      | P_APP _ => st_stuck (UB "p_context is not an iotx_coap_t")
      | P_SESSION =>
          s <- sess_get ;;
          if match p_auth_token s, p_coap_ctx s with
             | Some _, Some _ => auth_token_len s =? 0
             | _, _ => true
             end
          then ret IOTX_ERR_INVALID_PARAM else
          mid <- msgid_gen ;;
          tok <- get_coap_token ;;
          ok <- coap_malloc ;;
          if negb ok then ret IOTX_ERR_NO_MEM else
          s1 <- sess_get ;;
          match p_devinfo s1 with
          | None => st_stuck (UB "p_devinfo is NULL")
          | Some di =>
              rs <- Sign.iotx_calc_sign "" (device_secret di) (device_id di) (device_name di)
                      (product_key di) ;;
              r <- msg_send (auth_message mid tok di (snd rs)) ;;
              coap_free ;;
              if negb (bool_decide (r = COAP_SUCCESS)) then ret IOTX_ERR_SEND_MSG_FAILED else
              auth_tail auth
          end
      end
  end.

(** [IOT_CoAP_Yield(p_context)] (lines 672-682): one cycle of the engine,
    with [fuel] for the handshakes its callbacks start. *)
Definition IOT_CoAP_Yield (fuel : nat) (p_context : ptr) : M Z :=
  match p_context with
  | NULL => ret (iotx_ret_code_val IOTX_ERR_INVALID_PARAM)
  | P_APP _ => st_stuck (UB "p_context is not an iotx_coap_t")
  | P_SESSION =>
      s <- sess_get ;;
      match p_coap_ctx s with
      | None => ret (iotx_ret_code_val IOTX_ERR_INVALID_PARAM)
      | Some _ => CoAPMessage_cycle (IOT_CoAP_DeviceNameAuth fuel P_SESSION)
      end
  end.

(** ** Termination of the re-entrant handshake *)

(** [m] never runs out of fuel from a world with at most [n] datagrams to
    arrive, and never makes more arrive. *)
Definition fuel_safe {A} (n : nat) (m : M A) : Prop :=
  forall w, (inbox_of w <= n)%nat ->
    match m w with
    | Ok (_, w') => (inbox_of w' <= inbox_of w)%nat
    | Stuck NoFuel => False
    | Stuck (UB _) => True
    end.

Lemma fuel_safe_ret {A} n (a : A) : fuel_safe n (st_ret a).
Proof. intros w Hw. simpl. lia. Qed.

Lemma fuel_safe_ub {A} n why : fuel_safe n (@st_stuck _ A (UB why)).
Proof. intros w Hw. exact I. Qed.

Lemma fuel_safe_bind {A B} n (m : M A) (k : A -> M B) :
  fuel_safe n m -> (forall a, fuel_safe n (k a)) -> fuel_safe n (st_bind m k).
Proof.
  intros Hm Hk w Hw. unfold st_bind. specialize (Hm w Hw).
  destruct (m w) as [[a w']|[why|]]; [|exact I|contradiction].
  specialize (Hk a w' ltac:(lia)). destruct (k a w') as [[b w'']|[why|]]; auto. lia.
Qed.

(** A step that keeps the engine context, or only changes it through an
    operation that does not make datagrams arrive. *)
Definition inbox_stable {A} (m : M A) : Prop :=
  forall w, match m w with
            | Ok (_, w') => inbox_of w' = inbox_of w
            | Stuck NoFuel => False
            | Stuck (UB _) => True
            end.

Lemma inbox_stable_safe {A} n (m : M A) : inbox_stable m -> fuel_safe n m.
Proof. intros Hm w Hw. specialize (Hm w). destruct (m w) as [[a w']|[why|]]; auto. lia. Qed.

Lemma stable_sess_get : inbox_stable sess_get.
Proof. intros w. unfold sess_get. now destruct (w_session w). Qed.

Lemma stable_malloc : inbox_stable coap_malloc.
Proof. intros w. unfold coap_malloc. now destruct (w_malloc w) as [|[] ?]. Qed.

Lemma stable_free : inbox_stable coap_free.
Proof. intros w. reflexivity. Qed.

Lemma stable_sleep ms : inbox_stable (HAL_SleepMs ms).
Proof. intros w. reflexivity. Qed.

Lemma stable_sess_update f :
  (forall s, p_coap_ctx (f s) = p_coap_ctx s) -> inbox_stable (sess_update f).
Proof.
  intros Hf w. unfold sess_update, sess_put. st_unfold. unfold sess_get.
  destruct (w_session w) as [s|] eqn:E; [|exact I].
  unfold inbox_of. simpl. now rewrite E, Hf.
Qed.

Lemma stable_with_ctx {A} (f : ctx -> A * ctx) :
  (forall c, engine_inbox (snd (f c)) = engine_inbox c) -> inbox_stable (with_ctx f).
Proof.
  intros Hf w. unfold with_ctx. st_unfold. unfold sess_get.
  destruct (w_session w) as [s|] eqn:E; [|exact I].
  destruct (p_coap_ctx s) as [c|] eqn:Ec; [|exact I].
  specialize (Hf c). destruct (f c) as [a c']. simpl in *.
  unfold inbox_of. simpl. now rewrite E, Ec.
Qed.

Lemma stable_msgid_gen : inbox_stable msgid_gen.
Proof. apply stable_with_ctx. apply msgid_gen_inbox. Qed.

Lemma stable_msg_send m : inbox_stable (msg_send m).
Proof. apply stable_with_ctx. intros c. apply send_inbox. Qed.

Lemma stable_net_match d : inbox_stable (net_match d).
Proof. apply stable_with_ctx. intros c. apply match_inbox. Qed.

Lemma stable_get_coap_token : inbox_stable get_coap_token.
Proof.
  intros w. unfold get_coap_token, sess_put. st_unfold. unfold sess_get.
  destruct (w_session w) as [s|] eqn:E; [|exact I].
  destruct (CoapToken.iotx_get_coap_token (coap_token s)) as [[b l] nx].
  unfold inbox_of. simpl. now rewrite E.
Qed.

#[local] Hint Resolve fuel_safe_ret fuel_safe_ub inbox_stable_safe stable_sess_get stable_malloc
  stable_free stable_sleep stable_msgid_gen stable_msg_send stable_net_match
  stable_get_coap_token : iotx.

(** Split the goal along binds and the branches of the code. *)
Ltac fuel_safe_tac :=
  repeat first
    [ progress eauto with iotx
    | apply fuel_safe_bind; [|intros ?]
    | match goal with
      | |- fuel_safe _ (match ?x with _ => _ end) => destruct x
      | |- fuel_safe _ (if ?b then _ else _) => destruct b
      end ].

Create HintDb iotx_stable.

Lemma inbox_stable_bind {A B} (m : M A) (k : A -> M B) :
  inbox_stable m -> (forall a, inbox_stable (k a)) -> inbox_stable (st_bind m k).
Proof.
  intros Hm Hk w. unfold st_bind. specialize (Hm w).
  destruct (m w) as [[a w']|[why|]]; [|exact I|contradiction].
  specialize (Hk a w'). destruct (k a w') as [[b w'']|[why|]]; auto. congruence.
Qed.

Lemma inbox_stable_ret {A} (a : A) : inbox_stable (st_ret a).
Proof. intros w. reflexivity. Qed.

Lemma inbox_stable_ub {A} why : inbox_stable (@st_stuck _ A (UB why)).
Proof. intros w. exact I. Qed.

#[local] Hint Resolve inbox_stable_ret inbox_stable_ub stable_sess_get stable_malloc stable_free
  stable_sleep stable_msgid_gen stable_msg_send stable_net_match stable_get_coap_token : iotx_stable.

Ltac stable_tac :=
  repeat first
    [ progress eauto with iotx_stable
    | apply inbox_stable_bind; [|intros ?]
    | match goal with
      | |- inbox_stable (match ?x with _ => _ end) => destruct x eqn:?
      | |- inbox_stable (if ?b then _ else _) => destruct b
      | |- inbox_stable (st_stuck ?r) => destruct r
      | E : PathSplit.iotx_split_path_2_option _ _ = Stuck NoFuel |- _ =>
          exfalso; exact (PathSplit.split_path_not_nofuel _ _ E)
      | E : Dispatch.payload_bytes _ = Stuck NoFuel |- _ =>
          exfalso; exact (Dispatch.payload_bytes_not_nofuel _ E)
      end ].

Lemma stable_calc_sign sign0 a b c d : inbox_stable (Sign.iotx_calc_sign sign0 a b c d).
Proof. unfold Sign.iotx_calc_sign. stable_tac. Qed.

Lemma stable_token_from_json p q len : inbox_stable (AuthToken.iotx_get_token_from_json p q len).
Proof. unfold AuthToken.iotx_get_token_from_json, AuthToken.lite_json_value_of. stable_tac. Qed.

Lemma stable_send_message p q r : inbox_stable (Dispatch.IOT_CoAP_SendMessage p q r).
Proof.
  unfold Dispatch.IOT_CoAP_SendMessage.
  destruct p, q, r; auto with iotx_stable.
  apply inbox_stable_bind; [auto with iotx_stable|intros s0].
  destruct (p_coap_ctx s0); [|auto with iotx_stable].
  destruct (_ <=? _); [auto with iotx_stable|].
  destruct (is_authed s0); [|auto with iotx_stable].
  apply inbox_stable_bind; [auto with iotx_stable|intros mid].
  apply inbox_stable_bind; [auto with iotx_stable|intros tok].
  destruct (PathSplit.iotx_split_path_2_option _ _) as [[rc om]|[why|]] eqn:E.
  - destruct rc; auto with iotx_stable. destruct om; auto with iotx_stable.
    apply inbox_stable_bind; [auto with iotx_stable|intros s'].
    destruct (p_auth_token s'); [|auto with iotx_stable].
    destruct (Dispatch.payload_bytes _) as [pl|[why|]] eqn:E2.
    + apply inbox_stable_bind; auto with iotx_stable.
    + auto with iotx_stable.
    + exfalso; exact (Dispatch.payload_bytes_not_nofuel _ E2).
  - auto with iotx_stable.
  - exfalso; exact (PathSplit.split_path_not_nofuel _ _ E).
Qed.

#[local] Hint Resolve stable_calc_sign stable_token_from_json stable_send_message : iotx iotx_stable.

Lemma stable_update_auth r : inbox_stable (sess_update (fun s' =>
  let s1 := set_auth_token (snd r) s' in
  if decide (fst r = IOTX_SUCCESS) then set_is_authed true s1 else s1)).
Proof. apply stable_sess_update. intros s. cbv zeta. now destruct (decide _). Qed.

Lemma stable_update_authed b : inbox_stable (sess_update (set_is_authed b)).
Proof. now apply stable_sess_update. Qed.

#[local] Hint Resolve stable_update_auth stable_update_authed : iotx iotx_stable.

Lemma callback_safe n auth user md :
  fuel_safe n auth -> fuel_safe n (iotx_device_name_auth_callback auth user md).
Proof. intros Ha. unfold iotx_device_name_auth_callback. fuel_safe_tac. Qed.

Lemma notifier_safe n auth code md user :
  fuel_safe n auth -> fuel_safe n (iotx_event_notifyer auth code md user).
Proof. intros Ha. unfold iotx_event_notifyer. fuel_safe_tac. Qed.

Lemma handle_safe n auth d : fuel_safe n auth -> fuel_safe n (CoAPMessage_handle auth d).
Proof.
  intros Ha. unfold CoAPMessage_handle, run_handler.
  fuel_safe_tac; auto using callback_safe, notifier_safe.
Qed.

Lemma net_read_cases (w : world ctx) :
  match net_read w with
  | Ok (None, w') => inbox_of w' = inbox_of w
  | Ok (Some _, w') => (inbox_of w' < inbox_of w)%nat
  | Stuck NoFuel => False
  | Stuck (UB _) => True
  end.
Proof.
  unfold net_read, with_ctx. st_unfold. unfold sess_get.
  destruct (w_session w) as [s|] eqn:E; [|exact I].
  destruct (p_coap_ctx s) as [c|] eqn:Ec; [|exact I].
  destruct (coap_read c) as [[d c']|] eqn:Er; unfold inbox_of; simpl; rewrite E, Ec; [|reflexivity].
  eapply read_inbox; eassumption.
Qed.

Lemma recv_safe auth cnt : forall n,
  (forall k, (k < n)%nat -> fuel_safe k auth) -> fuel_safe n (CoAPMessage_recv auth cnt).
Proof.
  induction cnt as [|cnt IH]; intros n Ha w Hw; [simpl; lia|].
  cbn [CoAPMessage_recv]. unfold st_bind at 1. pose proof (net_read_cases w) as Hr.
  destruct (net_read w) as [[[d|] w']|[why|]]; [|simpl; lia|exact I|contradiction].
  assert (Hk : fuel_safe (inbox_of w')
                 (st_bind (CoAPMessage_handle auth d)
                    (fun _ => match cnt with O => st_ret (datagram_len d)
                                        | S _ => CoAPMessage_recv auth cnt end))).
  { apply fuel_safe_bind; [apply handle_safe, Ha; lia|].
    intros _. destruct cnt; [apply fuel_safe_ret|].
    apply IH. intros k Hk'. apply Ha. lia. }
  specialize (Hk w' (le_n _)).
  destruct (st_bind _ _ w') as [[a w'']|[why|]]; [lia|exact I|contradiction].
Qed.

Lemma cycle_safe n auth : fuel_safe n auth -> fuel_safe n (CoAPMessage_cycle auth).
Proof.
  intros Ha w Hw. unfold CoAPMessage_cycle. unfold st_bind at 1. pose proof (net_read_cases w) as Hr.
  destruct (net_read w) as [[[d|] w']|[why|]]; [|simpl; lia|exact I|contradiction].
  assert (Hk := fuel_safe_bind n _ _ (handle_safe n auth d Ha) (fun _ => fuel_safe_ret n 0) w' ltac:(lia)).
  destruct (st_bind _ _ w') as [[a w'']|[why|]]; [lia|exact I|contradiction].
Qed.

Lemma report_mid_safe auth p n :
  (forall k, (k < n)%nat -> fuel_safe k auth) -> fuel_safe n (iotx_coap_report_mid auth p).
Proof.
  intros Ha. pose proof (recv_safe auth 1 n Ha).
  unfold iotx_coap_report_mid. fuel_safe_tac.
Qed.

Lemma tail_safe auth n :
  (forall k, (k < n)%nat -> fuel_safe k auth) -> fuel_safe n (auth_tail auth).
Proof.
  intros Ha. pose proof (recv_safe auth 2 n Ha). pose proof (report_mid_safe auth P_SESSION n Ha).
  unfold auth_tail. fuel_safe_tac.
Qed.

Lemma auth_fuel_safe f : forall n, (n < f)%nat -> fuel_safe n (IOT_CoAP_DeviceNameAuth f P_SESSION).
Proof.
  induction f as [|f IH]; intros n Hn; [lia|].
  assert (Hlow : forall k, (k < n)%nat -> fuel_safe k (IOT_CoAP_DeviceNameAuth f P_SESSION))
    by (intros k Hk; apply IH; lia).
  cbn [IOT_CoAP_DeviceNameAuth].
  pose proof (tail_safe _ n Hlow). fuel_safe_tac.
Qed.


Lemma yield_safe fuel n : (n < fuel)%nat -> fuel_safe n (IOT_CoAP_Yield fuel P_SESSION).
Proof.
  intros Hn. pose proof (cycle_safe n _ (auth_fuel_safe fuel n Hn)).
  unfold IOT_CoAP_Yield. fuel_safe_tac.
Qed.

(** C3 (termination): the handshake, and a cycle of [IOT_CoAP_Yield], given
    more fuel than there are datagrams still to arrive, never exhausts it:
    the nesting of handshakes in callbacks is bounded by the datagrams the
    server sends, since each nested handshake runs after a read. *)
Theorem auth_terminates (fuel : nat) (w : world ctx) :
  (inbox_of w < fuel)%nat ->
  IOT_CoAP_DeviceNameAuth fuel P_SESSION w <> Stuck NoFuel /\
  IOT_CoAP_Yield fuel P_SESSION w <> Stuck NoFuel.
Proof.
  intros Hn. split.
  - pose proof (auth_fuel_safe fuel (inbox_of w) Hn w (le_n _)) as Hs.
    destruct (IOT_CoAP_DeviceNameAuth fuel P_SESSION w) as [|[]]; congruence.
  - pose proof (yield_safe fuel (inbox_of w) Hn w (le_n _)) as Hs.
    destruct (IOT_CoAP_Yield fuel P_SESSION w) as [|[]]; congruence.
Qed.

(** ** Runs of the handshake on an abstract engine *)

Lemma auth_run f (w : world ctx) s t c di :
  w_session w = Some s -> p_auth_token s = Some t -> p_coap_ctx s = Some c ->
  auth_token_len s <> 0 -> p_devinfo s = Some di -> w_malloc w = [] ->
  strlen (utils_hmac_md5 (Sign.sign_source (device_id di) (device_name di) (product_key di))
            (device_secret di)) < IOTX_SIGN_LENGTH ->
  IOT_CoAP_DeviceNameAuth (S f) P_SESSION w =
  let c1 := snd (CoAPMessageId_gen c) in
  let req := auth_message (fst (CoAPMessageId_gen c)) (CoapToken.token_bytes (coap_token s)) di
               (utils_hmac_md5 (Sign.sign_source (device_id di) (device_name di) (product_key di))
                  (device_secret di)) in
  let s1 := set_coap_ctx (Some (snd (CoAPMessage_send c1 req)))
              (set_coap_token (u32 (coap_token s + 1)) (set_coap_ctx (Some c1) s)) in
  let w1 := mk_world (Some s1) (w_heap w) [] (w_slept w) in
  if bool_decide (fst (CoAPMessage_send c1 req) = COAP_SUCCESS)
  then auth_tail (IOT_CoAP_DeviceNameAuth f P_SESSION) w1
  else Ok (IOTX_ERR_SEND_MSG_FAILED, w1).
Proof.
  intros Ew Et Ec Hl Hd Hm Hsig. cbv zeta.
  cbn [IOT_CoAP_DeviceNameAuth]. unfold msgid_gen, msg_send. st_unfold.
  rewrite (sess_get_ok w s Ew), Et, Ec.
  replace (auth_token_len s =? 0) with false by (symmetry; apply Z.eqb_neq; exact Hl).
  rewrite (with_ctx_ok _ w s c Ew Ec).
  rewrite (get_coap_token_ok _ (set_coap_ctx (Some (snd (CoAPMessageId_gen c))) s)) by reflexivity.
  unfold coap_malloc at 1. cbn [w_malloc set_session]. rewrite Hm.
  cbn [negb]. erewrite sess_get_ok by reflexivity. cbn [p_devinfo set_coap_token set_coap_ctx]. rewrite Hd.
  rewrite Sign.calc_sign_ok by (simpl; auto).
  cbn [snd].
  rewrite (with_ctx_ok _ _ (set_coap_token (u32 (coap_token s + 1))
             (set_coap_ctx (Some (snd (CoAPMessageId_gen c))) s)) (snd (CoAPMessageId_gen c)))
    by reflexivity.
  unfold coap_free. cbn. replace (w_heap w + 1 - 1) with (w_heap w) by lia.
  destruct (bool_decide _); reflexivity.
Qed.
Lemma recv_timeout auth k (w : world ctx) s c :
  w_session w = Some s -> p_coap_ctx s = Some c -> engine_inbox c = O ->
  CoAPMessage_recv auth (S k) w = Ok (0, set_session (Some (set_coap_ctx (Some c) s)) w).
Proof.
  intros Ew Ec Hi. cbn [CoAPMessage_recv]. unfold net_read. st_unfold.
  rewrite (with_ctx_ok _ w s c Ew Ec).
  destruct (coap_read c) as [[d c']|] eqn:Er; [|reflexivity].
  pose proof (read_inbox c d c' Er). lia.
Qed.

(** The handshake when no datagram arrives and no partner id is
    configured: one request, a receive that times out, no module-id
    report. *)
Lemma auth_run_timeout f (w : world ctx) s t c di :
  w_session w = Some s -> p_auth_token s = Some t -> p_coap_ctx s = Some c ->
  auth_token_len s <> 0 -> p_devinfo s = Some di -> w_malloc w = [] ->
  strlen (utils_hmac_md5 (Sign.sign_source (device_id di) (device_name di) (product_key di))
            (device_secret di)) < IOTX_SIGN_LENGTH ->
  inbox_of w = O -> strlen HAL_GetPartnerID = 0 ->
  let c1 := snd (CoAPMessageId_gen c) in
  let req := auth_message (fst (CoAPMessageId_gen c)) (CoapToken.token_bytes (coap_token s)) di
               (utils_hmac_md5 (Sign.sign_source (device_id di) (device_name di) (product_key di))
                  (device_secret di)) in
  let c2 := snd (CoAPMessage_send c1 req) in
  let s1 := set_coap_ctx (Some c2) (set_coap_token (u32 (coap_token s + 1)) (set_coap_ctx (Some c1) s)) in
  IOT_CoAP_DeviceNameAuth (S f) P_SESSION w =
  if bool_decide (fst (CoAPMessage_send c1 req) = COAP_SUCCESS)
  then Ok (IOTX_SUCCESS, mk_world (Some (set_coap_ctx (Some c2) s1)) (w_heap w) [] (w_slept w))
  else Ok (IOTX_ERR_SEND_MSG_FAILED, mk_world (Some s1) (w_heap w) [] (w_slept w)).
Proof.
  intros Ew Et Ec Hl Hd Hm Hsig Hi Hp.
  rewrite (auth_run f w s t c di) by assumption. cbv zeta.
  assert (Hi0 : engine_inbox c = O) by (unfold inbox_of in Hi; now rewrite Ew, Ec in Hi).
  destruct (bool_decide _); [|reflexivity].
  unfold auth_tail. st_unfold.
  rewrite (recv_timeout _ 1 _ _ (snd (CoAPMessage_send (snd (CoAPMessageId_gen c)) _)))
    by (try reflexivity; rewrite send_inbox, msgid_gen_inbox; exact Hi0).
  erewrite sess_get_ok by reflexivity. cbn -[iotx_coap_report_mid].
  unfold iotx_coap_report_mid. now rewrite Hp.
Qed.

(** What the engine logged after that run. *)
Lemma auth_timeout_sent (w : world ctx) s c c1 req :
  w_session w = Some s -> p_coap_ctx s = Some c -> c1 = snd (CoAPMessageId_gen c) ->
  engine_sent (snd (CoAPMessage_send c1 req)) =
  sent_of w ++ (if decide (fst (CoAPMessage_send c1 req) = COAP_SUCCESS) then [req] else []).
Proof.
  intros Ew Ec ->. rewrite send_sent, msgid_gen_sent. unfold sent_of. now rewrite Ew, Ec.
Qed.

(** The timeout run, whatever the session's authentication flag: the flag
    is left as it was, the request [auth_message] with the session's token
    and the signature is handed to the engine, the outcome is
    [IOTX_SUCCESS] exactly when the engine took it (and it is then the one
    message added to the log), otherwise [IOTX_ERR_SEND_MSG_FAILED]. *)
Lemma auth_timeout_outcome f (w : world ctx) s t c di :
  w_session w = Some s -> p_auth_token s = Some t -> p_coap_ctx s = Some c ->
  auth_token_len s <> 0 -> p_devinfo s = Some di -> w_malloc w = [] ->
  strlen (utils_hmac_md5 (Sign.sign_source (device_id di) (device_name di) (product_key di))
            (device_secret di)) < IOTX_SIGN_LENGTH ->
  inbox_of w = O -> strlen HAL_GetPartnerID = 0 ->
  let req := auth_message (fst (CoAPMessageId_gen c)) (CoapToken.token_bytes (coap_token s)) di
               (utils_hmac_md5 (Sign.sign_source (device_id di) (device_name di) (product_key di))
                  (device_secret di)) in
  exists r w', IOT_CoAP_DeviceNameAuth (S f) P_SESSION w = Ok (r, w') /\
    option_map is_authed (w_session w') = Some (is_authed s) /\
    (r = IOTX_SUCCESS \/ r = IOTX_ERR_SEND_MSG_FAILED) /\
    (r = IOTX_SUCCESS <-> fst (CoAPMessage_send (snd (CoAPMessageId_gen c)) req) = COAP_SUCCESS) /\
    sent_of w' = sent_of w ++ (if decide (r = IOTX_SUCCESS) then [req] else []).
Proof.
  intros Ew Et Ec Hl Hd Hm Hsig Hi Hp req.
  rewrite (auth_run_timeout f w s t c di) by assumption. cbv zeta. fold req.
  destruct (decide (fst (CoAPMessage_send (snd (CoAPMessageId_gen c)) req) = COAP_SUCCESS)) as [E|E];
    [rewrite (bool_decide_eq_true_2 _ E)|rewrite (bool_decide_eq_false_2 _ E)];
    eexists _, _; (split; [reflexivity|]); cbn [w_session option_map is_authed set_coap_ctx set_coap_token];
    (split; [reflexivity|]); unfold sent_of at 1; cbn [w_session p_coap_ctx set_coap_ctx];
    erewrite auth_timeout_sent by eauto.
  - rewrite !decide_True by (reflexivity || exact E). split; [now left|]. split; [tauto|reflexivity].
  - rewrite decide_False by exact E. rewrite decide_False by discriminate.
    split; [now right|]. split; [split; [discriminate|tauto]|reflexivity].
Qed.

(** C2 (error; a defect of the code): when no response arrives within the
    wait time and no partner id is configured, the handshake never reports
    [IOTX_ERR_AUTH_FAILED]: it returns [IOTX_SUCCESS] exactly when the
    engine took the request, although the session is still not
    authenticated (the check of line 391 only runs when a datagram was
    received); otherwise [IOTX_ERR_SEND_MSG_FAILED]. *)
Theorem auth_timeout_reported_success f (w : world ctx) s t c di :
  w_session w = Some s -> p_auth_token s = Some t -> p_coap_ctx s = Some c ->
  auth_token_len s <> 0 -> p_devinfo s = Some di -> w_malloc w = [] ->
  strlen (utils_hmac_md5 (Sign.sign_source (device_id di) (device_name di) (product_key di))
            (device_secret di)) < IOTX_SIGN_LENGTH ->
  is_authed s = false -> inbox_of w = O -> strlen HAL_GetPartnerID = 0 ->
  exists r w', IOT_CoAP_DeviceNameAuth (S f) P_SESSION w = Ok (r, w') /\
    option_map is_authed (w_session w') = Some false /\
    (r = IOTX_SUCCESS \/ r = IOTX_ERR_SEND_MSG_FAILED) /\
    (r = IOTX_SUCCESS <-> length (sent_of w') = S (length (sent_of w))).
Proof.
  intros Ew Et Ec Hl Hd Hm Hsig Ha Hi Hp.
  destruct (auth_timeout_outcome f w s t c di) as (r & w' & Hrun & Hs & Hr & _ & Hsent);
    try assumption.
  exists r, w'. rewrite Hsent, length_app, <- Ha.
  split; [exact Hrun|]. split; [exact Hs|]. split; [exact Hr|].
  destruct (decide (r = IOTX_SUCCESS)); simpl; split; (lia || tauto).
Qed.

(** C16 (error; the spec's handshake is valid only from the unauthenticated
    state): the code has no such guard.  On a session that is already
    authenticated, [IOT_CoAP_DeviceNameAuth] does not refuse: it signs and
    hands the engine a fresh authentication request for the session's
    token, reports [IOTX_SUCCESS] exactly when the engine took it (which is
    then added to the log) and [IOTX_ERR_SEND_MSG_FAILED] otherwise, and
    when no answer comes it keeps the session authenticated. *)
Theorem auth_authed_resends f (w : world ctx) s t c di :
  w_session w = Some s -> p_auth_token s = Some t -> p_coap_ctx s = Some c ->
  auth_token_len s <> 0 -> p_devinfo s = Some di -> w_malloc w = [] ->
  strlen (utils_hmac_md5 (Sign.sign_source (device_id di) (device_name di) (product_key di))
            (device_secret di)) < IOTX_SIGN_LENGTH ->
  is_authed s = true -> inbox_of w = O -> strlen HAL_GetPartnerID = 0 ->
  let req := auth_message (fst (CoAPMessageId_gen c)) (CoapToken.token_bytes (coap_token s)) di
               (utils_hmac_md5 (Sign.sign_source (device_id di) (device_name di) (product_key di))
                  (device_secret di)) in
  exists r w', IOT_CoAP_DeviceNameAuth (S f) P_SESSION w = Ok (r, w') /\
    option_map is_authed (w_session w') = Some true /\
    (r = IOTX_SUCCESS \/ r = IOTX_ERR_SEND_MSG_FAILED) /\
    (r = IOTX_SUCCESS <-> fst (CoAPMessage_send (snd (CoAPMessageId_gen c)) req) = COAP_SUCCESS) /\
    sent_of w' = sent_of w ++ (if decide (r = IOTX_SUCCESS) then [req] else []).
Proof.
  intros Ew Et Ec Hl Hd Hm Hsig Ha Hi Hp. rewrite <- Ha.
  apply (auth_timeout_outcome f w s t c di); assumption.
Qed.

Lemma callback_content_run (auth : M iotx_ret_code) (w : world ctx) s d tok0 v :
  w_session w = Some s -> dg_code d = COAP_MSG_CODE_205_CONTENT ->
  LITE_json_value_of "token" (dg_payload d) = Some v -> p_auth_token s = Some tok0 ->
  strlen v <= auth_token_len s - 1 -> auth_token_len s <= 2 ^ 32 -> hd true (w_malloc w) = true ->
  iotx_device_name_auth_callback auth P_SESSION (Some d) w =
  Ok (tt, mk_world (Some (set_is_authed true (set_auth_token (Some v) s)))
            (w_heap w) (tl (w_malloc w)) (w_slept w)).
Proof.
  intros Ew Hc Hv Ht Hl Hcap Hm. unfold iotx_device_name_auth_callback. rewrite Hc, Z.eqb_refl.
  rewrite (st_bind_ok _ _ _ _ _ (sess_get_ok w s Ew)), Ht.
  rewrite (st_bind_ok _ _ _ _ _ (AuthToken.token_from_json_ok _ _ _ _ _ Hv Hm Hl Hcap)).
  unfold sess_update, sess_put, sess_get. st_unfold. cbn. now rewrite Ew.
Qed.

Lemma devicename_str_length pk dn cid sign :
  strlen (IOTX_AUTH_DEVICENAME_STR pk dn cid sign) = 57 + strlen pk + strlen dn + strlen cid + strlen sign.
Proof.
  unfold IOTX_AUTH_DEVICENAME_STR, json_field, strlen. rewrite !string_length_app. simpl String.length. lia.
Qed.

(** C28 (bounds): for an identity within the capacities of
    [iotx_deviceinfo_t] (what [IOT_CoAP_Init] stores) and a digest that
    fits [sign[IOTX_SIGN_LENGTH]], the [HAL_Snprintf] of lines 372-377 into
    the [COAP_MSG_MAX_PDU_LEN] bytes of [p_payload] never truncates: the
    request carries exactly the JSON body of the spec,
    [{"productKey":..,"deviceName":..,"clientId":..,"sign":..}], of at most
    213 bytes. *)
Theorem auth_payload_untruncated di sign :
  Sign.devinfo_bounded di -> strlen sign < IOTX_SIGN_LENGTH ->
  auth_payload di sign = IOTX_AUTH_DEVICENAME_STR (product_key di) (device_name di) (device_id di) sign /\
  strlen (auth_payload di sign) <= 213.
Proof.
  intros (Hpk & Hdn & Hid & _) Hs. unfold IOTX_PRODUCT_KEY_LEN, IOTX_DEVICE_NAME_LEN,
    IOTX_DEVICE_ID_LEN, IOTX_SIGN_LENGTH in *.
  assert (E : auth_payload di sign =
              IOTX_AUTH_DEVICENAME_STR (product_key di) (device_name di) (device_id di) sign)
    by (apply snprintf_fits; rewrite devicename_str_length; unfold COAP_MSG_MAX_PDU_LEN; lia).
  split; [exact E|]. rewrite E, devicename_str_length. lia.
Qed.

(** C22 (functional): on a 2.05 response whose ["token"] field fits the
    session's token buffer, the callback stores the token, marks the
    session authenticated and frees every block it allocated; it starts no
    handshake. *)
Theorem auth_callback_content (auth : M iotx_ret_code) (w : world ctx) s d tok0 v :
  w_session w = Some s -> dg_code d = COAP_MSG_CODE_205_CONTENT ->
  LITE_json_value_of "token" (dg_payload d) = Some v -> p_auth_token s = Some tok0 ->
  strlen v <= auth_token_len s - 1 -> auth_token_len s <= 2 ^ 32 -> hd true (w_malloc w) = true ->
  iotx_device_name_auth_callback auth P_SESSION (Some d) w =
  Ok (tt, mk_world (Some (set_is_authed true (set_auth_token (Some v) s)))
            (w_heap w) (tl (w_malloc w)) (w_slept w)).
Proof.
  apply callback_content_run.
Qed.

(** C5 (functional; the spec's re-authentication): a 4.01 or 4.02
    response to a request of the session makes the notifier clear
    [is_authed] and run the handshake again: exactly one new confirmable
    request, to the path ["auth"], is handed to the engine.  When no answer
    to it arrives, the session stays unauthenticated. *)
Theorem notifier_reauth f (w : world ctx) s t c di code d :
  code = COAP_MSG_CODE_401_UNAUTHORIZED \/ code = COAP_MSG_CODE_402_BAD_OPTION ->
  w_session w = Some s -> p_auth_token s = Some t -> p_coap_ctx s = Some c ->
  auth_token_len s <> 0 -> p_devinfo s = Some di -> w_malloc w = [] ->
  strlen (utils_hmac_md5 (Sign.sign_source (device_id di) (device_name di) (product_key di))
            (device_secret di)) < IOTX_SIGN_LENGTH ->
  inbox_of w = O -> strlen HAL_GetPartnerID = 0 ->
  let req := auth_message (fst (CoAPMessageId_gen c)) (CoapToken.token_bytes (coap_token s)) di
               (utils_hmac_md5 (Sign.sign_source (device_id di) (device_name di) (product_key di))
                  (device_secret di)) in
  fst (CoAPMessage_send (snd (CoAPMessageId_gen c)) req) = COAP_SUCCESS ->
  exists w', iotx_event_notifyer (IOT_CoAP_DeviceNameAuth (S f) P_SESSION) code (Some d) P_SESSION w
             = Ok (tt, w') /\
    option_map is_authed (w_session w') = Some false /\
    sent_of w' = sent_of w ++ [req] /\
    cm_type req = COAP_MESSAGE_TYPE_CON /\ uri_path_options req = [IOTX_AUTH_STR].
Proof.
  intros Hc Ew Et Ec Hl Hd Hm Hsig Hi Hp req Hs.
  unfold iotx_event_notifyer.
  replace ((code =? COAP_MSG_CODE_402_BAD_OPTION) || (code =? COAP_MSG_CODE_401_UNAUTHORIZED))
    with true by (destruct Hc; subst; reflexivity).
  unfold sess_update, sess_put. st_unfold. rewrite (sess_get_ok w s Ew).
  assert (Hi0 : engine_inbox c = O) by (unfold inbox_of in Hi; now rewrite Ew, Ec in Hi).
  rewrite (auth_run_timeout f _ (set_is_authed false s) t c di)
    by (try reflexivity; try assumption; unfold inbox_of; simpl; now rewrite Ec).
  cbv zeta. fold req. rewrite (bool_decide_eq_true_2 _ Hs).
  eexists. split; [reflexivity|]. split; [reflexivity|]. split; [|split; reflexivity].
  unfold sent_of at 1. cbn [w_session p_coap_ctx set_coap_ctx].
  rewrite (auth_timeout_sent w s c) by auto. now rewrite decide_True by exact Hs.
Qed.

(** C7 (functional; the spec's authenticate-then-send): after the
    callback has taken a 2.05 response whose ["token"] field is [v], the
    session is authenticated and the next [IOT_CoAP_SendMessage] hands the
    engine a request carrying [v] as its auth-token option. *)
Theorem auth_then_send_attaches_token (auth : M iotx_ret_code) (w : world ctx) s c d tok0 v
    path msg pl :
  w_session w = Some s -> p_coap_ctx s = Some c -> dg_code d = COAP_MSG_CODE_205_CONTENT ->
  LITE_json_value_of "token" (dg_payload d) = Some v -> p_auth_token s = Some tok0 ->
  strlen v <= auth_token_len s - 1 -> auth_token_len s <= 2 ^ 32 -> hd true (w_malloc w) = true ->
  Dispatch.payload_bytes msg = Ok pl -> payload_len msg < COAP_MSG_MAX_PDU_LEN ->
  no_nul path = true -> strlen path <= IOTX_URI_MAX_LEN ->
  Forall PathSplit.fits_path (PathSplit.path_segments path) ->
  let m := Dispatch.expected_request (fst (CoAPMessageId_gen c)) (CoapToken.token_bytes (coap_token s))
             path msg v pl in
  exists w1 r w2,
    iotx_device_name_auth_callback auth P_SESSION (Some d) w = Ok (tt, w1) /\
    option_map is_authed (w_session w1) = Some true /\
    Dispatch.IOT_CoAP_SendMessage P_SESSION (Some path) (Some msg) w1 = Ok (r, w2) /\
    sent_of w2 = sent_of w ++
      (if decide (fst (CoAPMessage_send (snd (CoAPMessageId_gen c)) m) = COAP_SUCCESS)
       then [m] else []) /\
    In (mk_option COAP_OPTION_AUTH_TOKEN (OptStr v)) (cm_options m).
Proof.
  intros Ew Ec Hc Hv Ht Hl Hcap Hm Hp Hpl Hn Hlen Hfit m.
  rewrite (callback_content_run auth w s d tok0 v) by assumption.
  do 3 eexists. split; [reflexivity|]. split; [reflexivity|].
  rewrite (Dispatch.send_message_authed_run _ (set_is_authed true (set_auth_token (Some v) s)) c path msg v pl)
    by (try reflexivity; assumption).
  cbv zeta. fold m. split; [reflexivity|]. split; [|apply Dispatch.finish_request_token_option].
  rewrite (sent_of_set _ _ (snd (CoAPMessage_send (snd (CoAPMessageId_gen c)) m))) by reflexivity.
  rewrite send_sent, msgid_gen_sent. unfold sent_of. now rewrite Ew, Ec.
Qed.

(** C20 (safety; a defect of the code): the engine hands the notifier the
    user data of the request a response answers, and [IOT_CoAP_SendMessage]
    gives an application's request the application's [user_data] (line
    481).  So when a cycle of [IOT_CoAP_Yield] reads a 4.01 or 4.02 answer
    that the engine pairs with such a request, the run reaches undefined
    behaviour whatever the request's handler: the notifier (line 168), or
    for the handshake's handler the auth callback (line 113), casts the
    application's pointer to an [iotx_coap_t] and writes through it. *)
Theorem yield_app_unauthorized_ub fuel (w : world ctx) s c d c1 h n :
  w_session w = Some s -> p_coap_ctx s = Some c -> coap_read c = Some (d, c1) ->
  dg_code d = COAP_MSG_CODE_401_UNAUTHORIZED \/ dg_code d = COAP_MSG_CODE_402_BAD_OPTION ->
  fst (coap_match c1 d) = Some (h, P_APP n) ->
  exists why, IOT_CoAP_Yield fuel P_SESSION w = Stuck (UB why).
Proof.
  intros Ew Ec Er Hc Hm.
  unfold IOT_CoAP_Yield, CoAPMessage_cycle, net_read. st_unfold.
  rewrite (sess_get_ok w s Ew), Ec, (with_ctx_ok _ w s c Ew Ec), Er. cbn [fst snd].
  unfold CoAPMessage_handle, net_match. st_unfold.
  rewrite (with_ctx_ok _ _ (set_coap_ctx (Some c1) s) c1) by reflexivity.
  destruct (coap_match c1 d) as [r c2]. cbn [fst snd] in *. subst r.
  assert (Hb : (dg_code d =? COAP_MSG_CODE_402_BAD_OPTION) || (dg_code d =? COAP_MSG_CODE_401_UNAUTHORIZED)
               = true) by (destruct Hc as [-> | ->]; reflexivity).
  destruct h; cbn; rewrite ?Hb; eexists; reflexivity.
Qed.

(** ** Failure paths of the handshake

    The module-id report.  When the platform has a partner id and a module
    id, [iotx_coap_report_mid] sends its report through
    [IOT_CoAP_SendMessage] after the handshake's receive.  The dispatcher
    refuses a session that is not authenticated, so after a handshake whose
    response never arrived the report fails, frees its buffer, and the
    handshake returns [IOTX_ERR_SEND_MSG_FAILED] although every send
    succeeded.

    The signature.  [iotx_calc_sign] allocates a scratch buffer; when that
    allocation fails it returns [IOTX_ERR_NO_MEM] with the caller's buffer
    as it was, and the handshake (line 370) ignores the code and sends the
    request with the empty sign it initialised. *)

(** The report on a session that is not authenticated: the dispatcher
    refuses it, the buffer is freed, nothing is sent. *)
Lemma report_mid_unauthed auth (w : world ctx) s c di :
  w_session w = Some s -> p_coap_ctx s = Some c -> p_devinfo s = Some di -> is_authed s = false ->
  w_malloc w = [] -> strlen HAL_GetPartnerID <> 0 -> strlen HAL_GetModuleID <> 0 ->
  iotx_coap_report_mid auth P_SESSION w =
  Ok (FAIL_RETURN, mk_world (Some s) (w_heap w) [] (w_slept w)).
Proof.
  intros Ew Ec Hd Ha Hm Hp Hmid. unfold iotx_coap_report_mid.
  rewrite (proj2 (Z.eqb_neq _ _) Hp), (proj2 (Z.eqb_neq _ _) Hmid). st_unfold.
  rewrite (sess_get_ok w s Ew), Hd. unfold coap_malloc. rewrite Hm. cbn [negb].
  destruct (iotx_midreport_topic _ _ _) as [topic|]; unfold coap_free; cbn.
  - unfold Dispatch.IOT_CoAP_SendMessage. st_unfold. unfold sess_get. cbn. rewrite Ew, Ec.
    destruct (_ <=? _); [|rewrite Ha]; cbn; rewrite bool_decide_eq_false_2 by discriminate; cbn;
      repeat f_equal; lia.
  - rewrite Ew. repeat f_equal; lia.
Qed.

(** The handshake, no datagram arriving, a partner id configured. *)
Lemma auth_run_timeout_partner f (w : world ctx) s t c di :
  w_session w = Some s -> p_auth_token s = Some t -> p_coap_ctx s = Some c ->
  auth_token_len s <> 0 -> p_devinfo s = Some di -> w_malloc w = [] ->
  strlen (utils_hmac_md5 (Sign.sign_source (device_id di) (device_name di) (product_key di))
            (device_secret di)) < IOTX_SIGN_LENGTH ->
  is_authed s = false -> inbox_of w = O ->
  strlen HAL_GetPartnerID <> 0 -> strlen HAL_GetModuleID <> 0 ->
  exists s', IOT_CoAP_DeviceNameAuth (S f) P_SESSION w =
    Ok (IOTX_ERR_SEND_MSG_FAILED, mk_world (Some s') (w_heap w) [] (w_slept w)) /\
    is_authed s' = false.
Proof.
  intros Ew Et Ec Hl Hd Hm Hsig Ha Hi Hp Hmid.
  rewrite (auth_run f w s t c di) by assumption. cbv zeta.
  assert (Hi0 : engine_inbox c = O) by (unfold inbox_of in Hi; now rewrite Ew, Ec in Hi).
  destruct (bool_decide _); [|eexists; split; [reflexivity|exact Ha]].
  unfold auth_tail. st_unfold.
  rewrite (recv_timeout _ 1 _ _ (snd (CoAPMessage_send (snd (CoAPMessageId_gen c)) _)))
    by (try reflexivity; rewrite send_inbox, msgid_gen_inbox; exact Hi0).
  erewrite sess_get_ok by reflexivity. cbn [is_authed set_coap_ctx set_coap_token].
  cbn [Z.ltb Z.compare andb].
  erewrite report_mid_unauthed by (try reflexivity; cbn; eassumption).
  cbn. eexists. split; [reflexivity|exact Ha].
Qed.

(** The handshake when the signature's buffer cannot be allocated. *)
Lemma auth_run_sign_no_mem f (w : world ctx) s t c di :
  w_session w = Some s -> p_auth_token s = Some t -> p_coap_ctx s = Some c ->
  auth_token_len s <> 0 -> p_devinfo s = Some di -> w_malloc w = [true; false] ->
  IOT_CoAP_DeviceNameAuth (S f) P_SESSION w =
  let c1 := snd (CoAPMessageId_gen c) in
  let req := auth_message (fst (CoAPMessageId_gen c)) (CoapToken.token_bytes (coap_token s)) di "" in
  let s1 := set_coap_ctx (Some (snd (CoAPMessage_send c1 req)))
              (set_coap_token (u32 (coap_token s + 1)) (set_coap_ctx (Some c1) s)) in
  let w1 := mk_world (Some s1) (w_heap w) [] (w_slept w) in
  if bool_decide (fst (CoAPMessage_send c1 req) = COAP_SUCCESS)
  then auth_tail (IOT_CoAP_DeviceNameAuth f P_SESSION) w1
  else Ok (IOTX_ERR_SEND_MSG_FAILED, w1).
Proof.
  intros Ew Et Ec Hl Hd Hm. cbv zeta.
  cbn [IOT_CoAP_DeviceNameAuth]. unfold msgid_gen, msg_send. st_unfold.
  rewrite (sess_get_ok w s Ew), Et, Ec.
  replace (auth_token_len s =? 0) with false by (symmetry; apply Z.eqb_neq; exact Hl).
  rewrite (with_ctx_ok _ w s c Ew Ec).
  rewrite (get_coap_token_ok _ (set_coap_ctx (Some (snd (CoAPMessageId_gen c))) s)) by reflexivity.
  unfold coap_malloc at 1. cbn [w_malloc set_session]. rewrite Hm.
  cbn [negb]. erewrite sess_get_ok by reflexivity. cbn [p_devinfo set_coap_token set_coap_ctx]. rewrite Hd.
  rewrite (Sign.calc_sign_no_mem _ _ _ _ _ _ []) by reflexivity. cbn [snd].
  rewrite (with_ctx_ok _ _ (set_coap_token (u32 (coap_token s + 1))
             (set_coap_ctx (Some (snd (CoAPMessageId_gen c))) s)) (snd (CoAPMessageId_gen c)))
    by reflexivity.
  unfold coap_free. cbn. replace (w_heap w + 1 - 1) with (w_heap w) by lia.
  destruct (bool_decide _); reflexivity.
Qed.

(** C17 (error; a defect of the code): when the allocation of the
    signature's scratch buffer fails, the handshake does not stop: the code
    [iotx_calc_sign] returns is dropped (line 370) and the request with an
    empty sign is handed to the engine.  With no response arriving and no
    partner id, the handshake returns [IOTX_SUCCESS] exactly when the engine
    took that request, which is then the one message added to its log, and
    [IOTX_ERR_SEND_MSG_FAILED] otherwise, never [IOTX_ERR_NO_MEM]; it frees
    every block it allocated. *)
Theorem auth_sign_no_mem_sends_empty_sign f (w : world ctx) s t c di :
  w_session w = Some s -> p_auth_token s = Some t -> p_coap_ctx s = Some c ->
  auth_token_len s <> 0 -> p_devinfo s = Some di -> w_malloc w = [true; false] ->
  inbox_of w = O -> strlen HAL_GetPartnerID = 0 ->
  let req := auth_message (fst (CoAPMessageId_gen c)) (CoapToken.token_bytes (coap_token s)) di "" in
  exists r w', IOT_CoAP_DeviceNameAuth (S f) P_SESSION w = Ok (r, w') /\ w_heap w' = w_heap w /\
    (r = IOTX_SUCCESS \/ r = IOTX_ERR_SEND_MSG_FAILED) /\
    (r = IOTX_SUCCESS <-> fst (CoAPMessage_send (snd (CoAPMessageId_gen c)) req) = COAP_SUCCESS) /\
    sent_of w' = sent_of w ++ (if decide (r = IOTX_SUCCESS) then [req] else []).
Proof.
  intros Ew Et Ec Hl Hd Hm Hi Hp req.
  rewrite (auth_run_sign_no_mem f w s t c di) by assumption. cbv zeta. fold req.
  assert (Hi0 : engine_inbox c = O) by (unfold inbox_of in Hi; now rewrite Ew, Ec in Hi).
  destruct (decide (fst (CoAPMessage_send (snd (CoAPMessageId_gen c)) req) = COAP_SUCCESS)) as [E|E].
  - rewrite (bool_decide_eq_true_2 _ E). unfold auth_tail. st_unfold.
    rewrite (recv_timeout _ 1 _ _ (snd (CoAPMessage_send (snd (CoAPMessageId_gen c)) _)))
      by (try reflexivity; rewrite send_inbox, msgid_gen_inbox; exact Hi0).
    erewrite sess_get_ok by reflexivity. cbn -[iotx_coap_report_mid].
    unfold iotx_coap_report_mid. rewrite Hp. cbn.
    eexists _, _. split; [reflexivity|]. split; [reflexivity|].
    split; [now left|]. split; [tauto|].
    unfold sent_of at 1. cbn. erewrite auth_timeout_sent by eauto. now rewrite !decide_True.
  - rewrite (bool_decide_eq_false_2 _ E). eexists _, _. split; [reflexivity|]. split; [reflexivity|].
    split; [now right|]. split; [split; [discriminate|tauto]|].
    unfold sent_of at 1. cbn. erewrite auth_timeout_sent by eauto.
    rewrite decide_False by exact E. now rewrite decide_False by discriminate.
Qed.

(** C11 (error; a defect of the code): with a partner id and a module id
    configured, a handshake whose response never arrives within the wait
    time returns [IOTX_ERR_SEND_MSG_FAILED], whether or not the engine took
    the request: the module-id report it then attempts is refused by
    [IOT_CoAP_SendMessage] because the session is not authenticated.  The
    session stays unauthenticated and the report's buffer is freed. *)
Theorem auth_timeout_partner_send_failed f (w : world ctx) s t c di :
  w_session w = Some s -> p_auth_token s = Some t -> p_coap_ctx s = Some c ->
  auth_token_len s <> 0 -> p_devinfo s = Some di -> w_malloc w = [] ->
  strlen (utils_hmac_md5 (Sign.sign_source (device_id di) (device_name di) (product_key di))
            (device_secret di)) < IOTX_SIGN_LENGTH ->
  is_authed s = false -> inbox_of w = O ->
  strlen HAL_GetPartnerID <> 0 -> strlen HAL_GetModuleID <> 0 ->
  exists w', IOT_CoAP_DeviceNameAuth (S f) P_SESSION w = Ok (IOTX_ERR_SEND_MSG_FAILED, w') /\
    option_map is_authed (w_session w') = Some false /\ w_heap w' = w_heap w.
Proof.
  intros. destruct (auth_run_timeout_partner f w s t c di) as (s' & E & Ha); auto.
  eexists. rewrite E. split; [reflexivity|]. cbn. now rewrite Ha.
Qed.

End Auth.
(** ** Witnesses, on the scripted engine and platform *)

Import Scripted.
Local Open Scope string_scope.

(** The 2.05 response to the first authentication request of a session. *)
Definition demo_ok205 : datagram :=
  mk_datagram COAP_MESSAGE_TYPE_ACK COAP_MSG_CODE_205_CONTENT
    (CoapToken.token_bytes IOTX_COAP_INIT_TOKEN) AuthToken.demo_auth_body.

Definition demo_auth_world (inbox : list datagram) : world script_ctx :=
  demo_world (demo_session false [] inbox).

Lemma auth_terminates_witness :
  (@inbox_of script_ctx script_engine (demo_auth_world [demo_ok205]) < 2)%nat /\
  @IOT_CoAP_DeviceNameAuth (scripted_platform "" "") script_ctx script_engine 2 P_SESSION
    (demo_auth_world [demo_ok205]) <> Stuck NoFuel /\
  @IOT_CoAP_Yield (scripted_platform "" "") script_ctx script_engine 2 P_SESSION
    (demo_auth_world [demo_ok205]) <> Stuck NoFuel.
Proof.
  assert (Hn : (@inbox_of script_ctx script_engine (demo_auth_world [demo_ok205]) < 2)%nat)
    by wit_hyp.
  split; [exact Hn|].
  exact (@auth_terminates (scripted_platform "" "") script_ctx script_engine 2 _ Hn).
Defined.

Lemma auth_timeout_reported_success_witness :
  exists r w',
    @IOT_CoAP_DeviceNameAuth (scripted_platform "" "") script_ctx script_engine 1 P_SESSION
      (demo_auth_world []) = Ok (r, w') /\
    option_map is_authed (w_session w') = Some false /\
    (r = IOTX_SUCCESS \/ r = IOTX_ERR_SEND_MSG_FAILED) /\
    (r = IOTX_SUCCESS <-> length (@sent_of script_ctx script_engine w') =
                          S (length (@sent_of script_ctx script_engine (demo_auth_world [])))).
Proof.
  exact (@auth_timeout_reported_success (scripted_platform "" "") script_ctx script_engine 0
           (demo_auth_world []) (demo_session false [] []) "T123" (mk_sctx 1 [] [] []) demo_devinfo
           eq_refl eq_refl eq_refl ltac:(wit_hyp) eq_refl eq_refl ltac:(wit_hyp) eq_refl eq_refl
           ltac:(wit_hyp)).
Defined.

Definition demo_authed_world : world script_ctx :=
  demo_world (demo_session true [] []).

Lemma auth_authed_resends_witness :
  let req := auth_message (fst (@CoAPMessageId_gen _ script_engine (mk_sctx 1 [] [] [])))
               (CoapToken.token_bytes (coap_token (demo_session true [] []))) demo_devinfo
               (@utils_hmac_md5 (scripted_platform "" "")
                  (Sign.sign_source (device_id demo_devinfo) (device_name demo_devinfo)
                     (product_key demo_devinfo)) (device_secret demo_devinfo)) in
  exists r w',
    @IOT_CoAP_DeviceNameAuth (scripted_platform "" "") script_ctx script_engine 1 P_SESSION
      demo_authed_world = Ok (r, w') /\
    option_map is_authed (w_session w') = Some true /\
    (r = IOTX_SUCCESS \/ r = IOTX_ERR_SEND_MSG_FAILED) /\
    (r = IOTX_SUCCESS <->
       fst (@CoAPMessage_send _ script_engine
              (snd (@CoAPMessageId_gen _ script_engine (mk_sctx 1 [] [] []))) req) = COAP_SUCCESS) /\
    @sent_of script_ctx script_engine w' =
      (@sent_of script_ctx script_engine demo_authed_world ++
       (if decide (r = IOTX_SUCCESS) then [req] else []))%list.
Proof.
  refine (@auth_authed_resends (scripted_platform "" "") script_ctx script_engine 0
           demo_authed_world (demo_session true [] []) "T123" (mk_sctx 1 [] [] []) demo_devinfo
           eq_refl eq_refl eq_refl ltac:(wit_hyp) eq_refl eq_refl ltac:(wit_hyp) eq_refl eq_refl
           ltac:(wit_hyp)).
Defined.

Lemma auth_payload_untruncated_witness :
  (Sign.devinfo_bounded demo_devinfo /\ strlen "0123456789abcdef0123456789abcdef01234567" < IOTX_SIGN_LENGTH) /\
  auth_payload demo_devinfo "0123456789abcdef0123456789abcdef01234567" =
    IOTX_AUTH_DEVICENAME_STR (product_key demo_devinfo) (device_name demo_devinfo) (device_id demo_devinfo)
      "0123456789abcdef0123456789abcdef01234567" /\
  strlen (auth_payload demo_devinfo "0123456789abcdef0123456789abcdef01234567") <= 213.
Proof.
  assert (Hd : Sign.devinfo_bounded demo_devinfo) by (repeat split; wit_hyp).
  assert (Hs : strlen "0123456789abcdef0123456789abcdef01234567" < IOTX_SIGN_LENGTH) by wit_hyp.
  split; [split; assumption|]. exact (auth_payload_untruncated _ _ Hd Hs).
Defined.

Lemma auth_callback_content_witness :
  @iotx_device_name_auth_callback (scripted_platform "" "") script_ctx
    (@IOT_CoAP_DeviceNameAuth (scripted_platform "" "") script_ctx script_engine 1 P_SESSION)
    P_SESSION (Some demo_ok205) (demo_auth_world []) =
  Ok (tt, mk_world (Some (set_is_authed true (set_auth_token (Some "T123") (demo_session false [] []))))
            0 [] 0).
Proof.
  exact (@auth_callback_content (scripted_platform "" "") script_ctx
           (@IOT_CoAP_DeviceNameAuth (scripted_platform "" "") script_ctx script_engine 1 P_SESSION)
           (demo_auth_world []) (demo_session false [] []) demo_ok205 "T123" "T123"
           eq_refl eq_refl eq_refl eq_refl ltac:(wit_hyp) ltac:(wit_hyp) eq_refl).
Defined.


(** A 4.01 response. *)
Definition demo_401 : datagram :=
  mk_datagram COAP_MESSAGE_TYPE_ACK COAP_MSG_CODE_401_UNAUTHORIZED
    (CoapToken.token_bytes IOTX_COAP_INIT_TOKEN) "".

Lemma notifier_reauth_witness :
  let req := auth_message 1 (CoapToken.token_bytes IOTX_COAP_INIT_TOKEN) demo_devinfo
               (hmac_stub (Sign.sign_source "id1" "dev1" "a1PK") "secret") in
  exists w', @iotx_event_notifyer script_ctx
               (@IOT_CoAP_DeviceNameAuth (scripted_platform "" "") script_ctx script_engine 1 P_SESSION)
               COAP_MSG_CODE_401_UNAUTHORIZED (Some demo_401) P_SESSION
               (demo_world (demo_session true [] [])) = Ok (tt, w') /\
    option_map is_authed (w_session w') = Some false /\
    sent_of w' = (sent_of (demo_world (demo_session true [] [])) ++ [req])%list /\
    cm_type req = COAP_MESSAGE_TYPE_CON /\ uri_path_options req = [IOTX_AUTH_STR].
Proof.
  exact (@notifier_reauth (scripted_platform "" "") script_ctx script_engine 0
           (demo_world (demo_session true [] [])) (demo_session true [] []) "T123"
           (mk_sctx 1 [] [] []) demo_devinfo COAP_MSG_CODE_401_UNAUTHORIZED demo_401
           (or_introl eq_refl) eq_refl eq_refl eq_refl ltac:(wit_hyp) eq_refl eq_refl
           ltac:(wit_hyp) eq_refl eq_refl ltac:(vm_compute; reflexivity)).
Defined.

Lemma auth_then_send_attaches_token_witness :
  let m := Dispatch.expected_request (fst (CoAPMessageId_gen (mk_sctx 1 [] [] [])))
             (CoapToken.token_bytes (coap_token (demo_session false [] []))) "/topic/a"
             demo_message "T123" "hello" in
  exists w1 r w2,
    @iotx_device_name_auth_callback (scripted_platform "" "") script_ctx
      (@IOT_CoAP_DeviceNameAuth (scripted_platform "" "") script_ctx script_engine 1 P_SESSION)
      P_SESSION (Some demo_ok205) (demo_auth_world []) = Ok (tt, w1) /\
    option_map is_authed (w_session w1) = Some true /\
    Dispatch.IOT_CoAP_SendMessage P_SESSION (Some "/topic/a") (Some demo_message) w1 = Ok (r, w2) /\
    sent_of w2 = (sent_of (demo_auth_world []) ++
      (if decide (fst (CoAPMessage_send (snd (CoAPMessageId_gen (mk_sctx 1 [] [] []))) m) = COAP_SUCCESS)
       then [m] else []))%list /\
    In (mk_option COAP_OPTION_AUTH_TOKEN (OptStr "T123")) (cm_options m).
Proof.
  refine (@auth_then_send_attaches_token (scripted_platform "" "") script_ctx script_engine
           (@IOT_CoAP_DeviceNameAuth (scripted_platform "" "") script_ctx script_engine 1 P_SESSION)
           (demo_auth_world []) (demo_session false [] []) (mk_sctx 1 [] [] []) demo_ok205 "T123" "T123"
           "/topic/a" demo_message "hello" eq_refl eq_refl eq_refl eq_refl eq_refl
           ltac:(wit_hyp) ltac:(wit_hyp) eq_refl eq_refl ltac:(wit_hyp) eq_refl ltac:(wit_hyp)
           _); [repeat constructor; vm_compute; reflexivity].
Defined.


(** An application's confirmable request sent on the authenticated demo
    session, and the 4.01 answer to it arriving. *)
Definition app_message : iotx_message_t :=
  mk_iotx_message (Some "hello") 5 (H_APP 1) (P_APP 7) IOTX_MESSAGE_CON IOTX_CONTENT_TYPE_JSON.

Definition app_sent_world : world script_ctx :=
  match @Dispatch.IOT_CoAP_SendMessage script_ctx script_engine P_SESSION (Some "/topic/a")
          (Some app_message) demo_authed_world with
  | Ok (_, w) => w
  | Stuck _ => demo_authed_world
  end.

Definition app_answered_world : world script_ctx :=
  match w_session app_sent_world with
  | Some s =>
      match p_coap_ctx s with
      | Some c => set_session (Some (set_coap_ctx (Some (sc_deliver c demo_401)) s)) app_sent_world
      | None => app_sent_world
      end
  | None => app_sent_world
  end.

Definition app_answered_session : iotx_coap_t script_ctx :=
  match w_session app_answered_world with Some s => s | None => demo_session true [] [] end.

Definition app_answered_ctx : script_ctx :=
  match p_coap_ctx app_answered_session with Some c => c | None => mk_sctx 1 [] [] [] end.

Definition app_read_ctx : script_ctx :=
  match sc_read app_answered_ctx with Some (_, c) => c | None => app_answered_ctx end.

Lemma yield_app_unauthorized_ub_witness :
  exists why, @IOT_CoAP_Yield (scripted_platform "" "") script_ctx script_engine 1 P_SESSION
                app_answered_world = Stuck (UB why).
Proof.
  refine (@yield_app_unauthorized_ub (scripted_platform "" "") script_ctx script_engine 1
            app_answered_world app_answered_session app_answered_ctx demo_401 app_read_ctx
            (H_APP 1) 7 _ _ _ _ _); vm_compute; auto.
Defined.

(** A session whose signature allocation fails. *)
Definition sign_oom_world : world script_ctx :=
  mk_world (Some (demo_session false [] [])) 0 [true; false] 0.

Lemma auth_sign_no_mem_sends_empty_sign_witness :
  let req := auth_message (fst (@CoAPMessageId_gen script_ctx script_engine (mk_sctx 1 [] [] [])))
               (CoapToken.token_bytes (coap_token (demo_session false [] []))) demo_devinfo "" in
  exists r w', @IOT_CoAP_DeviceNameAuth (scripted_platform "" "") script_ctx script_engine
      1 P_SESSION sign_oom_world = Ok (r, w') /\ w_heap w' = w_heap sign_oom_world /\
    (r = IOTX_SUCCESS \/ r = IOTX_ERR_SEND_MSG_FAILED) /\
    (r = IOTX_SUCCESS <->
       fst (@CoAPMessage_send _ script_engine
              (snd (@CoAPMessageId_gen _ script_engine (mk_sctx 1 [] [] []))) req) = COAP_SUCCESS) /\
    @sent_of script_ctx script_engine w' = (@sent_of script_ctx script_engine sign_oom_world ++
      (if decide (r = IOTX_SUCCESS) then [req] else []))%list.
Proof.
  refine (@auth_sign_no_mem_sends_empty_sign (scripted_platform "" "") script_ctx script_engine 0
           sign_oom_world (demo_session false [] [])
           "T123" (mk_sctx 1 [] [] []) demo_devinfo eq_refl eq_refl eq_refl _ eq_refl eq_refl _ _);
    wit_hyp.
Defined.

Lemma auth_timeout_partner_send_failed_witness :
  exists w', @IOT_CoAP_DeviceNameAuth (scripted_platform "pid7" "mid9") script_ctx script_engine
      1 P_SESSION (demo_auth_world []) = Ok (IOTX_ERR_SEND_MSG_FAILED, w') /\
    option_map is_authed (w_session w') = Some false /\ w_heap w' = w_heap (demo_auth_world []).
Proof.
  exact (@auth_timeout_partner_send_failed (scripted_platform "pid7" "mid9") script_ctx script_engine 0
           (demo_auth_world []) (demo_session false [] []) "T123" (mk_sctx 1 [] [] []) demo_devinfo
           eq_refl eq_refl eq_refl ltac:(wit_hyp) eq_refl eq_refl ltac:(wit_hyp) eq_refl
           ltac:(wit_hyp) ltac:(wit_hyp) ltac:(wit_hyp)).
Defined.

End Auth.
