(* ===== verification/Keeps.v ===== *)
(** * Invariants of the world kept by the client's code

    [keeps P m]: every run of [m] that returns, from a world satisfying
    [P], ends in a world satisfying [P]: the triple [{{ P }} m {{ P }}]
    of [Triple].  The section [Composite] derives
    [keeps P] for the re-entrant code of the file (the notifier, the
    engine's dispatch and receive loop, the module-id report, the
    handshake at every fuel, [IOT_CoAP_Yield]) from [keeps P] for the
    primitives it is written with and for the dispatcher and the auth
    callback; [Invariant] and [MsgWf] instantiate it. *)

From Stdlib Require Import ZArith Lia String List Bool.
From stdpp Require Import base decidable.
From S2P Require Import Prelude Triple Defs CoapToken PathSplit Platform Session Sign AuthToken Dispatch Auth.
Import ListNotations.
Open Scope Z_scope.
Local Open Scope iotx_scope.

Module Keeps.
Section Keeps.
Context `{HostPlatform} {ctx : Type} `{CoapEngine ctx}.

Local Abbreviation M := (ST (world ctx)).

Definition keeps (P : world ctx -> bool) {A} (m : M A) : Prop :=
  {{ fun w => P w = true }} m {{ fun _ w => P w = true }}.

Lemma keeps_ret P {A} (a : A) : keeps P (st_ret a).
Proof. apply (triple_ret (fun _ w => P w = true)). Qed.

Lemma keeps_stuck P {A} r : keeps P (@st_stuck _ A r).
Proof. apply triple_stuck. Qed.

Lemma keeps_bind P {A B} (m : M A) (k : A -> M B) :
  keeps P m -> (forall a, keeps P (k a)) -> keeps P (st_bind m k).
Proof. intros Hm Hk. exact (triple_bind _ m _ k _ Hm Hk). Qed.

Lemma keeps_and P Q {A} (m : M A) :
  keeps P m -> keeps Q m -> keeps (fun w => P w && Q w) m.
Proof.
  intros Hp Hq w [HPw HQw]%andb_true_iff. specialize (Hp w HPw). specialize (Hq w HQw).
  destruct (m w) as [[a w']|r]; [|exact I]. now apply andb_true_iff.
Qed.

End Keeps.

Create HintDb iotx_keeps.
#[global] Hint Resolve keeps_ret keeps_stuck : iotx_keeps.

(** Split a [keeps] goal along binds and the branches of the code. *)
Ltac keeps_tac :=
  repeat first
    [ progress eauto with iotx_keeps
    | apply keeps_bind; [|intros ?]
    | match goal with
      | |- keeps _ (match ?x with _ => _ end) => destruct x
      | |- keeps _ (if ?b then _ else _) => destruct b
      end ].

Section Composite.
Context `{HostPlatform} {ctx : Type} `{CoapEngine ctx}.
Variable P : world ctx -> bool.

Hypothesis k_sess_get : keeps P sess_get.
Hypothesis k_malloc : keeps P coap_malloc.
Hypothesis k_free : keeps P coap_free.
Hypothesis k_sleep : forall ms, keeps P (HAL_SleepMs ms).
Hypothesis k_net_read : keeps P net_read.
Hypothesis k_net_match : forall d, keeps P (net_match d).
Hypothesis k_msgid_gen : keeps P msgid_gen.
Hypothesis k_get_coap_token : keeps P get_coap_token.
Hypothesis k_set_is_authed : forall b, keeps P (sess_update (set_is_authed b)).
Hypothesis k_calc_sign : forall sign0 a b c d, keeps P (Sign.iotx_calc_sign sign0 a b c d).
Hypothesis k_send_message : forall p q r, keeps P (Dispatch.IOT_CoAP_SendMessage p q r).
Hypothesis k_auth_send : forall mid tok di sign, keeps P (msg_send (Auth.auth_message mid tok di sign)).
Hypothesis k_callback : forall auth user md,
  keeps P auth -> keeps P (Auth.iotx_device_name_auth_callback auth user md).

#[local] Hint Resolve k_sess_get k_malloc k_free k_sleep k_net_read k_net_match k_msgid_gen
  k_get_coap_token k_set_is_authed k_calc_sign k_send_message k_auth_send : iotx_keeps.

Lemma notifier_keeps auth code md user :
  keeps P auth -> keeps P (Auth.iotx_event_notifyer auth code md user).
Proof. intros Ha. unfold Auth.iotx_event_notifyer. keeps_tac. Qed.

Lemma handle_keeps auth d : keeps P auth -> keeps P (Auth.CoAPMessage_handle auth d).
Proof.
  intros Ha. pose proof (fun u => notifier_keeps auth (dg_code d) (Some d) u Ha).
  pose proof (fun u md => k_callback auth u md Ha).
  unfold Auth.CoAPMessage_handle, Auth.run_handler, Auth.iotx_get_well_known_handler,
    Auth.iotx_coap_mid_rsphdl. keeps_tac.
Qed.

#[local] Hint Resolve handle_keeps : iotx_keeps.

Lemma recv_keeps auth cnt : keeps P auth -> keeps P (Auth.CoAPMessage_recv auth cnt).
Proof. intros Ha. induction cnt as [|[|cnt] IH]; cbn [Auth.CoAPMessage_recv]; keeps_tac. Qed.

Lemma report_mid_keeps auth p : keeps P auth -> keeps P (Auth.iotx_coap_report_mid auth p).
Proof. intros Ha. pose proof (recv_keeps auth 1 Ha). unfold Auth.iotx_coap_report_mid. keeps_tac. Qed.

Lemma tail_keeps auth : keeps P auth -> keeps P (Auth.auth_tail auth).
Proof.
  intros Ha. pose proof (recv_keeps auth 2 Ha). pose proof (report_mid_keeps auth P_SESSION Ha).
  unfold Auth.auth_tail. keeps_tac.
Qed.

Lemma auth_keeps fuel : forall p, keeps P (Auth.IOT_CoAP_DeviceNameAuth fuel p).
Proof.
  induction fuel as [|f IH]; intros p; cbn [Auth.IOT_CoAP_DeviceNameAuth]; [apply keeps_stuck|].
  pose proof (tail_keeps _ (IH P_SESSION)). keeps_tac.
Qed.

Lemma yield_keeps fuel p : keeps P (Auth.IOT_CoAP_Yield fuel p).
Proof.
  pose proof (auth_keeps fuel P_SESSION).
  assert (keeps P (Auth.CoAPMessage_cycle (Auth.IOT_CoAP_DeviceNameAuth fuel P_SESSION)))
    by (unfold Auth.CoAPMessage_cycle; keeps_tac).
  unfold Auth.IOT_CoAP_Yield. keeps_tac.
Qed.

End Composite.
End Keeps.
