(* ===== verification/Invariant.v ===== *)
(** * The session invariant

    A live session keeps its auth-token buffer a string shorter than the
    buffer's capacity [auth_token_len] (so that the [strlen] of line 497
    stays within the buffer) and its correlation counter a 32-bit value.
    [iotx_device_name_auth_callback] is the only code that writes the
    buffer after [IOT_CoAP_Init]; the invariant holds across every entry
    point that runs on a session: the handshake with its nested retries,
    [IOT_CoAP_Yield] and [IOT_CoAP_SendMessage]. *)

From Stdlib Require Import ZArith Lia String List Bool.
From stdpp Require Import base decidable.
From S2P Require Import Prelude Defs CoapToken PathSplit Platform Session Sign AuthToken Dispatch Auth Keeps.
Import ListNotations.
Open Scope Z_scope.
Local Open Scope iotx_scope.

Module SessionInv.
Section SessionInv.
Context `{HostPlatform} {ctx : Type} `{CoapEngine ctx}.

Local Abbreviation M := (ST (world ctx)).

Definition token_fits (tok : option string) (len : Z) : bool :=
  match tok with Some t => strlen t <? len | None => true end.

Definition session_wf (s : iotx_coap_t ctx) : bool :=
  token_fits (p_auth_token s) (auth_token_len s) && (0 <=? coap_token s) && (coap_token s <? 2 ^ 32).

Definition world_wf (w : world ctx) : bool :=
  match w_session w with Some s => session_wf s | None => true end.

(** [m] keeps the invariant on every run that returns. *)
Local Abbreviation preserves := (Keeps.keeps world_wf).

(** Steps that leave the session alone but for fields outside the
    invariant. *)
Lemma preserves_frame {A} (m : M A) :
  (forall w, match m w with
             | Ok (_, w') => w_session w' = w_session w \/
                 exists s, w_session w = Some s /\
                   exists c, w_session w' = Some (set_coap_ctx c s)
             | Stuck _ => True end) -> preserves m.
Proof.
  intros Hm w Hw. specialize (Hm w). destruct (m w) as [[a w']|r]; [|exact I].
  destruct Hm as [E|(s & Es & c & E')]; unfold world_wf in *; [now rewrite E|].
  rewrite Es in Hw. rewrite E'. exact Hw.
Qed.

Lemma preserves_sess_get : preserves sess_get.
Proof. apply preserves_frame. intros w. unfold sess_get. destruct (w_session w) eqn:E; [now left|exact I]. Qed.

Lemma preserves_malloc : preserves coap_malloc.
Proof. apply preserves_frame. intros w. unfold coap_malloc. destruct (w_malloc w) as [|[] ?]; left; reflexivity. Qed.

Lemma preserves_free : preserves coap_free.
Proof. apply preserves_frame. intros w. now left. Qed.

Lemma preserves_sleep ms : preserves (HAL_SleepMs ms).
Proof. apply preserves_frame. intros w. now left. Qed.

Lemma preserves_with_ctx {A} (f : ctx -> A * ctx) : preserves (with_ctx f).
Proof.
  apply preserves_frame. intros w. unfold with_ctx, sess_put. st_unfold. unfold sess_get.
  destruct (w_session w) as [s|] eqn:E; [|exact I].
  destruct (p_coap_ctx s) as [c|]; [|exact I]. destruct (f c) as [a c']. right. eauto.
Qed.

Lemma preserves_sess_update f :
  (forall s, session_wf s = true -> session_wf (f s) = true) -> preserves (sess_update f).
Proof.
  intros Hf w Hw. unfold sess_update, sess_put. st_unfold. unfold sess_get, world_wf in *.
  destruct (w_session w) as [s|]; [|exact I]. simpl. auto.
Qed.

Lemma preserves_get_coap_token : preserves get_coap_token.
Proof.
  intros w Hw. unfold get_coap_token, sess_put. st_unfold. unfold sess_get, world_wf in *.
  destruct (w_session w) as [s|]; [|exact I]. simpl.
  unfold session_wf in *. simpl. apply andb_true_iff in Hw as [[Ht _]%andb_true_iff _].
  rewrite Ht. pose proof (u32_range (coap_token s + 1)). simpl.
  apply andb_true_iff; split; [apply Z.leb_le|apply Z.ltb_lt]; lia.
Qed.
Lemma preserves_msgid_gen : preserves msgid_gen.
Proof. apply preserves_with_ctx. Qed.

Lemma preserves_msg_send m : preserves (msg_send m).
Proof. apply preserves_with_ctx. Qed.

Lemma preserves_net_read : preserves net_read.
Proof. apply preserves_with_ctx. Qed.

Lemma preserves_net_match d : preserves (net_match d).
Proof. apply preserves_with_ctx. Qed.

Lemma preserves_set_is_authed b : preserves (sess_update (set_is_authed b)).
Proof. apply preserves_sess_update. intros s. exact (fun H => H). Qed.

#[local] Hint Resolve preserves_sess_get preserves_malloc preserves_free preserves_sleep
  preserves_msgid_gen preserves_msg_send preserves_net_read preserves_net_match
  preserves_get_coap_token preserves_set_is_authed : iotx_keeps.

Lemma preserves_calc_sign sign0 a b c d : preserves (Sign.iotx_calc_sign sign0 a b c d).
Proof. unfold Sign.iotx_calc_sign. Keeps.keeps_tac. Qed.

Lemma preserves_send_message p q r : preserves (Dispatch.IOT_CoAP_SendMessage p q r).
Proof. unfold Dispatch.IOT_CoAP_SendMessage. Keeps.keeps_tac. Qed.

#[local] Hint Resolve preserves_calc_sign preserves_send_message : iotx_keeps.

(** The extractor leaves the session alone, and the buffer it returns is
    the one it was given or, when that one fitted, holds a value shorter
    than [len]. *)
Lemma token_from_json_fits p q len (w : world ctx) :
  token_fits q len = true ->
  match AuthToken.iotx_get_token_from_json p q len w with
  | Ok ((_, t), w') => w_session w' = w_session w /\
      (t = q \/ exists v, t = Some v /\ strlen v < len)
  | Stuck _ => True
  end.
Proof.
  intros Hq. unfold AuthToken.iotx_get_token_from_json, AuthToken.lite_json_value_of. st_unfold.
  destruct p as [str|], q as [tok|]; try (split; auto).
  simpl in Hq. apply Z.ltb_lt in Hq. pose proof (strlen_nonneg tok).
  destruct (LITE_json_value_of "token" str) as [v|]; [|split; auto].
  unfold coap_malloc. destruct (w_malloc w) as [|[] ?]; simpl; try (split; auto).
  all: destruct (_ <? strlen v) eqn:E1; [split; auto|];
       destruct (len <? strlen v); [exact I|];
       apply Z.ltb_ge in E1; unfold AuthToken.size_t_of in E1;
       pose proof (Z.mod_le (len - 1) (2 ^ 32) ltac:(lia) ltac:(lia));
       split; [reflexivity|right; exists v; split; [reflexivity|lia]].
Qed.

Lemma callback_preserves auth user md :
  preserves auth -> preserves (Auth.iotx_device_name_auth_callback auth user md).
Proof.
  intros Ha. unfold Auth.iotx_device_name_auth_callback.
  destruct user; [apply Keeps.keeps_ret| |apply Keeps.keeps_stuck].
  destruct md as [d|]; [|apply Keeps.keeps_ret].
  destruct (_ =? _); [|destruct (_ =? _); Keeps.keeps_tac].
  intros w Hw. unfold st_bind at 1, sess_get at 1.
  destruct (w_session w) as [s|] eqn:Es; [|exact I].
  unfold world_wf in Hw. rewrite Es in Hw. pose proof Hw as Hw0.
  unfold session_wf in Hw0. apply andb_true_iff in Hw0 as [[Hf0 _]%andb_true_iff _].
  unfold st_bind at 1. pose proof (token_from_json_fits (Some (dg_payload d)) (p_auth_token s)
    (auth_token_len s) w Hf0) as Ht.
  destruct (AuthToken.iotx_get_token_from_json _ _ _ w) as [[[r t] w']|]; [|exact I].
  destruct Ht as [Ew Ht]. unfold sess_update, sess_put, sess_get. st_unfold.
  rewrite Ew, Es. unfold world_wf. cbn [w_session set_session].
  unfold session_wf in *. apply andb_true_iff in Hw as [[Hf Hlo]%andb_true_iff Hhi].
  destruct (decide _); cbn; rewrite Hlo, Hhi, ?andb_true_r;
    (destruct Ht as [->|(v & -> & Hv)]; [exact Hf|simpl; now apply Z.ltb_lt]).
Qed.

(** The handshake, with its nested retries and re-authentications, at
    every fuel, and a cycle of [IOT_CoAP_Yield]. *)
Lemma auth_preserves fuel p : preserves (Auth.IOT_CoAP_DeviceNameAuth fuel p).
Proof.
  apply Keeps.auth_keeps; auto using preserves_sess_get, preserves_malloc, preserves_free,
    preserves_sleep, preserves_net_read, preserves_net_match, preserves_msgid_gen,
    preserves_get_coap_token, preserves_set_is_authed, preserves_calc_sign, preserves_send_message,
    preserves_msg_send, callback_preserves.
Qed.

Lemma yield_preserves fuel p : preserves (Auth.IOT_CoAP_Yield fuel p).
Proof.
  apply Keeps.yield_keeps; auto using preserves_sess_get, preserves_malloc, preserves_free,
    preserves_sleep, preserves_net_read, preserves_net_match, preserves_msgid_gen,
    preserves_get_coap_token, preserves_set_is_authed, preserves_calc_sign, preserves_send_message,
    preserves_msg_send, callback_preserves.
Qed.

(** C4 (invariant): every entry point that runs on a session keeps its
    auth-token buffer a string shorter than its capacity and its correlation
    counter a 32-bit value: the handshake, with its nested retries and
    re-authentications, one cycle of [IOT_CoAP_Yield], and
    [IOT_CoAP_SendMessage]. *)
Theorem session_wf_preserved fuel p :
  Keeps.keeps world_wf (Auth.IOT_CoAP_DeviceNameAuth fuel p) /\
  Keeps.keeps world_wf (Auth.IOT_CoAP_Yield fuel p) /\
  (forall path msg, Keeps.keeps world_wf (Dispatch.IOT_CoAP_SendMessage p path msg)).
Proof.
  split; [apply auth_preserves|split; [apply yield_preserves|apply preserves_send_message]].
Qed.

End SessionInv.
End SessionInv.
