(* ===== verification/Lifecycle.v ===== *)
(** * Creating and destroying a session, and the well-known query

    [IOT_CoAP_Init] (iotx_coap_api.c, lines 546-641) allocates the session,
    its auth-token buffer and its identity, copies the identity out of the
    configuration with [strncpy], creates the engine context (on the
    configured url, or on the default server of the product key) and
    returns the session; on a failed allocation or context creation it
    frees what it allocated and returns NULL.  [IOT_CoAP_Deinit] (lines
    643-670) frees the session and clears the caller's pointer.
    [iotx_get_well_known] (lines 196-222) sends a GET of
    [/.well-known/core]. *)

From Stdlib Require Import ZArith Lia String List Bool.
From stdpp Require Import base decidable.
From S2P Require Import Prelude Defs CoapToken PathSplit Platform Session Scripted Sign Invariant.
Import ListNotations.
Open Scope Z_scope.
Local Open Scope iotx_scope.

Module Lifecycle.
Section Lifecycle.
Context {ctx : Type} `{CoapEngine ctx}.

Local Abbreviation M := (ST (world ctx)).

(** Lines 588-594: the identity copied field by field into a zeroed
    [iotx_deviceinfo_t]. *)
Definition copy_devinfo (d : iotx_deviceinfo_t) : iotx_deviceinfo_t :=
  mk_devinfo (strncpy_trunc IOTX_PRODUCT_KEY_LEN (product_key d))
    (strncpy_trunc IOTX_DEVICE_NAME_LEN (device_name d))
    (strncpy_trunc IOTX_DEVICE_ID_LEN (device_id d))
    (strncpy_trunc IOTX_DEVICE_SECRET_LEN (device_secret d)).

(** Lines 602-608: the url of the engine context. *)
Definition init_url (cfg : iotx_coap_config_t) (di : iotx_deviceinfo_t) : string :=
  match cfg_url cfg with
  | Some u => u
  | None => snprintf 128 (IOTX_COAP_ONLINE_DTLS_SERVER_URL (product_key di))
  end.

(** The session [IOT_CoAP_Init] builds (lines 565-620): an empty token
    buffer of [IOTX_AUTH_TOKEN_LEN] bytes, not authenticated. *)
Definition init_session (cfg : iotx_coap_config_t) (di : iotx_deviceinfo_t) (c : ctx)
  : iotx_coap_t ctx :=
  mk_session (Some ""%string) IOTX_AUTH_TOKEN_LEN false (Some di) (Some c) IOTX_COAP_INIT_TOKEN
    (cfg_event_handle cfg).

(** The [err:] label (lines 623-640) with the session allocated: frees the
    identity and the token buffer when they were allocated, then the
    session ([CoAPContext_create] failed or was not reached: no context);
    the fields it resets belong to the block it frees. *)
Definition init_err (has_token has_devinfo : bool) : M ptr :=
  (if has_devinfo then coap_free else ret tt) ;;
  (if has_token then coap_free else ret tt) ;;
  coap_free ;;
  ret NULL.

(** [IOT_CoAP_Init(p_config)]: the result is [P_SESSION] for the new
    session, [NULL] on failure.  The [err:] path (lines 623-640) frees the
    blocks that were allocated, in the order of the code. *)
Definition IOT_CoAP_Init (p_config : option iotx_coap_config_t) : M ptr :=
  match p_config with
  | None => ret NULL
  | Some cfg =>
      match cfg_devinfo cfg with
      | None => ret NULL
      | Some d =>
          ok <- coap_malloc ;;
          if negb ok then ret NULL else
          okt <- coap_malloc ;;
          if negb okt then init_err false false else
          okd <- coap_malloc ;;
          if negb okd then init_err true false else
          let di := copy_devinfo d in
          match CoAPContext_create (init_url cfg di) IOTX_LIST_MAX_ITEM (cfg_wait_time_ms cfg) with
          | None => init_err true true
          | Some c => sess_put (init_session cfg di c) ;; ret P_SESSION
          end
      end
  end.

(** Lines 649-651: the fields reset before the session is freed. *)
Definition deinit_reset (s : iotx_coap_t ctx) : iotx_coap_t ctx :=
  mk_session (p_auth_token s) 0 false (p_devinfo s) (p_coap_ctx s) IOTX_COAP_INIT_TOKEN
    (event_handle s).

Definition sess_drop : M unit := fun w => Ok (tt, set_session None w).

(** [IOT_CoAP_Deinit(pp_context)]: [pp_context] is [None] for NULL, else
    the value of [*pp_context]; the result is [*pp_context] after the
    call.  [CoAPContext_free] releases the engine's memory, which the count
    of live blocks does not include. *)
Definition IOT_CoAP_Deinit (pp_context : option ptr) : M (option ptr) :=
  match pp_context with
  | None => ret None
  | Some NULL => ret (Some NULL)
  | Some (P_APP _) => st_stuck (UB "*pp_context is not an iotx_coap_t")
  | Some P_SESSION =>
      sess_update deinit_reset ;;
      s <- sess_get ;;
      (if p_auth_token s is Some _ then coap_free else ret tt) ;;
      (if p_devinfo s is Some _ then coap_free else ret tt) ;;
      coap_free ;;
      sess_drop ;;
      ret (Some NULL)
  end.

(** Lines 207-220: the well-known query. *)
Definition well_known_request (mid : Z) (tok : list Z) : CoAPMessage :=
  CoAPMessageUserData_set
    (CoAPUintOption_add
       (CoAPStrOption_add
          (CoAPStrOption_add
             (CoAPMessageHandler_set
                (CoAPMessageToken_set
                   (CoAPMessageId_set
                      (CoAPMessageCode_set (CoAPMessageType_set CoAPMessage_init COAP_MESSAGE_TYPE_CON)
                         COAP_MSG_CODE_GET) mid) tok) H_GET_WELL_KNOWN)
             COAP_OPTION_URI_PATH ".well-known") COAP_OPTION_URI_PATH "core")
       COAP_OPTION_ACCEPT COAP_CT_APP_LINK_FORMAT)
    P_SESSION.

(** [iotx_get_well_known(p_context)]: no check of [p_context]; the result
    of the send is ignored. *)
Definition iotx_get_well_known (p_context : ptr) : M iotx_ret_code :=
  match p_context with
  | NULL => st_stuck (UB "p_iotx_coap->p_coap_ctx with p_iotx_coap NULL")
  | P_APP _ => st_stuck (UB "p_context is not an iotx_coap_t")
  | P_SESSION =>
      mid <- msgid_gen ;;
      tok <- get_coap_token ;;
      _ <- msg_send (well_known_request mid tok) ;;
      ret IOTX_SUCCESS
  end.

(** ** Properties *)

Lemma copy_devinfo_bounded d : Sign.devinfo_bounded (copy_devinfo d).
Proof.
  unfold Sign.devinfo_bounded, copy_devinfo; cbn [product_key device_name device_id device_secret].
  repeat split; apply strncpy_trunc_bound; unfold IOTX_PRODUCT_KEY_LEN, IOTX_DEVICE_NAME_LEN,
    IOTX_DEVICE_ID_LEN, IOTX_DEVICE_SECRET_LEN; lia.
Qed.

Lemma init_session_wf cfg di c : SessionInv.session_wf (init_session cfg di c) = true.
Proof. reflexivity. Qed.

(** Every run of [IOT_CoAP_Init]: NULL with the heap and the session as
    they were, or the new session with three more live blocks. *)
Lemma init_cases p_config (w : world ctx) :
  exists p w', IOT_CoAP_Init p_config w = Ok (p, w') /\ w_slept w' = w_slept w /\
    ((p = NULL /\ w_heap w' = w_heap w /\ w_session w' = w_session w) \/
     (p = P_SESSION /\ w_heap w' = w_heap w + 3 /\
      exists cfg d c, p_config = Some cfg /\ cfg_devinfo cfg = Some d /\
        CoAPContext_create (init_url cfg (copy_devinfo d)) IOTX_LIST_MAX_ITEM (cfg_wait_time_ms cfg)
          = Some c /\
        w_session w' = Some (init_session cfg (copy_devinfo d) c))).
Proof.
  unfold IOT_CoAP_Init, init_err, coap_malloc, coap_free, sess_put. st_unfold.
  destruct p_config as [cfg|]; [|eauto 10].
  destruct (cfg_devinfo cfg) as [d|] eqn:Ed; [|eauto 10].
  destruct w as [ses heap mal sl]. cbn [w_malloc w_heap w_session w_slept].
  destruct (CoAPContext_create _ _ _) as [c|] eqn:Ec;
    destruct mal as [|[] [|[] [|[] mal]]]; cbn;
    eexists _, _; (split; [reflexivity|]); cbn; (split; [reflexivity|]);
    first [left; repeat split; lia | right; split; [reflexivity|]; split; [lia|]; eauto 10].
Qed.

(** C23 (invariant): [IOT_CoAP_Init] never gets stuck and either fails
    cleanly, returning NULL with every block it allocated freed and the
    heap as before, or returns a new session that satisfies the session
    invariant, is not authenticated, has an empty token buffer, holds an
    identity within the capacities of [iotx_deviceinfo_t], and accounts for
    exactly three live blocks. *)
Theorem init_result p_config (w : world ctx) :
  exists p w', IOT_CoAP_Init p_config w = Ok (p, w') /\
    ((p = NULL /\ w_heap w' = w_heap w /\ w_session w' = w_session w) \/
     (p = P_SESSION /\ w_heap w' = w_heap w + 3 /\
      exists s di, w_session w' = Some s /\ SessionInv.session_wf s = true /\
        is_authed s = false /\ p_auth_token s = Some ""%string /\
        p_devinfo s = Some di /\ Sign.devinfo_bounded di)).
Proof.
  destruct (init_cases p_config w) as (p & w' & E & _ & [Hf|(Hp & Hh & cfg & d & c & _ & _ & _ & Es)]);
    exists p, w'; split; auto.
  right. split; [exact Hp|]. split; [exact Hh|].
  exists (init_session cfg (copy_devinfo d) c), (copy_devinfo d).
  split; [exact Es|]. split; [apply init_session_wf|]. repeat split; try reflexivity.
  all: apply copy_devinfo_bounded.
Qed.

Lemma server_url_length pk :
  strlen (IOTX_COAP_ONLINE_DTLS_SERVER_URL pk) = 50 + strlen pk.
Proof.
  unfold IOTX_COAP_ONLINE_DTLS_SERVER_URL, strlen. rewrite !string_length_app. cbn [String.length]. lia.
Qed.

(** C37 (bounds): without a configured url, the engine context is created
    on the default server of the product key, never cut by the 128-byte
    buffer: the copied product key has at most [IOTX_PRODUCT_KEY_LEN]
    characters and the url at most 70. *)
Theorem init_default_url cfg d :
  cfg_url cfg = None ->
  init_url cfg (copy_devinfo d) =
  IOTX_COAP_ONLINE_DTLS_SERVER_URL (strncpy_trunc IOTX_PRODUCT_KEY_LEN (product_key d)) /\
  strlen (init_url cfg (copy_devinfo d)) <= 70.
Proof.
  intros Hu. unfold init_url. rewrite Hu.
  pose proof (strncpy_trunc_bound IOTX_PRODUCT_KEY_LEN (product_key d)
                ltac:(unfold IOTX_PRODUCT_KEY_LEN; lia)) as Hb.
  rewrite snprintf_fits by (rewrite server_url_length; cbn [copy_devinfo product_key];
    unfold IOTX_PRODUCT_KEY_LEN in *; lia).
  split; [reflexivity|]. rewrite server_url_length. cbn [copy_devinfo product_key].
  unfold IOTX_PRODUCT_KEY_LEN in *; lia.
Qed.

(** C24 (roundtrip): [IOT_CoAP_Deinit] after a successful [IOT_CoAP_Init]
    frees the three blocks [IOT_CoAP_Init] allocated, so the heap is back
    to what it was before the session existed, destroys the session and
    clears the caller's pointer; a second [IOT_CoAP_Deinit] on the cleared
    pointer changes nothing. *)
Theorem init_deinit_no_leak p_config (w w1 : world ctx) :
  IOT_CoAP_Init p_config w = Ok (P_SESSION, w1) ->
  exists w2, IOT_CoAP_Deinit (Some P_SESSION) w1 = Ok (Some NULL, w2) /\
    w_heap w2 = w_heap w /\ w_session w2 = None /\
    IOT_CoAP_Deinit (Some NULL) w2 = Ok (Some NULL, w2).
Proof.
  intros Hi.
  destruct (init_cases p_config w) as (p & w' & E & _ & [(Hp & _)|(_ & Hh & cfg & d & c & _ & _ & _ & Es)]);
    rewrite Hi in E; injection E as <- <-; [discriminate|].
  unfold IOT_CoAP_Deinit, sess_update, sess_put, sess_drop, coap_free. st_unfold.
  rewrite (sess_get_ok w1 _ Es). cbn. eexists. split; [reflexivity|]. cbn. split; [lia|auto].
Qed.

(** C36 (error; the status of the send is dropped): on a session with an
    engine context, [iotx_get_well_known] consumes one message id and one
    correlation token, hands the engine a confirmable GET of
    [/.well-known/core] carrying that token, and returns [IOTX_SUCCESS]
    whether or not the engine took it. *)
Theorem get_well_known_sends (w : world ctx) s c :
  w_session w = Some s -> p_coap_ctx s = Some c ->
  let m := well_known_request (fst (CoAPMessageId_gen c)) (CoapToken.token_bytes (coap_token s)) in
  exists w', iotx_get_well_known P_SESSION w = Ok (IOTX_SUCCESS, w') /\
    sent_of w' = sent_of w ++
      (if decide (fst (CoAPMessage_send (snd (CoAPMessageId_gen c)) m) = COAP_SUCCESS)
       then [m] else []) /\
    cm_type m = COAP_MESSAGE_TYPE_CON /\ cm_code m = COAP_MSG_CODE_GET /\
    uri_path_options m = [".well-known"; "core"]%string.
Proof.
  intros Ew Ec m. unfold iotx_get_well_known, msgid_gen, msg_send. st_unfold.
  rewrite (with_ctx_ok _ w s c Ew Ec).
  rewrite (get_coap_token_ok _ (set_coap_ctx (Some (snd (CoAPMessageId_gen c))) s)) by reflexivity.
  rewrite (with_ctx_ok _ _ (set_coap_token (u32 (coap_token s + 1))
             (set_coap_ctx (Some (snd (CoAPMessageId_gen c))) s)) (snd (CoAPMessageId_gen c)))
    by reflexivity.
  eexists. split; [reflexivity|]. split; [|repeat split].
  rewrite (sent_of_set _ _ (snd (CoAPMessage_send (snd (CoAPMessageId_gen c)) m))) by reflexivity.
  rewrite send_sent, msgid_gen_sent. unfold sent_of. now rewrite Ew, Ec.
Qed.

End Lifecycle.
(** ** Witnesses, on the scripted engine *)

Import Scripted.
Local Open Scope string_scope.

Definition demo_config : iotx_coap_config_t := mk_config (Some demo_devinfo) None 2000 None.

Definition demo_empty_world : world script_ctx := mk_world None 0 [] 0.

Lemma init_default_url_witness :
  cfg_url demo_config = None /\
  init_url demo_config (copy_devinfo demo_devinfo) =
  IOTX_COAP_ONLINE_DTLS_SERVER_URL (strncpy_trunc IOTX_PRODUCT_KEY_LEN (product_key demo_devinfo)) /\
  strlen (init_url demo_config (copy_devinfo demo_devinfo)) <= 70.
Proof.
  split; [reflexivity|]. exact (init_default_url demo_config demo_devinfo eq_refl).
Defined.

Lemma init_deinit_no_leak_witness :
  exists w1, @IOT_CoAP_Init script_ctx script_engine (Some demo_config) demo_empty_world
               = Ok (P_SESSION, w1) /\
  exists w2, @IOT_CoAP_Deinit script_ctx (Some P_SESSION) w1 = Ok (Some NULL, w2) /\
    w_heap w2 = w_heap demo_empty_world /\ w_session w2 = None /\
    @IOT_CoAP_Deinit script_ctx (Some NULL) w2 = Ok (Some NULL, w2).
Proof.
  pose (w1 := match @IOT_CoAP_Init script_ctx script_engine (Some demo_config) demo_empty_world with
              | Ok (_, w) => w | Stuck _ => demo_empty_world end).
  assert (Hi : @IOT_CoAP_Init script_ctx script_engine (Some demo_config) demo_empty_world
               = Ok (P_SESSION, w1)) by (vm_compute; reflexivity).
  exists w1. split; [exact Hi|].
  exact (@init_deinit_no_leak script_ctx script_engine (Some demo_config) demo_empty_world w1 Hi).
Defined.

Lemma get_well_known_sends_witness :
  let m := well_known_request 1 (CoapToken.token_bytes IOTX_COAP_INIT_TOKEN) in
  exists w', @iotx_get_well_known script_ctx script_engine P_SESSION
               (demo_world (demo_session true [] [])) = Ok (IOTX_SUCCESS, w') /\
    sent_of w' = (sent_of (demo_world (demo_session true [] [])) ++
      (if decide (fst (sc_send (mk_sctx 2 [] [] []) m) = COAP_SUCCESS) then [m] else []))%list /\
    cm_type m = COAP_MESSAGE_TYPE_CON /\ cm_code m = COAP_MSG_CODE_GET /\
    uri_path_options m = [".well-known"; "core"].
Proof.
  exact (@get_well_known_sends script_ctx script_engine (demo_world (demo_session true [] []))
           (demo_session true [] []) (mk_sctx 1 [] [] []) eq_refl eq_refl).
Defined.

End Lifecycle.
