(* ===== verification/Complete.v ===== *)
(** * The session's pointers are never NULL

    [IOT_CoAP_Init] gives a session a token buffer, a copy of the identity
    and an engine context.  The code dereferences the identity without a
    NULL check in the handshake (lines 370-376) and in the module-id report
    (lines 280 and 307), and the token buffer in [IOT_CoAP_SendMessage] (the
    [strlen] of line 497); the model gets [Stuck] there when one is [None].
    The handshake checks the token buffer and the context (line 344) and
    the dispatcher the context (line 458), and return an error code.  [session_complete] says all three are set.  The
    entry points keep it: the engine calls replace the context by another
    one, and the auth callback writes back either the buffer it was given
    or a fresh token.  [Reach] lifts it to every reachable world. *)

From Stdlib Require Import ZArith Lia String List Bool.
From stdpp Require Import base decidable.
From S2P Require Import Prelude Triple Defs CoapToken PathSplit Platform Session Sign AuthToken Dispatch Auth Keeps Lifecycle.
Import ListNotations.
Open Scope Z_scope.
Local Open Scope iotx_scope.

Module Complete.
Section Complete.
Context `{HostPlatform} {ctx : Type} `{CoapEngine ctx}.

Local Abbreviation M := (ST (world ctx)).

Definition set_ptr {A} (o : option A) : bool := match o with Some _ => true | None => false end.

Definition fields_set (s : iotx_coap_t ctx) : bool :=
  set_ptr (p_auth_token s) && set_ptr (p_devinfo s) && set_ptr (p_coap_ctx s).

Definition session_complete (w : world ctx) : bool :=
  match w_session w with Some s => fields_set s | None => true end.

Local Abbreviation kept := (Keeps.keeps session_complete).

Lemma complete_frame {A} (m : M A) :
  (forall w, match m w with Ok (_, w') => w_session w' = w_session w | Stuck _ => True end) -> kept m.
Proof.
  intros Hm w Hw. specialize (Hm w). destruct (m w) as [[a w']|r]; [|exact I].
  unfold session_complete in *. now rewrite Hm.
Qed.

Lemma complete_sess_update f :
  (forall s, fields_set s = true -> fields_set (f s) = true) -> kept (sess_update f).
Proof.
  intros Hf w Hw. unfold sess_update, sess_put. st_unfold. unfold sess_get, session_complete in *.
  destruct (w_session w) as [s|]; [|exact I]. simpl. auto.
Qed.

Lemma complete_with_ctx {A} (f : ctx -> A * ctx) : kept (with_ctx f).
Proof.
  intros w Hw. unfold with_ctx, sess_put. st_unfold. unfold sess_get, session_complete in *.
  destruct (w_session w) as [s|]; [|exact I]. destruct (p_coap_ctx s) as [c|] eqn:Ec; [|exact I].
  destruct (f c) as [a c']. unfold fields_set in *. rewrite Ec in Hw. cbn in Hw |- *. exact Hw.
Qed.

Lemma complete_sess_get : kept sess_get.
Proof. apply complete_frame. intros w. unfold sess_get. destruct (w_session w) eqn:E; simpl; auto. Qed.

Lemma complete_malloc : kept coap_malloc.
Proof. apply complete_frame. intros w. unfold coap_malloc. now destruct (w_malloc w) as [|[] ?]. Qed.

Lemma complete_free : kept coap_free.
Proof. now apply complete_frame. Qed.

Lemma complete_sleep ms : kept (HAL_SleepMs ms).
Proof. now apply complete_frame. Qed.

Lemma complete_get_coap_token : kept get_coap_token.
Proof.
  intros w Hw. unfold get_coap_token, sess_put. st_unfold. unfold sess_get, session_complete in *.
  destruct (w_session w) as [s|]; [|exact I]. exact Hw.
Qed.

#[local] Hint Resolve complete_sess_get complete_malloc complete_free complete_sleep
  complete_get_coap_token : iotx_keeps.
#[local] Hint Extern 1 (Keeps.keeps _ (with_ctx _)) => apply complete_with_ctx : iotx_keeps.
#[local] Hint Extern 1 (Keeps.keeps _ msgid_gen) => apply complete_with_ctx : iotx_keeps.
#[local] Hint Extern 1 (Keeps.keeps _ (msg_send _)) => apply complete_with_ctx : iotx_keeps.
#[local] Hint Extern 1 (Keeps.keeps _ net_read) => apply complete_with_ctx : iotx_keeps.
#[local] Hint Extern 1 (Keeps.keeps _ (net_match _)) => apply complete_with_ctx : iotx_keeps.
#[local] Hint Extern 1 (Keeps.keeps _ (sess_update (set_is_authed _))) =>
  apply complete_sess_update; intros; assumption : iotx_keeps.

Lemma complete_calc_sign sign0 a b c d : kept (Sign.iotx_calc_sign sign0 a b c d).
Proof. unfold Sign.iotx_calc_sign. Keeps.keeps_tac. Qed.

Lemma complete_send_message p q r : kept (Dispatch.IOT_CoAP_SendMessage p q r).
Proof. unfold Dispatch.IOT_CoAP_SendMessage. Keeps.keeps_tac. Qed.

#[local] Hint Resolve complete_calc_sign complete_send_message : iotx_keeps.

(** The extractor hands back a buffer whenever it was given one. *)
Lemma token_from_json_buffer p x len (w : world ctx) :
  match AuthToken.iotx_get_token_from_json p (Some x) len w with
  | Ok ((_, t), w') => w_session w' = w_session w /\ set_ptr t = true
  | Stuck _ => True
  end.
Proof.
  unfold AuthToken.iotx_get_token_from_json, AuthToken.lite_json_value_of. st_unfold.
  destruct p as [str|]; [|now split].
  destruct (LITE_json_value_of "token" str) as [v|]; [|now split].
  unfold coap_malloc. destruct (w_malloc w) as [|[] ?]; simpl; try now split.
  all: destruct (_ <? strlen v); [now split|]; destruct (len <? strlen v); [exact I|now split].
Qed.

Lemma complete_callback auth user md :
  kept auth -> kept (Auth.iotx_device_name_auth_callback auth user md).
Proof.
  intros Ha. unfold Auth.iotx_device_name_auth_callback.
  destruct user; [apply Keeps.keeps_ret| |apply Keeps.keeps_stuck].
  destruct md as [d|]; [|apply Keeps.keeps_ret].
  destruct (_ =? _); [|destruct (_ =? _); Keeps.keeps_tac].
  intros w Hw. unfold st_bind at 1, sess_get at 1.
  destruct (w_session w) as [s|] eqn:Es; [|exact I].
  unfold session_complete in Hw. rewrite Es in Hw. pose proof Hw as Hf.
  unfold fields_set in Hf. destruct (p_auth_token s) as [x|] eqn:Et; [|discriminate].
  unfold st_bind at 1. pose proof (token_from_json_buffer (Some (dg_payload d)) x (auth_token_len s) w) as Ht.
  destruct (AuthToken.iotx_get_token_from_json _ _ _ w) as [[[r t] w']|]; [|exact I].
  destruct Ht as [Ew Ht]. unfold sess_update, sess_put, sess_get. st_unfold.
  rewrite Ew, Es. unfold session_complete. cbn [w_session set_session].
  unfold fields_set in *. rewrite Et in Hw.
  destruct (decide _); cbn in Hw |- *; now rewrite Ht.
Qed.

#[local] Hint Resolve complete_callback : iotx_keeps.

Lemma complete_auth fuel p : kept (Auth.IOT_CoAP_DeviceNameAuth fuel p).
Proof. apply Keeps.auth_keeps; auto with iotx_keeps. Qed.

Lemma complete_yield fuel p : kept (Auth.IOT_CoAP_Yield fuel p).
Proof. apply Keeps.yield_keeps; auto with iotx_keeps. Qed.

Lemma complete_well_known p : kept (Lifecycle.iotx_get_well_known p).
Proof. unfold Lifecycle.iotx_get_well_known. Keeps.keeps_tac. Qed.

(** [IOT_CoAP_Init] sets all three or leaves the world's session alone. *)
Lemma complete_init cfg : kept (Lifecycle.IOT_CoAP_Init cfg).
Proof.
  intros w Hw.
  destruct (Lifecycle.init_cases cfg w)
    as (p & w' & -> & _ & [(_ & _ & Es)|(_ & _ & cfg' & d & c & _ & _ & _ & Es)]);
    unfold session_complete in *; rewrite Es; [exact Hw|reflexivity].
Qed.

Lemma complete_deinit pp : kept (Lifecycle.IOT_CoAP_Deinit pp).
Proof.
  intros w Hw. unfold Lifecycle.IOT_CoAP_Deinit.
  destruct pp as [[| |tag]|]; try exact Hw; [|exact I].
  unfold sess_update, sess_put, sess_get, coap_free, Lifecycle.sess_drop. st_unfold.
  destruct (w_session w) as [s|]; [|exact I]. cbn.
  destruct (p_auth_token s), (p_devinfo s); reflexivity.
Qed.

End Complete.
End Complete.
