(* ===== verification/MsgWf.v ===== *)
(** * Well-formed messages

    CoAP encodes the options of a message as deltas of their numbers, so
    they must come in non-decreasing order of number; a URI-path value is
    copied through the path buffer of [COAP_MSG_MAX_PATH_LEN] bytes; the
    payload must fit a PDU of [COAP_MSG_MAX_PDU_LEN] bytes.  [msg_wf] is that
    check, executable; [sent_wf] says every message the engine has taken
    passes it.  The correlation token of a request is four bytes
    ([CoapToken.get_coap_token_bounds]).  The theorem of this file shows
    that every entry point of the client keeps [sent_wf]: the client only
    ever hands the engine well-formed messages. *)

From Stdlib Require Import ZArith Lia String List Bool Sorting.Sorted.
From stdpp Require Import base decidable tactics.
From S2P Require Import Prelude Defs CoapToken PathSplit Platform Session Sign AuthToken Dispatch Auth Keeps Lifecycle.
Import ListNotations.
Open Scope Z_scope.
Local Open Scope iotx_scope.

Module MsgWf.

Fixpoint nondecreasing (l : list Z) : bool :=
  match l with
  | x :: ((y :: _) as r) => (x <=? y) && nondecreasing r
  | _ => true
  end.

Definition uri_fits (o : coap_option) : bool :=
  match o with
  | mk_option n (OptStr s) => negb (n =? COAP_OPTION_URI_PATH) || (strlen s <? COAP_MSG_MAX_PATH_LEN)
  | _ => true
  end.

Definition msg_wf (m : CoAPMessage) : bool :=
  nondecreasing (map opt_num (cm_options m)) && forallb uri_fits (cm_options m)
  && (strlen (cm_payload m) <? COAP_MSG_MAX_PDU_LEN).

Lemma nondecreasing_Sorted l : nondecreasing l = true <-> Sorted Z.le l.
Proof.
  induction l as [|x [|y l] IH]; simpl.
  - split; constructor.
  - split; [repeat constructor|reflexivity].
  - rewrite andb_true_iff, Z.leb_le, IH. split.
    + intros [Hxy Hs]. constructor; [exact Hs|]. now constructor.
    + intros Hs. apply Sorted_inv in Hs as [Hs Hh]. inversion Hh; subst. split; auto.
Qed.

(** ** The path encoder adds only segments that fit *)

Lemma strncpy_trunc_fits_path s :
  strlen (strncpy_trunc (COAP_MSG_MAX_PATH_LEN - 1) s) < COAP_MSG_MAX_PATH_LEN.
Proof.
  pose proof (strncpy_trunc_bound (COAP_MSG_MAX_PATH_LEN - 1) s
                ltac:(unfold COAP_MSG_MAX_PATH_LEN; lia)). lia.
Qed.

Local Abbreviation fits_all := (Forall (fun x => strlen x < COAP_MSG_MAX_PATH_LEN)).

(** One turn of the loop adds at most a middle segment that passed the
    length guard and a last segment cut to the buffer. *)
Lemma split_step_fits c next pstr m m1 pstr1 :
  (if Ascii.eqb c PathSplit.slash then
     if negb (String.length (String c next) =? String.length pstr)%nat then
       let n := (String.length pstr - String.length (String c next))%nat in
       if Z.of_nat n <? COAP_MSG_MAX_PATH_LEN then
         Ok (CoAPStrOption_add m COAP_OPTION_URI_PATH (substring 0 n pstr), next)
       else Stuck (UB "strncpy(path, pstr, ptr - pstr) leaves path without its NUL")
     else Ok (m, next)
   else Ok (m, pstr)) = Ok (m1, pstr1) ->
  exists l, m1 = PathSplit.add_uri_paths m l /\ fits_all l.
Proof.
  destruct (Ascii.eqb c PathSplit.slash); [|intros [=<- <-]; now exists []].
  destruct (negb _); [|intros [=<- <-]; now exists []]. cbv zeta.
  destruct (Z.of_nat _ <? COAP_MSG_MAX_PATH_LEN) eqn:El; [|discriminate].
  intros [=<- <-]. eexists [_]. split; [reflexivity|]. constructor; [|constructor].
  apply Z.ltb_lt in El. unfold strlen. rewrite substring_0_length. simpl String.length in El |- *. lia.
Qed.

Lemma split_last_fits next m1 pstr1 :
  exists l, (if Ascii.eqb (PathSplit.deref next) NUL && negb (Ascii.eqb (PathSplit.deref pstr1) NUL) then
     CoAPStrOption_add m1 COAP_OPTION_URI_PATH (strncpy_trunc (COAP_MSG_MAX_PATH_LEN - 1) pstr1)
   else m1) = PathSplit.add_uri_paths m1 l /\ fits_all l.
Proof.
  destruct (_ && _); [|now exists []].
  eexists [_]. split; [reflexivity|]. constructor; [apply strncpy_trunc_fits_path|constructor].
Qed.

Lemma split_loop_fits ptr : forall pstr m m',
  PathSplit.split_loop ptr pstr m = Ok m' ->
  exists segs, m' = PathSplit.add_uri_paths m segs /\ fits_all segs.
Proof.
  induction ptr as [|c next IH]; intros pstr m m' E.
  - injection E as <-. now exists [].
  - rewrite PathSplit.split_loop_cons in E.
    destruct (Ascii.eqb c NUL); [injection E as <-; now exists []|].
    destruct (if Ascii.eqb c PathSplit.slash then _ else _) as [[m1 pstr1]|] eqn:Es; [|discriminate].
    destruct (split_step_fits _ _ _ _ _ _ Es) as (l1 & -> & H1).
    destruct (split_last_fits next (PathSplit.add_uri_paths m l1) pstr1) as (l2 & E2 & H2).
    rewrite E2 in E. destruct (IH _ _ _ E) as (l3 & -> & H3).
    exists (l1 ++ l2 ++ l3). rewrite !PathSplit.add_uri_paths_app.
    split; [reflexivity|]. apply Forall_app; split; [|apply Forall_app]; auto.
Qed.

(** ** The messages the client builds *)

Local Abbreviation uri_opt := (fun x => mk_option COAP_OPTION_URI_PATH (OptStr x)).

Lemma add_uri_paths_fields m segs :
  cm_options (PathSplit.add_uri_paths m segs) = cm_options m ++ map uri_opt segs /\
  cm_payload (PathSplit.add_uri_paths m segs) = cm_payload m.
Proof.
  revert m. induction segs as [|x segs IH]; intros m; simpl; [now rewrite app_nil_r|].
  destruct (IH (CoAPStrOption_add m COAP_OPTION_URI_PATH x)) as [-> ->].
  simpl. now rewrite <- app_assoc.
Qed.

Lemma nondecreasing_cons2 x y l :
  nondecreasing (x :: y :: l) = (x <=? y) && nondecreasing (y :: l).
Proof. reflexivity. Qed.

Lemma nondecreasing_repeat_app x n l :
  nondecreasing l = true -> (forall y, hd_error l = Some y -> x <= y) ->
  nondecreasing (repeat x n ++ l) = true.
Proof.
  intros Hl Hx. induction n as [|[|n] IH]; [exact Hl| |].
  - destruct l as [|y l]; [reflexivity|]. cbn [repeat app].
    rewrite nondecreasing_cons2, Hl, andb_true_r. apply Z.leb_le, Hx. reflexivity.
  - cbn [repeat app] in IH |- *. now rewrite nondecreasing_cons2, IH, Z.leb_refl.
Qed.

Lemma forallb_uri_opts segs :
  fits_all segs -> forallb uri_fits (map uri_opt segs) = true.
Proof.
  intros Hs. apply forallb_forall. intros o (x & <- & Hx)%in_map_iff.
  simpl. apply Forall_forall with (x := x) in Hs; [|exact Hx]. now apply Z.ltb_lt.
Qed.

(** The request of [IOT_CoAP_SendMessage] (lines 462-499): the URI-path
    options the encoder added, then content format, accept and the auth
    token, and a payload shorter than a PDU. *)
Lemma request_wf mid tok msg segs ct t pl :
  fits_all segs -> strlen pl < COAP_MSG_MAX_PDU_LEN ->
  msg_wf (Dispatch.finish_request (PathSplit.add_uri_paths (Dispatch.build_request mid tok msg) segs) ct t pl)
  = true.
Proof.
  intros Hs Hp. destruct (add_uri_paths_fields (Dispatch.build_request mid tok msg) segs) as [Eo _].
  unfold msg_wf, Dispatch.finish_request, Dispatch.content_options.
  assert (Ec : forall l, map opt_num (map uri_opt segs ++ l) = repeat COAP_OPTION_URI_PATH (length segs) ++ map opt_num l)
    by (intros l; rewrite map_app, map_map; simpl; rewrite map_const; reflexivity).
  destruct ct; cbn [cm_options cm_payload CoAPMessagePayload_set CoAPStrOption_add CoAPUintOption_add];
    rewrite Eo; simpl app; rewrite <- !app_assoc; simpl app; rewrite Ec, forallb_app, forallb_uri_opts by exact Hs;
    rewrite nondecreasing_repeat_app by (try reflexivity; intros y [= <-]; unfold COAP_OPTION_URI_PATH, COAP_OPTION_CONTENT_FORMAT; lia);
    apply Z.ltb_lt in Hp; rewrite Hp; reflexivity.
Qed.

Lemma split_path_fits u m m1 :
  PathSplit.iotx_split_path_2_option (Some u) (Some m) = Ok (IOTX_SUCCESS, Some m1) ->
  exists segs, m1 = PathSplit.add_uri_paths m segs /\ fits_all segs.
Proof.
  unfold PathSplit.iotx_split_path_2_option. destruct (_ <? _); [discriminate|].
  destruct (PathSplit.split_loop u u m) eqn:E; [|discriminate]. intros [= <-]. exact (split_loop_fits _ _ _ _ E).
Qed.

Lemma payload_bytes_fits msg pl :
  payload_len msg < COAP_MSG_MAX_PDU_LEN -> Dispatch.payload_bytes msg = Ok pl -> strlen pl < COAP_MSG_MAX_PDU_LEN.
Proof.
  unfold Dispatch.payload_bytes. intros Hl. destruct (p_payload msg) as [p|].
  - destruct (_ <? _) eqn:E; [discriminate|]. intros [= <-]. apply Z.ltb_ge in E.
    unfold strlen in *. rewrite substring_0_length. unfold COAP_MSG_MAX_PDU_LEN in *. lia.
  - destruct (_ =? 0); [|discriminate]. intros [= <-]. reflexivity.
Qed.

(** The auth request (lines 364-377): URI path, content format and accept,
    and the payload [HAL_Snprintf] bounds by the PDU size. *)
Lemma auth_message_wf mid tok di sign : msg_wf (Auth.auth_message mid tok di sign) = true.
Proof.
  unfold msg_wf. change (cm_options (Auth.auth_message mid tok di sign))
    with (cm_options (Auth.auth_request 0 [])).
  change (cm_payload (Auth.auth_message mid tok di sign)) with (Auth.auth_payload di sign).
  pose proof (snprintf_bound COAP_MSG_MAX_PDU_LEN
    (IOTX_AUTH_DEVICENAME_STR (product_key di) (device_name di) (device_id di) sign)
    ltac:(unfold COAP_MSG_MAX_PDU_LEN; lia)).
  unfold Auth.auth_payload. replace (_ <? _) with true by (symmetry; apply Z.ltb_lt; lia).
  vm_compute. reflexivity.
Qed.

Lemma well_known_wf mid tok : msg_wf (Lifecycle.well_known_request mid tok) = true.
Proof. vm_compute. reflexivity. Qed.

(** ** Every message the engine takes is well-formed *)

Section SentWf.
Context `{HostPlatform} {ctx : Type} `{CoapEngine ctx}.

Local Abbreviation M := (ST (world ctx)).

Definition sent_wf (w : world ctx) : bool := forallb msg_wf (sent_of w).

Local Abbreviation kept := (Keeps.keeps sent_wf).

Lemma sent_frame {A} (m : M A) :
  (forall w, match m w with Ok (_, w') => sent_of w' = sent_of w | Stuck _ => True end) -> kept m.
Proof.
  intros Hm w Hw. specialize (Hm w). destruct (m w) as [[a w']|r]; [|exact I].
  unfold sent_wf. now rewrite Hm.
Qed.

(** An engine operation that appends only well-formed messages to the log. *)
Lemma sent_with_ctx {A} (f : ctx -> A * ctx) :
  (forall c, exists l, engine_sent (snd (f c)) = engine_sent c ++ l /\ forallb msg_wf l = true) ->
  kept (with_ctx f).
Proof.
  intros Hf w Hw. unfold with_ctx, sess_put. st_unfold. unfold sess_get.
  destruct (w_session w) as [s|] eqn:Es; [|exact I].
  destruct (p_coap_ctx s) as [c|] eqn:Ec; [|exact I].
  destruct (Hf c) as (l & El & Hl). destruct (f c) as [a c']. simpl in El.
  unfold sent_wf in *. rewrite (sent_of_set _ _ c') by reflexivity. rewrite El, forallb_app, Hl.
  unfold sent_of in Hw. rewrite Es, Ec in Hw. now rewrite Hw.
Qed.

Lemma sent_sess_update f :
  (forall s, p_coap_ctx (f s) = p_coap_ctx s) -> kept (sess_update f).
Proof.
  intros Hf. apply sent_frame. intros w. unfold sess_update, sess_put. st_unfold. unfold sess_get.
  destruct (w_session w) as [s|] eqn:Es; [|exact I]. unfold sent_of. simpl. now rewrite Hf, Es.
Qed.

Lemma sent_sess_get : kept sess_get.
Proof. apply sent_frame. intros w. unfold sess_get. now destruct (w_session w). Qed.

Lemma sent_malloc : kept coap_malloc.
Proof. apply sent_frame. intros w. unfold coap_malloc. now destruct (w_malloc w) as [|[] ?]. Qed.

Lemma sent_free : kept coap_free.
Proof. now apply sent_frame. Qed.

Lemma sent_sleep ms : kept (HAL_SleepMs ms).
Proof. now apply sent_frame. Qed.

Lemma sent_get_coap_token : kept get_coap_token.
Proof.
  apply sent_frame. intros w. unfold get_coap_token, sess_put. st_unfold. unfold sess_get.
  destruct (w_session w) as [s|] eqn:Es; [|exact I]. unfold sent_of. simpl. now rewrite Es.
Qed.

Lemma sent_msgid_gen : kept msgid_gen.
Proof. apply sent_with_ctx. intros c. exists []. now rewrite msgid_gen_sent, app_nil_r. Qed.

Lemma sent_net_read : kept net_read.
Proof.
  apply sent_with_ctx. intros c. exists []. split; [|reflexivity]. rewrite app_nil_r.
  destruct (coap_read c) as [[d c']|] eqn:E; [exact (read_sent _ _ _ E)|reflexivity].
Qed.

Lemma sent_net_match d : kept (net_match d).
Proof. apply sent_with_ctx. intros c. exists []. now rewrite match_sent, app_nil_r. Qed.

Lemma sent_msg_send m : msg_wf m = true -> kept (msg_send m).
Proof.
  intros Hm. apply sent_with_ctx. intros c. eexists. split; [apply send_sent|].
  destruct (decide _); simpl; [now rewrite Hm|reflexivity].
Qed.

#[local] Hint Resolve sent_sess_get sent_malloc sent_free sent_sleep sent_get_coap_token
  sent_msgid_gen sent_net_read sent_net_match : iotx_keeps.
#[local] Hint Extern 1 (Keeps.keeps sent_wf (sess_update _)) =>
  apply sent_sess_update; intros; simpl; repeat case_match; reflexivity : iotx_keeps.
#[local] Hint Extern 1 (Keeps.keeps sent_wf (msg_send (Auth.auth_message _ _ _ _))) =>
  apply sent_msg_send, auth_message_wf : iotx_keeps.
#[local] Hint Extern 1 (Keeps.keeps sent_wf (msg_send (Lifecycle.well_known_request _ _))) =>
  apply sent_msg_send, well_known_wf : iotx_keeps.

Lemma sent_token_from_json p q len : kept (AuthToken.iotx_get_token_from_json p q len).
Proof. unfold AuthToken.iotx_get_token_from_json, AuthToken.lite_json_value_of. Keeps.keeps_tac. Qed.

Lemma sent_calc_sign sign0 a b c d : kept (Sign.iotx_calc_sign sign0 a b c d).
Proof. unfold Sign.iotx_calc_sign. Keeps.keeps_tac. Qed.

#[local] Hint Resolve sent_token_from_json sent_calc_sign : iotx_keeps.

Lemma sent_callback auth user md : kept auth -> kept (Auth.iotx_device_name_auth_callback auth user md).
Proof. intros Ha. unfold Auth.iotx_device_name_auth_callback. Keeps.keeps_tac. Qed.

(** The dispatcher: the request it hands the engine carries the segments
    the encoder accepted and a payload the PDU guard of line 470 bounds. *)
Lemma sent_send_message p q r : kept (Dispatch.IOT_CoAP_SendMessage p q r).
Proof.
  unfold Dispatch.IOT_CoAP_SendMessage.
  destruct p, q as [path|], r as [msg|]; try (Keeps.keeps_tac; fail).
  apply Keeps.keeps_bind; [auto with iotx_keeps|intros s].
  destruct (p_coap_ctx s); [|auto with iotx_keeps].
  destruct (_ <=? payload_len msg) eqn:El; [auto with iotx_keeps|]. apply Z.leb_gt in El.
  destruct (is_authed s); [|auto with iotx_keeps].
  apply Keeps.keeps_bind; [auto with iotx_keeps|intros mid].
  apply Keeps.keeps_bind; [auto with iotx_keeps|intros tok].
  destruct (PathSplit.iotx_split_path_2_option _ _) as [[[] [m1|]]|rr] eqn:Es;
    try (auto with iotx_keeps; fail).
  destruct (split_path_fits _ _ _ Es) as (segs & -> & Hs).
  apply Keeps.keeps_bind; [auto with iotx_keeps|intros s'].
  destruct (p_auth_token s') as [t|], (Dispatch.payload_bytes msg) as [pl|] eqn:Ep;
    try (auto with iotx_keeps; fail).
  apply Keeps.keeps_bind; [|intros; auto with iotx_keeps].
  apply sent_msg_send, request_wf; [exact Hs|exact (payload_bytes_fits _ _ El Ep)].
Qed.

#[local] Hint Resolve sent_send_message sent_callback : iotx_keeps.

Lemma sent_auth fuel p : kept (Auth.IOT_CoAP_DeviceNameAuth fuel p).
Proof. apply Keeps.auth_keeps; auto with iotx_keeps. Qed.

Lemma sent_yield fuel p : kept (Auth.IOT_CoAP_Yield fuel p).
Proof. apply Keeps.yield_keeps; auto with iotx_keeps. Qed.

Lemma sent_well_known p : kept (Lifecycle.iotx_get_well_known p).
Proof. unfold Lifecycle.iotx_get_well_known. Keeps.keeps_tac. Qed.

(** C8 (type): the client hands the engine only well-formed CoAP messages:
    from a world whose sent log is well-formed, the handshake with its
    nested retries, a cycle of [IOT_CoAP_Yield], [IOT_CoAP_SendMessage] and
    [iotx_get_well_known] each end, when they return, with a sent log whose
    every message has its options in order of number, its URI-path values
    shorter than [COAP_MSG_MAX_PATH_LEN] and its payload shorter than
    [COAP_MSG_MAX_PDU_LEN]. *)
Theorem client_sends_wf_messages fuel p path msg :
  Keeps.keeps sent_wf (Auth.IOT_CoAP_DeviceNameAuth fuel p) /\
  Keeps.keeps sent_wf (Auth.IOT_CoAP_Yield fuel p) /\
  Keeps.keeps sent_wf (Dispatch.IOT_CoAP_SendMessage p path msg) /\
  Keeps.keeps sent_wf (Lifecycle.iotx_get_well_known p).
Proof. auto using sent_auth, sent_yield, sent_send_message, sent_well_known. Qed.

End SentWf.

End MsgWf.
