(* ===== verification/Liveness.v ===== *)
(** * Progress of the application loop

    The application drives the session by calling [IOT_CoAP_Yield] in a
    loop (spec: the cycle is "the only way timers, retransmissions, and
    asynchronous callbacks make forward progress").  One cycle reads one
    datagram and runs its handler, whose nested handshakes never make more
    datagrams arrive ([Auth.fuel_safe]); a read times out only when no
    datagram is still to arrive (the engine law [read_none]).  So a loop of
    as many cycles as there are datagrams to arrive handles all of them. *)

From Stdlib Require Import ZArith Lia String List Bool.
From stdpp Require Import base decidable.
From S2P Require Import Prelude Defs Platform Session Scripted Auth.
Import ListNotations.
Open Scope Z_scope.
Local Open Scope iotx_scope.

Module Liveness.
Section Liveness.
Context `{HostPlatform} {ctx : Type} `{CoapEngine ctx}.

Local Abbreviation M := (ST (world ctx)).

(** The application's loop: [k] calls of [IOT_CoAP_Yield] on the session. *)
Fixpoint yield_loop (fuel k : nat) : M unit :=
  match k with
  | O => ret tt
  | S k' => _ <- Auth.IOT_CoAP_Yield fuel P_SESSION ;; yield_loop fuel k'
  end.

Lemma net_read_timeout (w : world ctx) :
  match net_read w with Ok (None, _) => inbox_of w = O | _ => True end.
Proof.
  unfold net_read, with_ctx. st_unfold. unfold sess_get.
  destruct (w_session w) as [s|] eqn:E; [|exact I].
  destruct (p_coap_ctx s) as [c|] eqn:Ec; [|exact I].
  destruct (coap_read c) as [[d c']|] eqn:Er; [exact I|]. simpl.
  unfold inbox_of. rewrite E, Ec. exact (read_none c Er).
Qed.

(** One cycle: the inbox was already empty, or it shrinks. *)
Lemma yield_step fuel (w : world ctx) :
  (inbox_of w < fuel)%nat ->
  match Auth.IOT_CoAP_Yield fuel P_SESSION w with
  | Ok (_, w') => inbox_of w' = O \/ (inbox_of w' < inbox_of w)%nat
  | Stuck NoFuel => False
  | Stuck (UB _) => True
  end.
Proof.
  intros Hf. unfold Auth.IOT_CoAP_Yield, st_bind at 1, sess_get.
  destruct (w_session w) as [s|] eqn:Es; [|exact I].
  destruct (p_coap_ctx s) as [c|] eqn:Ec;
    [|left; unfold inbox_of; simpl; now rewrite Es, Ec].
  unfold Auth.CoAPMessage_cycle, st_bind at 1.
  pose proof (net_read_timeout w) as Ht. pose proof (Auth.net_read_cases w) as Hr.
  destruct (net_read w) as [[[d|] w1]|[why|]]; [| |exact I|contradiction].
  - pose proof (Auth.handle_safe (inbox_of w1) _ d
      (Auth.auth_fuel_safe fuel (inbox_of w1) ltac:(lia))) as Hh.
    specialize (Hh w1 (le_n _)). unfold st_bind.
    destruct (Auth.CoAPMessage_handle _ d w1) as [[[] w2]|[why|]]; [|exact I|contradiction].
    right. simpl. lia.
  - left. simpl. lia.
Qed.

Lemma yield_loop_run fuel k : forall (w : world ctx),
  (inbox_of w < fuel)%nat -> (inbox_of w <= k)%nat ->
  match yield_loop fuel k w with
  | Ok (_, w') => inbox_of w' = O
  | Stuck NoFuel => False
  | Stuck (UB _) => True
  end.
Proof.
  induction k as [|k IH]; intros w Hf Hk; cbn [yield_loop].
  - simpl. lia.
  - unfold st_bind at 1. pose proof (yield_step fuel w Hf) as Hs.
    destruct (Auth.IOT_CoAP_Yield fuel P_SESSION w) as [[r w1]|[why|]]; [|exact I|contradiction].
    apply IH; lia.
Qed.

(** C9 (liveness): from a world with fewer datagrams to arrive than the
    fuel of the nested handshakes, a loop of at least as many calls of
    [IOT_CoAP_Yield] as there are datagrams to arrive never runs out of fuel
    and, unless the code reaches undefined behaviour, ends with every
    datagram read and handled. *)
Theorem yield_loop_drains fuel k (w : world ctx) :
  (inbox_of w < fuel)%nat -> (inbox_of w <= k)%nat ->
  match yield_loop fuel k w with
  | Ok (_, w') => inbox_of w' = O
  | Stuck NoFuel => False
  | Stuck (UB _) => True
  end.
Proof. apply yield_loop_run. Qed.

End Liveness.

Import Scripted.

Lemma yield_loop_drains_witness :
  match @yield_loop (scripted_platform "" "") script_ctx script_engine 3 2
          (Auth.demo_auth_world [Auth.demo_ok205; Auth.demo_ok205]) with
  | Ok (_, w') => @inbox_of script_ctx script_engine w' = O
  | Stuck NoFuel => False
  | Stuck (UB _) => True
  end.
Proof.
  refine (@yield_loop_drains (scripted_platform "" "") script_ctx script_engine 3 2
            (Auth.demo_auth_world [Auth.demo_ok205; Auth.demo_ok205]) _ _); wit_hyp.
Defined.

End Liveness.
