(* ===== verification/Reach.v ===== *)
(** * Reachable states of a session

    An application drives the client through its API: [IOT_CoAP_Init],
    [IOT_CoAP_Deinit], [IOT_CoAP_DeviceNameAuth], [IOT_CoAP_Yield],
    [IOT_CoAP_SendMessage] and [iotx_get_well_known], in any order and any
    number of times.  [step] is one such call that returns; [reachable]
    closes it from a world with no session and no live heap block.  By induction on [reachable],
    every reachable world satisfies both invariants of the development:
    the session invariant of [Invariant] and the well-formedness of the
    sent log of [MsgWf]. *)

From Stdlib Require Import ZArith Lia String List Bool.
From stdpp Require Import base decidable.
From S2P Require Import Prelude Defs PathSplit Platform Session Scripted Dispatch Auth Keeps Invariant Lifecycle Complete MsgWf.
Import ListNotations.
Open Scope Z_scope.
Local Open Scope iotx_scope.

Module Reach.
Section Reach.
Context `{HostPlatform} {ctx : Type} `{CoapEngine ctx}.

Local Abbreviation M := (ST (world ctx)).

(** A datagram arriving from the network for the session's engine
    context: nothing else of the world changes. *)
Definition deliver (d : datagram) (w : world ctx) : world ctx :=
  match w_session w with
  | Some s =>
      match p_coap_ctx s with
      | Some c => set_session (Some (set_coap_ctx (Some (coap_deliver c d)) s)) w
      | None => w
      end
  | None => w
  end.

(** A call of the API, with its arguments, or an arrival from the
    network, which the application does not control. *)
Inductive api_call :=
| NetArrive (d : datagram)
| CallInit (p_config : option iotx_coap_config_t)
| CallDeinit (pp_context : option ptr)
| CallAuth (p_context : ptr)
| CallYield (p_context : ptr)
| CallSend (p_context : ptr) (p_path : option string) (p_message : option iotx_message_t)
| CallWellKnown (p_context : ptr).

(** The call run on the world, its result dropped; [fuel] bounds the
    handshakes a cycle re-enters. *)
Definition run_call (fuel : nat) (c : api_call) : M unit :=
  match c with
  | NetArrive d => st_modify (deliver d)
  | CallInit cfg => _ <- Lifecycle.IOT_CoAP_Init cfg ;; ret tt
  | CallDeinit pp => _ <- Lifecycle.IOT_CoAP_Deinit pp ;; ret tt
  | CallAuth p => _ <- Auth.IOT_CoAP_DeviceNameAuth fuel p ;; ret tt
  | CallYield p => _ <- Auth.IOT_CoAP_Yield fuel p ;; ret tt
  | CallSend p path msg => _ <- Dispatch.IOT_CoAP_SendMessage p path msg ;; ret tt
  | CallWellKnown p => _ <- Lifecycle.iotx_get_well_known p ;; ret tt
  end.

(** A sequence of calls, in order. *)
Fixpoint run_calls (fuel : nat) (cs : list api_call) : M unit :=
  match cs with
  | [] => ret tt
  | c :: cs' => run_call fuel c ;; run_calls fuel cs'
  end.

Inductive step (fuel : nat) : world ctx -> world ctx -> Prop :=
| step_call c w w' : run_call fuel c w = Ok (tt, w') -> step fuel w w'.

Inductive reachable (fuel : nat) : world ctx -> Prop :=
| reach_init w : w_session w = None -> w_heap w = 0 -> reachable fuel w
| reach_step w w' : reachable fuel w -> step fuel w w' -> reachable fuel w'.

(** Both invariants at once. *)
Definition app_wf (w : world ctx) : bool := SessionInv.world_wf w && MsgWf.sent_wf w.

Lemma app_wf_session (w w' : world ctx) : w_session w' = w_session w -> app_wf w' = app_wf w.
Proof. intros E. unfold app_wf, SessionInv.world_wf, MsgWf.sent_wf, sent_of. now rewrite E. Qed.

Lemma app_wf_none (w : world ctx) : w_session w = None -> app_wf w = true.
Proof. intros E. unfold app_wf, SessionInv.world_wf, MsgWf.sent_wf, sent_of. now rewrite E. Qed.

Lemma init_keeps cfg : Keeps.keeps app_wf (Lifecycle.IOT_CoAP_Init cfg).
Proof.
  intros w Hw.
  destruct (Lifecycle.init_cases cfg w)
    as (p & w' & -> & _ & [(_ & _ & Es)|(_ & _ & cfg' & d & c & _ & _ & Ec & Es)]).
  - now rewrite (app_wf_session w w' Es).
  - unfold app_wf, SessionInv.world_wf, MsgWf.sent_wf, sent_of. rewrite Es. cbn [p_coap_ctx Lifecycle.init_session].
    now rewrite (create_sent _ _ _ _ Ec).
Qed.

Lemma deinit_keeps pp : Keeps.keeps app_wf (Lifecycle.IOT_CoAP_Deinit pp).
Proof.
  intros w Hw. unfold Lifecycle.IOT_CoAP_Deinit.
  destruct pp as [[| |tag]|]; try exact Hw; [|exact I].
  unfold sess_update, sess_put, sess_get, coap_free, Lifecycle.sess_drop. st_unfold.
  destruct (w_session w) as [s|]; [|exact I]. cbn.
  destruct (p_auth_token s), (p_devinfo s); reflexivity.
Qed.

Lemma well_known_preserves p : Keeps.keeps SessionInv.world_wf (Lifecycle.iotx_get_well_known p).
Proof.
  pose proof (SessionInv.preserves_msgid_gen (ctx:=ctx)).
  pose proof (SessionInv.preserves_get_coap_token (ctx:=ctx)).
  pose proof (SessionInv.preserves_msg_send (ctx:=ctx)).
  unfold Lifecycle.iotx_get_well_known. Keeps.keeps_tac.
Qed.

(** An arrival changes only the engine context, and not its sent log. *)
Lemma deliver_session (d : datagram) (w : world ctx) :
  w_session (deliver d w) = w_session w \/
  exists s c, w_session w = Some s /\ p_coap_ctx s = Some c /\
    w_session (deliver d w) = Some (set_coap_ctx (Some (coap_deliver c d)) s).
Proof.
  unfold deliver. destruct (w_session w) as [s|] eqn:Es; [|now left].
  destruct (p_coap_ctx s) as [c|] eqn:Ec; [right; eauto|now left].
Qed.

Lemma deliver_heap (d : datagram) (w : world ctx) : w_heap (deliver d w) = w_heap w.
Proof. unfold deliver. destruct (w_session w) as [s|]; [destruct (p_coap_ctx s)|]; reflexivity. Qed.

Lemma deliver_keeps d : Keeps.keeps app_wf (st_modify (deliver d)).
Proof.
  intros w Hw. cbn. destruct (deliver_session d w) as [E|(s & c & Es & Ec & E)];
    [now rewrite (app_wf_session w _ E)|].
  unfold app_wf, SessionInv.world_wf, MsgWf.sent_wf, sent_of in *. rewrite E, Es in *. rewrite Ec in Hw.
  cbn. now rewrite deliver_sent.
Qed.

Lemma run_call_keeps fuel c : Keeps.keeps app_wf (run_call fuel c).
Proof.
  destruct c; cbn [run_call]; [apply deliver_keeps|..]; apply Keeps.keeps_bind; intros; try apply Keeps.keeps_ret;
    auto using init_keeps, deinit_keeps; unfold app_wf; apply Keeps.keeps_and;
    auto using SessionInv.auth_preserves, SessionInv.yield_preserves, SessionInv.preserves_send_message,
      well_known_preserves, MsgWf.sent_auth, MsgWf.sent_yield, MsgWf.sent_send_message,
      MsgWf.sent_well_known.
Qed.

(** Rule induction on [reachable], once for every invariant. *)
Lemma reachable_inv fuel (P : world ctx -> bool) :
  (forall w, w_session w = None -> w_heap w = 0 -> P w = true) ->
  (forall c, Keeps.keeps P (run_call fuel c)) ->
  forall w, reachable fuel w -> P w = true.
Proof.
  intros Hinit Hstep w. induction 1 as [w E Eh|w w' _ IH Hs]; [now apply Hinit|].
  inversion Hs as [c w0 w1 Hc]; subst.
  pose proof (Hstep c w IH) as Hk. now rewrite Hc in Hk.
Qed.

Lemma reachable_app_wf fuel (w : world ctx) : reachable fuel w -> app_wf w = true.
Proof. apply reachable_inv; [intros; now apply app_wf_none|apply run_call_keeps]. Qed.

Lemma run_calls_reachable fuel cs : forall (w w' : world ctx) u,
  reachable fuel w -> run_calls fuel cs w = Ok (u, w') -> reachable fuel w'.
Proof.
  induction cs as [|c cs IH]; intros w w' u Hr E; cbn [run_calls] in E.
  - now injection E as _ <-.
  - unfold st_bind in E. destruct (run_call fuel c w) as [[[] w1]|r] eqn:Ec; [|discriminate].
    exact (IH w1 w' u (reach_step fuel w w1 Hr (step_call fuel c w w1 Ec)) E).
Qed.

(** C10 (invariant): in every world an application can reach from one
    with no session and no live block, by any sequence of API calls that
    return, the session (if any) keeps its auth-token buffer shorter than
    its capacity and its counter a 32-bit value, and every message the
    engine has taken is a well-formed CoAP message. *)
Theorem reachable_wf fuel (w : world ctx) :
  reachable fuel w -> SessionInv.world_wf w = true /\ MsgWf.sent_wf w = true.
Proof. intros Hr. apply andb_true_iff, (reachable_app_wf fuel w Hr). Qed.

(** ** The session's pointers in reachable worlds *)

Lemma deliver_complete d : Keeps.keeps Complete.session_complete (st_modify (deliver d)).
Proof.
  intros w Hw. cbn. destruct (deliver_session d w) as [E|(s & c & Es & Ec & E)];
    unfold Complete.session_complete in *; rewrite E; [exact Hw|].
  rewrite Es in Hw. unfold Complete.fields_set in *. rewrite Ec in Hw. exact Hw.
Qed.

Lemma run_call_complete fuel c : Keeps.keeps Complete.session_complete (run_call fuel c).
Proof.
  destruct c; cbn [run_call]; [apply deliver_complete|..]; apply Keeps.keeps_bind; intros;
    try apply Keeps.keeps_ret;
    auto using Complete.complete_init, Complete.complete_deinit, Complete.complete_auth,
      Complete.complete_yield, Complete.complete_send_message, Complete.complete_well_known.
Qed.

Lemma reachable_fields fuel (w : world ctx) s :
  reachable fuel w -> w_session w = Some s ->
  exists t di c, p_auth_token s = Some t /\ p_devinfo s = Some di /\ p_coap_ctx s = Some c.
Proof.
  intros Hr Es.
  pose proof (reachable_inv fuel Complete.session_complete
    (fun w0 E _ => ltac:(unfold Complete.session_complete; now rewrite E))
    (run_call_complete fuel) w Hr) as Hc.
  unfold Complete.session_complete, Complete.fields_set in Hc. rewrite Es in Hc.
  destruct (p_auth_token s) as [t|], (p_devinfo s) as [di|], (p_coap_ctx s) as [c|];
    cbn in Hc; try discriminate. eauto 8.
Qed.

(** C15 (safety): in every world an application reaches, whatever the
    network delivers, a live session has its token buffer, its identity
    and its engine context: the dereferences of [p_auth_token] (line 497),
    [p_devinfo] (lines 280, 307, 370-376) and [p_coap_ctx] never meet a NULL
    pointer, and the [NULL == p_coap_ctx] checks never fire. *)
Theorem reachable_session_complete fuel (w : world ctx) s :
  reachable fuel w -> w_session w = Some s ->
  exists t di c, p_auth_token s = Some t /\ p_devinfo s = Some di /\ p_coap_ctx s = Some c.
Proof. exact (reachable_fields fuel w s). Qed.

(** C14 (functional; the dispatcher composed with the lifecycle and the
    handshake): on an authenticated session of any reachable world, for a
    path the encoder accepts and a payload below the limit,
    [IOT_CoAP_SendMessage] neither reaches undefined behaviour nor refuses
    the session: it returns [IOTX_SUCCESS] or, when the engine finds the
    message too large, [IOTX_ERR_MSG_TOO_LOOG], having handed the engine
    at most the one request, which carries the session's token. *)
Theorem reachable_authed_send fuel (w : world ctx) s path msg pl :
  reachable fuel w -> w_session w = Some s -> is_authed s = true ->
  Dispatch.payload_bytes msg = Ok pl -> payload_len msg < COAP_MSG_MAX_PDU_LEN ->
  no_nul path = true -> strlen path <= IOTX_URI_MAX_LEN ->
  Forall PathSplit.fits_path (PathSplit.path_segments path) ->
  exists t r w', p_auth_token s = Some t /\
    Dispatch.IOT_CoAP_SendMessage P_SESSION (Some path) (Some msg) w = Ok (r, w') /\
    (r = IOTX_SUCCESS \/ r = IOTX_ERR_MSG_TOO_LOOG) /\
    exists m, In (mk_option COAP_OPTION_AUTH_TOKEN (OptStr t)) (cm_options m) /\
      (sent_of w' = sent_of w ++ [m] \/ sent_of w' = sent_of w).
Proof.
  intros Hr Es Ha Hp Hl Hn Hlen Hfit.
  destruct (reachable_fields fuel w s Hr Es) as (t & di & c & Et & _ & Ec).
  rewrite (Dispatch.send_message_authed_run w s c path msg t pl) by assumption. cbv zeta.
  do 3 eexists. split; [exact Et|]. split; [reflexivity|].
  split; [destruct (decide _); auto|].
  eexists. split; [apply Dispatch.finish_request_token_option|].
  rewrite (sent_of_set _ _ (snd (CoAPMessage_send (snd (CoAPMessageId_gen c)) _))) by reflexivity.
  erewrite Auth.auth_timeout_sent by eauto. destruct (decide _); [left|right]; auto using app_nil_r.
Qed.

End Reach.

Import Scripted.
Local Open Scope string_scope.

(** A session opened, queried for [/.well-known/core], asked to send
    before it is authenticated, and cycled. *)
Definition demo_calls : list api_call :=
  [CallInit (Some Lifecycle.demo_config); CallWellKnown P_SESSION;
   CallSend P_SESSION (Some "/topic/a") (Some demo_message); CallYield P_SESSION].

Definition demo_reached : world script_ctx :=
  match @run_calls (scripted_platform "" "") script_ctx script_engine 1 demo_calls
          Lifecycle.demo_empty_world with
  | Ok (_, w) => w
  | Stuck _ => Lifecycle.demo_empty_world
  end.

Lemma reachable_wf_witness :
  SessionInv.world_wf demo_reached = true /\ MsgWf.sent_wf demo_reached = true.
Proof.
  refine (@reachable_wf (scripted_platform "" "") script_ctx script_engine 1 demo_reached _).
  refine (run_calls_reachable 1 demo_calls Lifecycle.demo_empty_world demo_reached tt _ _);
    [apply reach_init; reflexivity|vm_compute; reflexivity].
Defined.

(** The session opened, the server's 2.05 arriving, the handshake run:
    the session is authenticated with the server's token. *)
Definition demo_auth_calls : list api_call :=
  [CallInit (Some Lifecycle.demo_config); NetArrive Auth.demo_ok205; CallAuth P_SESSION].

Definition demo_authed : world script_ctx :=
  match @run_calls (scripted_platform "" "") script_ctx script_engine 2 demo_auth_calls
          Lifecycle.demo_empty_world with
  | Ok (_, w) => w
  | Stuck _ => Lifecycle.demo_empty_world
  end.

Definition demo_authed_session : iotx_coap_t script_ctx :=
  match w_session demo_authed with Some s => s | None => demo_session false [] [] end.

Lemma demo_authed_reachable :
  @reachable (scripted_platform "" "") script_ctx script_engine 2 demo_authed.
Proof.
  refine (run_calls_reachable 2 demo_auth_calls Lifecycle.demo_empty_world demo_authed tt _ _);
    [apply reach_init; reflexivity|vm_compute; reflexivity].
Qed.

Lemma demo_authed_session_eq : w_session demo_authed = Some demo_authed_session.
Proof. vm_compute. reflexivity. Qed.

Lemma reachable_session_complete_witness :
  exists t di c, p_auth_token demo_authed_session = Some t /\ p_devinfo demo_authed_session = Some di /\
    p_coap_ctx demo_authed_session = Some c.
Proof.
  exact (@reachable_session_complete (scripted_platform "" "") script_ctx script_engine 2 demo_authed
           demo_authed_session demo_authed_reachable demo_authed_session_eq).
Defined.

Lemma reachable_authed_send_witness :
  exists t r w', p_auth_token demo_authed_session = Some t /\
    @Dispatch.IOT_CoAP_SendMessage script_ctx script_engine P_SESSION (Some "/topic/a") (Some demo_message)
      demo_authed = Ok (r, w') /\
    (r = IOTX_SUCCESS \/ r = IOTX_ERR_MSG_TOO_LOOG) /\
    exists m, In (mk_option COAP_OPTION_AUTH_TOKEN (OptStr t)) (cm_options m) /\
      (sent_of w' = (sent_of demo_authed ++ [m])%list \/ sent_of w' = sent_of demo_authed).
Proof.
  refine (@reachable_authed_send (scripted_platform "" "") script_ctx script_engine 2 demo_authed
            demo_authed_session "/topic/a" demo_message "hello" demo_authed_reachable
            demo_authed_session_eq _ _ _ _ _ _); try wit_hyp.
  repeat constructor; unfold PathSplit.fits_path; wit_hyp.
Defined.

End Reach.
