(* ===== verification/Heap.v ===== *)
(** * The allocation discipline

    The world counts the live heap blocks ([w_heap]): [coap_malloc] adds
    one when it succeeds, [coap_free] takes one away.  A C function that
    frees a block it did not allocate, or frees one twice, makes the count
    drop below where it started.  With the triples of [Triple], every run
    of [m] keeps [h <= w_heap] for every [h] ([heap_mono m]) exactly when
    no run of [m] ends with fewer live blocks than it started with.  A
    [coap_malloc] ... [coap_free] pair is proved by lifting the level by
    one between the two calls.  The file shows [heap_mono] for every entry
    point that runs on a session; with a level [h = w_heap] and nothing to
    read ([heap_balanced m]), that the handshake, the report, the signature,
    the dispatcher and [iotx_get_well_known] free every block they allocate;
    and that in every reachable world a live session accounts for the three
    blocks [IOT_CoAP_Init] allocated. *)

From Stdlib Require Import ZArith Lia String List Bool.
From stdpp Require Import base decidable.
From S2P Require Import Prelude Triple Defs CoapToken PathSplit Platform Session Scripted Sign AuthToken Dispatch Auth Keeps Lifecycle Reach.
Import ListNotations.
Open Scope Z_scope.
Local Open Scope iotx_scope.

Module Heap.

Create HintDb iotx_heap.

Section HeapPrims.
Context `{HostPlatform} {ctx : Type} `{CoapEngine ctx}.

Local Abbreviation M := (ST (world ctx)).

(** [heap_mono], as a notation the hint databases see through. *)
Local Notation "'mono' m" :=
  (forall h, {{ fun w : world ctx => h <= w_heap w }} m {{ fun _ (w : world ctx) => h <= w_heap w }})
  (at level 10, m at level 9).

(** No run of [m] that returns ends with fewer live blocks than it started
    with. *)
Definition heap_mono {A} (m : M A) : Prop :=
  forall h, {{ fun w => h <= w_heap w }} m {{ fun _ w => h <= w_heap w }}.

(** A run that leaves the count of live blocks alone. *)
Definition heap_same {A} (m : M A) : Prop :=
  forall w, match m w with Ok (_, w') => w_heap w' = w_heap w | Stuck _ => True end.

Lemma heap_frame {A} (m : M A) : heap_same m -> mono m.
Proof. intros Hm h. exact (triple_frame w_heap m (fun v => h <= v) Hm). Qed.

Lemma heap_malloc h :
  {{ fun w => h <= w_heap w }} coap_malloc {{ fun ok (w : world ctx) => (if ok then h + 1 else h) <= w_heap w }}.
Proof. intros w Hw. unfold coap_malloc. destruct (w_malloc w) as [|[] ?]; simpl; lia. Qed.

Lemma heap_free h : {{ fun (w : world ctx) => h + 1 <= w_heap w }} coap_free {{ fun _ w => h <= w_heap w }}.
Proof. intros w Hw. simpl. lia. Qed.

Lemma heap_ret {A} h k (a : A) : k <= h -> {{ fun (w : world ctx) => h <= w_heap w }} st_ret a {{ fun _ w => k <= w_heap w }}.
Proof. intros Hk w Hw. simpl. lia. Qed.

Lemma heap_ret_mono {A} (a : A) : mono (st_ret a).
Proof. intros h. apply heap_ret. lia. Qed.

Lemma same_sess_get : heap_same sess_get.
Proof. intros w. unfold sess_get. now destruct (w_session w). Qed.

Lemma same_sleep ms : heap_same (HAL_SleepMs ms).
Proof. intros w. reflexivity. Qed.

Lemma same_sess_update f : heap_same (sess_update f).
Proof.
  intros w. unfold sess_update, sess_put. st_unfold. unfold sess_get.
  now destruct (w_session w).
Qed.

Lemma same_with_ctx {A} (f : ctx -> A * ctx) : heap_same (with_ctx f).
Proof.
  intros w. unfold with_ctx, sess_put. st_unfold. unfold sess_get.
  destruct (w_session w) as [s|]; [|exact I]. destruct (p_coap_ctx s) as [c|]; [|exact I].
  now destruct (f c).
Qed.

Lemma same_get_coap_token : heap_same get_coap_token.
Proof.
  intros w. unfold get_coap_token, sess_put. st_unfold. unfold sess_get.
  now destruct (w_session w).
Qed.

Lemma heap_sess_get : mono sess_get.
Proof. exact (heap_frame _ same_sess_get). Qed.

Lemma heap_sleep ms : mono (HAL_SleepMs ms).
Proof. exact (heap_frame _ (same_sleep ms)). Qed.

Lemma heap_sess_update f : mono (sess_update f).
Proof. exact (heap_frame _ (same_sess_update f)). Qed.

Lemma heap_with_ctx {A} (f : ctx -> A * ctx) : mono (with_ctx f).
Proof. exact (heap_frame _ (same_with_ctx f)). Qed.

Lemma heap_get_coap_token : mono get_coap_token.
Proof. exact (heap_frame _ same_get_coap_token). Qed.

(** ** Exact balance while nothing is to be read

    With no datagram on its way no callback runs, so no token copy can be
    leaked (see [AuthToken.get_token_from_json_too_long]); then a block
    count that ends where it started means each [coap_malloc] met its
    [coap_free].  [bal m]: every run of [m] that returns from a world with
    [h] live blocks and nothing to read ends in one with [h] live blocks
    and nothing to read. *)
Local Notation "'bal' m" :=
  (forall h, {{ fun w : world ctx => w_heap w = h /\ inbox_of w = O }} m
             {{ fun _ (w : world ctx) => w_heap w = h /\ inbox_of w = O }})
  (at level 10, m at level 9).

Definition heap_balanced {A} (m : M A) : Prop :=
  forall h, {{ fun w => w_heap w = h /\ inbox_of w = O }} m {{ fun _ w => w_heap w = h /\ inbox_of w = O }}.

Lemma bal_frame {A} (m : M A) : heap_same m -> Auth.inbox_stable m -> bal m.
Proof.
  intros Hs Hi h w [Hh Hw]. specialize (Hs w). specialize (Hi w).
  destruct (m w) as [[a w']|[why|]]; [split; congruence|exact I|exact I].
Qed.

Lemma bal_malloc h :
  {{ fun w => w_heap w = h /\ inbox_of w = O }} coap_malloc
  {{ fun ok (w : world ctx) => w_heap w = (if ok then h + 1 else h) /\ inbox_of w = O }}.
Proof. intros w [Hh Hi]. unfold coap_malloc. destruct (w_malloc w) as [|[] ?]; simpl; split; auto; lia. Qed.

Lemma bal_free h :
  {{ fun (w : world ctx) => w_heap w = h + 1 /\ inbox_of w = O }} coap_free
  {{ fun _ w => w_heap w = h /\ inbox_of w = O }}.
Proof. intros w [Hh Hi]. simpl. split; [lia|exact Hi]. Qed.

Lemma bal_ret {A} h k (a : A) :
  k = h -> {{ fun (w : world ctx) => w_heap w = h /\ inbox_of w = O }} st_ret a
           {{ fun _ w => w_heap w = k /\ inbox_of w = O }}.
Proof. intros -> w Hw. exact Hw. Qed.

Lemma bal_ret_bal {A} (a : A) : bal (st_ret a).
Proof. intros h. now apply bal_ret. Qed.

Lemma bal_sess_get : bal sess_get.
Proof. exact (bal_frame _ same_sess_get Auth.stable_sess_get). Qed.

Lemma bal_msgid_gen : bal msgid_gen.
Proof. exact (bal_frame _ (same_with_ctx _) Auth.stable_msgid_gen). Qed.

Lemma bal_msg_send m : bal (msg_send m).
Proof. exact (bal_frame _ (same_with_ctx _) (Auth.stable_msg_send m)). Qed.

Lemma bal_get_coap_token : bal get_coap_token.
Proof. exact (bal_frame _ same_get_coap_token Auth.stable_get_coap_token). Qed.

(** With nothing on its way, a read times out and changes nothing. *)
Lemma bal_net_read h :
  {{ fun w : world ctx => w_heap w = h /\ inbox_of w = O }} net_read
  {{ fun r w => r = None /\ w_heap w = h /\ inbox_of w = O }}.
Proof.
  intros w [Hh Hi]. unfold net_read, with_ctx, sess_put. st_unfold. unfold sess_get.
  destruct (w_session w) as [s|] eqn:E; [|exact I].
  destruct (p_coap_ctx s) as [c|] eqn:Ec; [|exact I].
  unfold inbox_of in Hi. rewrite E, Ec in Hi.
  destruct (coap_read c) as [[d c']|] eqn:Er; [apply read_inbox in Er; lia|].
  split; [reflexivity|]. split; [exact Hh|]. unfold inbox_of. simpl. exact Hi.
Qed.

End HeapPrims.

#[export] Hint Resolve heap_malloc heap_free heap_ret_mono heap_sess_get heap_sleep heap_sess_update
  heap_get_coap_token : iotx_heap.
#[export] Hint Extern 1 ({{ _ }} with_ctx _ {{ _ }}) => apply heap_with_ctx : iotx_heap.
#[export] Hint Extern 1 ({{ _ }} msgid_gen {{ _ }}) => apply heap_with_ctx : iotx_heap.
#[export] Hint Extern 1 ({{ _ }} msg_send _ {{ _ }}) => apply heap_with_ctx : iotx_heap.
#[export] Hint Extern 1 ({{ _ }} net_read {{ _ }}) => apply heap_with_ctx : iotx_heap.
#[export] Hint Extern 1 ({{ _ }} net_match _ {{ _ }}) => apply heap_with_ctx : iotx_heap.
#[export] Hint Resolve bal_malloc bal_free bal_ret_bal bal_sess_get bal_msgid_gen bal_msg_send
  bal_get_coap_token : iotx_heap.

(** Split a heap triple along the code: a bound step is discharged by a
    lemma at the current level (which fixes the level after it), a boolean
    result is split at once so that the level of a [coap_malloc] becomes
    explicit, a [ret] compares the levels. *)
Ltac heap_tac :=
  repeat first
    [ progress cbn [negb andb orb]
    | solve [eauto with iotx_heap]
    | match goal with
      | |- {{ _ }} st_bind _ _ {{ _ }} =>
          eapply triple_bind; [solve [eauto with iotx_heap] |];
          let x := fresh "x" in intros x;
          lazymatch type of x with bool => destruct x | _ => idtac end
      | |- {{ _ }} st_bind (match ?x with _ => _ end) _ {{ _ }} => destruct x
      | |- {{ _ }} st_bind (if ?b then _ else _) _ {{ _ }} => destruct b
      | |- {{ _ }} st_ret _ {{ _ }} => first [apply heap_ret; lia | apply bal_ret; lia]
      | |- {{ _ }} st_stuck _ {{ _ }} => apply triple_stuck
      | |- {{ _ }} (match ?x with _ => _ end) {{ _ }} => destruct x
      | |- {{ _ }} (if ?b then _ else _) {{ _ }} => destruct b
      end ].


Section HeapOps.
Context `{HostPlatform} {ctx : Type} `{CoapEngine ctx}.

Local Abbreviation M := (ST (world ctx)).

(** [heap_mono], as a notation the hint databases see through. *)
Local Notation "'mono' m" :=
  (forall h, {{ fun w : world ctx => h <= w_heap w }} m {{ fun _ (w : world ctx) => h <= w_heap w }})
  (at level 10, m at level 9).

Local Notation "'bal' m" :=
  (forall h, {{ fun w : world ctx => w_heap w = h /\ inbox_of w = O }} m
             {{ fun _ (w : world ctx) => w_heap w = h /\ inbox_of w = O }})
  (at level 10, m at level 9).

(** [iotx_calc_sign] frees the scratch block it allocated. *)
Lemma heap_calc_sign sign0 a b c d : mono (Sign.iotx_calc_sign sign0 a b c d).
Proof. intros h. unfold Sign.iotx_calc_sign. heap_tac. Qed.

(** [LITE_json_value_of] returns a value only in a block it allocated. *)
Lemma heap_lite_json h key src :
  {{ fun w : world ctx => h <= w_heap w }} AuthToken.lite_json_value_of key src
  {{ fun r w => (match r with Some _ => h + 1 | None => h end) <= w_heap w }}.
Proof.
  intros w Hw. unfold AuthToken.lite_json_value_of. st_unfold.
  destruct (LITE_json_value_of key src); [|exact Hw].
  unfold coap_malloc. destruct (w_malloc w) as [|[] ?]; simpl; lia.
Qed.

#[local] Hint Resolve heap_calc_sign heap_lite_json : iotx_heap.

Lemma heap_token_from_json p q len : mono (AuthToken.iotx_get_token_from_json p q len).
Proof.
  intros h. unfold AuthToken.iotx_get_token_from_json. heap_tac.
Qed.

Lemma heap_send_message p q r : mono (Dispatch.IOT_CoAP_SendMessage p q r).
Proof. intros h. unfold Dispatch.IOT_CoAP_SendMessage. heap_tac. Qed.

#[local] Hint Resolve heap_token_from_json heap_send_message : iotx_heap.

Section WithAuth.
Variable auth : M iotx_ret_code.
Hypothesis heap_auth_hyp : mono auth.

Lemma heap_callback user md : mono (Auth.iotx_device_name_auth_callback auth user md).
Proof. intros h. unfold Auth.iotx_device_name_auth_callback. heap_tac. Qed.

Lemma heap_notifier code md user : mono (Auth.iotx_event_notifyer auth code md user).
Proof. intros h. unfold Auth.iotx_event_notifyer. heap_tac. Qed.

#[local] Hint Resolve heap_callback heap_notifier : iotx_heap.

Lemma heap_handle d : mono (Auth.CoAPMessage_handle auth d).
Proof.
  intros h. unfold Auth.CoAPMessage_handle, Auth.run_handler, Auth.iotx_get_well_known_handler,
    Auth.iotx_coap_mid_rsphdl. heap_tac.
Qed.

#[local] Hint Resolve heap_handle : iotx_heap.

Lemma heap_recv cnt : mono (Auth.CoAPMessage_recv auth cnt).
Proof. induction cnt as [|[|cnt] IH]; intros h; cbn [Auth.CoAPMessage_recv]; heap_tac. Qed.

#[local] Hint Resolve heap_recv : iotx_heap.

(** The report frees its payload block on every path. *)
Lemma heap_report p : mono (Auth.iotx_coap_report_mid auth p).
Proof. intros h. unfold Auth.iotx_coap_report_mid. heap_tac. Qed.

#[local] Hint Resolve heap_report : iotx_heap.

Lemma heap_tail : mono (Auth.auth_tail auth).
Proof. intros h. unfold Auth.auth_tail. heap_tac. Qed.

Lemma heap_cycle : mono (Auth.CoAPMessage_cycle auth).
Proof. intros h. unfold Auth.CoAPMessage_cycle. heap_tac. Qed.

End WithAuth.

#[local] Hint Resolve heap_tail heap_cycle : iotx_heap.

(** The handshake frees the payload block of its request on every path,
    at every depth of nesting. *)
Lemma heap_auth fuel : forall p, mono (Auth.IOT_CoAP_DeviceNameAuth fuel p).
Proof.
  induction fuel as [|f IH]; intros p h; cbn [Auth.IOT_CoAP_DeviceNameAuth]; [apply triple_stuck|].
  pose proof (IH P_SESSION). heap_tac.
Qed.

Lemma heap_yield fuel p : mono (Auth.IOT_CoAP_Yield fuel p).
Proof. intros h. pose proof (heap_auth fuel P_SESSION). unfold Auth.IOT_CoAP_Yield. heap_tac. Qed.

Lemma heap_well_known p : mono (Lifecycle.iotx_get_well_known p).
Proof. intros h. unfold Lifecycle.iotx_get_well_known. heap_tac. Qed.

(** The receive loop with nothing on its way times out at once, whatever
    the handshake its callbacks would start. *)
Lemma bal_recv (auth : M iotx_ret_code) cnt : bal (Auth.CoAPMessage_recv auth cnt).
Proof.
  intros h. destruct cnt as [|cnt]; cbn [Auth.CoAPMessage_recv]; [now apply bal_ret|].
  eapply triple_bind; [apply bal_net_read|]. intros [d|]; [intros w [E _]; discriminate|].
  eapply triple_pre; [now apply bal_ret|]. intros w [_ Hw]. exact Hw.
Qed.

#[local] Hint Resolve bal_recv : iotx_heap.

(** [iotx_calc_sign] frees its scratch block, the report its payload
    block, on every path. *)
Lemma bal_calc_sign sign0 a b c d : bal (Sign.iotx_calc_sign sign0 a b c d).
Proof. intros h. unfold Sign.iotx_calc_sign. heap_tac. Qed.

Lemma bal_send_message p q r : bal (Dispatch.IOT_CoAP_SendMessage p q r).
Proof. intros h. unfold Dispatch.IOT_CoAP_SendMessage. heap_tac. Qed.

#[local] Hint Resolve bal_calc_sign bal_send_message : iotx_heap.

Lemma bal_report (auth : M iotx_ret_code) p : bal (Auth.iotx_coap_report_mid auth p).
Proof. intros h. unfold Auth.iotx_coap_report_mid. heap_tac. Qed.

#[local] Hint Resolve bal_report : iotx_heap.

Lemma bal_tail (auth : M iotx_ret_code) : bal (Auth.auth_tail auth).
Proof. intros h. unfold Auth.auth_tail. heap_tac. Qed.

#[local] Hint Resolve bal_tail : iotx_heap.

(** The handshake frees the payload block of its request on every path. *)
Lemma bal_auth fuel p : bal (Auth.IOT_CoAP_DeviceNameAuth fuel p).
Proof. intros h. destruct fuel as [|f]; cbn [Auth.IOT_CoAP_DeviceNameAuth]; [apply triple_stuck|]. heap_tac. Qed.

Lemma bal_well_known p : bal (Lifecycle.iotx_get_well_known p).
Proof. intros h. unfold Lifecycle.iotx_get_well_known. heap_tac. Qed.

(** ** The blocks of a session *)

Definition has_session (w : world ctx) : bool :=
  match w_session w with Some _ => true | None => false end.

(** A live session accounts for the three blocks of [IOT_CoAP_Init] (the
    session, its token buffer and its identity); the count is never
    negative. *)
Definition heap_wf (w : world ctx) : bool := (if has_session w then 3 else 0) <=? w_heap w.

Local Abbreviation present b := (fun w => Bool.eqb (has_session w) b).

Lemma present_frame {A} (m : M A) :
  (forall w, match m w with Ok (_, w') => has_session w' = has_session w | Stuck _ => True end) ->
  forall b, Keeps.keeps (present b) m.
Proof.
  intros Hm b w Hw. specialize (Hm w). destruct (m w) as [[a w']|r]; [|exact I]. now rewrite Hm.
Qed.

Lemma present_with_ctx {A} (f : ctx -> A * ctx) b : Keeps.keeps (present b) (with_ctx f).
Proof.
  apply present_frame. intros w. unfold with_ctx, sess_put. st_unfold. unfold sess_get, has_session.
  destruct (w_session w) as [s|]; [|exact I]. destruct (p_coap_ctx s) as [c|]; [|exact I].
  now destruct (f c).
Qed.

Lemma present_sess_update f b : Keeps.keeps (present b) (sess_update f).
Proof.
  apply present_frame. intros w. unfold sess_update, sess_put. st_unfold. unfold sess_get, has_session.
  now destruct (w_session w).
Qed.

Lemma present_sess_get b : Keeps.keeps (present b) sess_get.
Proof. apply present_frame. intros w. unfold sess_get. now destruct (w_session w). Qed.

Lemma present_malloc b : Keeps.keeps (present b) coap_malloc.
Proof. apply present_frame. intros w. unfold coap_malloc. now destruct (w_malloc w) as [|[] ?]. Qed.

Lemma present_free b : Keeps.keeps (present b) coap_free.
Proof. now apply present_frame. Qed.

Lemma present_sleep b ms : Keeps.keeps (present b) (HAL_SleepMs ms).
Proof. now apply present_frame. Qed.

Lemma present_get_coap_token b : Keeps.keeps (present b) get_coap_token.
Proof.
  apply present_frame. intros w. unfold get_coap_token, sess_put. st_unfold.
  unfold sess_get, has_session. destruct (w_session w) as [s|]; [|exact I].
  now destruct (CoapToken.iotx_get_coap_token (coap_token s)) as [[? ?] ?].
Qed.

Section Present.
Variable b : bool.
#[local] Hint Extern 1 (Keeps.keeps _ (with_ctx _)) => apply present_with_ctx : iotx_keeps.
#[local] Hint Extern 1 (Keeps.keeps _ msgid_gen) => apply present_with_ctx : iotx_keeps.
#[local] Hint Extern 1 (Keeps.keeps _ (msg_send _)) => apply present_with_ctx : iotx_keeps.
#[local] Hint Extern 1 (Keeps.keeps _ net_read) => apply present_with_ctx : iotx_keeps.
#[local] Hint Extern 1 (Keeps.keeps _ (net_match _)) => apply present_with_ctx : iotx_keeps.
#[local] Hint Extern 1 (Keeps.keeps _ (sess_update _)) => apply present_sess_update : iotx_keeps.
#[local] Hint Resolve present_sess_get present_malloc present_free present_sleep
  present_get_coap_token : iotx_keeps.

Lemma present_calc_sign sign0 a c d e : Keeps.keeps (present b) (Sign.iotx_calc_sign sign0 a c d e).
Proof. unfold Sign.iotx_calc_sign. Keeps.keeps_tac. Qed.

Lemma present_send_message p q r : Keeps.keeps (present b) (Dispatch.IOT_CoAP_SendMessage p q r).
Proof. unfold Dispatch.IOT_CoAP_SendMessage. Keeps.keeps_tac. Qed.

Lemma present_callback auth user md :
  Keeps.keeps (present b) auth -> Keeps.keeps (present b) (Auth.iotx_device_name_auth_callback auth user md).
Proof.
  intros Ha. unfold Auth.iotx_device_name_auth_callback, AuthToken.iotx_get_token_from_json,
    AuthToken.lite_json_value_of. Keeps.keeps_tac.
Qed.

#[local] Hint Resolve present_calc_sign present_send_message present_callback : iotx_keeps.

Lemma present_auth fuel p : Keeps.keeps (present b) (Auth.IOT_CoAP_DeviceNameAuth fuel p).
Proof. apply Keeps.auth_keeps; auto with iotx_keeps. Qed.

Lemma present_yield fuel p : Keeps.keeps (present b) (Auth.IOT_CoAP_Yield fuel p).
Proof. apply Keeps.yield_keeps; auto with iotx_keeps. Qed.

Lemma present_well_known p : Keeps.keeps (present b) (Lifecycle.iotx_get_well_known p).
Proof. unfold Lifecycle.iotx_get_well_known. Keeps.keeps_tac. Qed.

End Present.

(** An entry point that keeps the session's presence and never lowers
    the count keeps [heap_wf]. *)
Lemma heap_wf_kept {A} (m : M A) :
  mono m -> (forall b, Keeps.keeps (present b) m) -> Keeps.keeps heap_wf m.
Proof.
  intros Hh Hp w Hw. pose proof (Hp (has_session w) w (Bool.eqb_reflx _)) as Hs.
  apply Z.leb_le in Hw. specialize (Hh _ w Hw). unfold heap_wf.
  destruct (m w) as [[a w']|r]; [|exact I]. apply Bool.eqb_prop in Hs. rewrite Hs. now apply Z.leb_le.
Qed.

Lemma init_heap_wf cfg : Keeps.keeps heap_wf (Lifecycle.IOT_CoAP_Init cfg).
Proof.
  intros w Hw. unfold heap_wf, has_session in *. apply Z.leb_le in Hw.
  destruct (Lifecycle.init_cases cfg w)
    as (p & w' & -> & _ & [(_ & Eh & Es)|(_ & Eh & cfg' & d & c & _ & _ & _ & Es)]);
    rewrite Es, Eh; apply Z.leb_le; [exact Hw|].
  destruct (w_session w); lia.
Qed.

(** [IOT_CoAP_Deinit] frees at most the three blocks of the session and
    drops it. *)
Lemma deinit_heap_wf pp : Keeps.keeps heap_wf (Lifecycle.IOT_CoAP_Deinit pp).
Proof.
  intros w Hw. unfold Lifecycle.IOT_CoAP_Deinit.
  destruct pp as [[| |tag]|]; try exact Hw; [|exact I].
  unfold sess_update, sess_put, sess_get, coap_free, Lifecycle.sess_drop. st_unfold.
  unfold heap_wf, has_session in *. destruct (w_session w) as [s|]; [|exact I].
  apply Z.leb_le in Hw. cbn. destruct (p_auth_token s), (p_devinfo s); cbn; apply Z.leb_le; lia.
Qed.

(** An arrival from the network allocates nothing. *)
Lemma deliver_heap_wf d : Keeps.keeps heap_wf (st_modify (Reach.deliver d)).
Proof.
  intros w Hw. cbn. unfold heap_wf, has_session in *. rewrite Reach.deliver_heap.
  destruct (Reach.deliver_session d w) as [E|(s & c & Es & Ec & E)]; rewrite E; [exact Hw|].
  rewrite Es in Hw. exact Hw.
Qed.

Lemma run_call_heap_wf fuel c : Keeps.keeps heap_wf (Reach.run_call fuel c).
Proof.
  destruct c; cbn [Reach.run_call]; [apply deliver_heap_wf|..]; apply Keeps.keeps_bind; intros; try apply Keeps.keeps_ret;
    auto using init_heap_wf, deinit_heap_wf; apply heap_wf_kept;
    auto using heap_auth, heap_yield, heap_send_message, heap_well_known, present_auth,
      present_yield, present_send_message, present_well_known.
Qed.

(** C12 (safety): the handshake, the report, the signature, the dispatcher
    and [iotx_get_well_known] match every [coap_malloc] with exactly one
    [coap_free].  No run of the handshake (with its nested retries and
    re-authentications at any depth), of a cycle of [IOT_CoAP_Yield], of
    [IOT_CoAP_SendMessage] or of [iotx_get_well_known] that returns ends
    with fewer live blocks than it started with: no block is freed twice or
    freed without being allocated.  When nothing is to be read, so that no
    callback runs (the only leak is the token copy of an over-long token,
    [AuthToken.get_token_from_json_too_long]), each of them, the module-id
    report and [iotx_calc_sign] end with exactly the blocks they started
    with: the scratch block of the signature, the payload block of the
    request and that of the report are freed on every path. *)
Theorem heap_alloc_free_matched fuel p path msg :
  heap_mono (Auth.IOT_CoAP_DeviceNameAuth fuel p) /\ heap_mono (Auth.IOT_CoAP_Yield fuel p) /\
  heap_mono (Dispatch.IOT_CoAP_SendMessage p path msg) /\ heap_mono (Lifecycle.iotx_get_well_known p) /\
  heap_balanced (Auth.IOT_CoAP_DeviceNameAuth fuel p) /\
  heap_balanced (Auth.iotx_coap_report_mid (Auth.IOT_CoAP_DeviceNameAuth fuel P_SESSION) p) /\
  heap_balanced (Dispatch.IOT_CoAP_SendMessage p path msg) /\
  heap_balanced (Lifecycle.iotx_get_well_known p) /\
  (forall sign0 secret id name pk, heap_balanced (Sign.iotx_calc_sign sign0 secret id name pk)).
Proof.
  split; [exact (heap_auth fuel p)|]. split; [exact (heap_yield fuel p)|].
  split; [exact (heap_send_message p path msg)|]. split; [exact (heap_well_known p)|].
  split; [exact (bal_auth fuel p)|]. split; [exact (bal_report _ p)|].
  split; [exact (bal_send_message p path msg)|]. split; [exact (bal_well_known p)|].
  intros. exact (bal_calc_sign _ _ _ _ _).
Qed.

(** C13 (invariant): in every world an application reaches from one with
    no session and no live block, by any sequence of API calls that
    return, the count of live blocks is never negative, and while a
    session is open it accounts at least for the three blocks
    [IOT_CoAP_Init] allocated: [IOT_CoAP_Deinit] never frees a block twice. *)
Theorem reachable_heap_wf fuel (w : world ctx) : Reach.reachable fuel w -> heap_wf w = true.
Proof.
  apply Reach.reachable_inv; [|apply run_call_heap_wf].
  intros w0 Es Eh. unfold heap_wf, has_session. rewrite Es, Eh. reflexivity.
Qed.

End HeapOps.

Import Scripted.
Local Open Scope string_scope.

Lemma reachable_heap_wf_witness : heap_wf Reach.demo_reached = true.
Proof.
  refine (@reachable_heap_wf (scripted_platform "" "") script_ctx script_engine 1 Reach.demo_reached _).
  refine (Reach.run_calls_reachable 1 Reach.demo_calls Lifecycle.demo_empty_world Reach.demo_reached tt _ _);
    [apply Reach.reach_init; reflexivity|vm_compute; reflexivity].
Defined.
End Heap.
