(* ===== verification/Retry.v ===== *)
(** * The retry chain of the handshake

    On a 5.00 answer the callback sleeps 1000 ms and calls
    [IOT_CoAP_DeviceNameAuth] again from inside the receive of the running
    handshake (iotx_coap_api.c, lines 132-137); the code has no bound on
    the number of retries.  This file runs the handshake on the scripted
    engine and platform against a server that answers the first [k]
    requests with 5.00 and the next with 2.05, for every [k]. *)

From Stdlib Require Import ZArith Lia String List Bool.
From stdpp Require Import base decidable.
From S2P Require Import Prelude Defs CoapToken PathSplit Platform Session Scripted Sign AuthToken Dispatch Auth.
Import ListNotations.
Open Scope Z_scope.
Local Open Scope iotx_scope.

Module Retry.
Import Scripted Auth.

Definition plat : HostPlatform := scripted_platform "" "".
#[local] Existing Instance plat.

(** The token of the [i]-th request of a session whose counter started at
    [c0], and the server's answers to it. *)
Definition tok_at (c0 : Z) (i : nat) : list Z := CoapToken.token_bytes (u32 (c0 + Z.of_nat i)).

Definition e500 (c0 : Z) (i : nat) : datagram :=
  mk_datagram COAP_MESSAGE_TYPE_ACK COAP_MSG_CODE_500_INTERNAL_SERVER_ERROR (tok_at c0 i) "".

Definition ok205 (c0 : Z) (i : nat) (body : string) : datagram :=
  mk_datagram COAP_MESSAGE_TYPE_ACK COAP_MSG_CODE_205_CONTENT (tok_at c0 i) body.

(** The answers still to come when the [i]-th request is sent. *)
Definition replies (c0 : Z) (i k : nat) (body : string) : list datagram :=
  map (e500 c0) (seq i (k - i)) ++ [ok205 c0 k body].

(** The engine's message id after [i] requests. *)
Fixpoint mid_at (m0 : Z) (i : nat) : Z :=
  match i with O => m0 | S j => (mid_at m0 j + 1) mod 2 ^ 16 end.

Definition demo_sign : string :=
  hmac_stub (Sign.sign_source (device_id demo_devinfo) (device_name demo_devinfo)
               (product_key demo_devinfo)) (device_secret demo_devinfo).

(** The [i]-th authentication request, and the first [n]. *)
Definition req_at (m0 c0 : Z) (i : nat) : CoAPMessage :=
  Auth.auth_message (mid_at m0 i) (tok_at c0 i) demo_devinfo demo_sign.

Definition reqs (m0 c0 : Z) (n : nat) : list CoAPMessage := map (req_at m0 c0) (seq 0 n).

Definition sess_at (t : option string) (authed : bool) (c0 : Z) (i : nat) (c : script_ctx)
  : iotx_coap_t script_ctx :=
  mk_session t IOTX_AUTH_TOKEN_LEN authed (Some demo_devinfo) (Some c) (u32 (c0 + Z.of_nat i)) None.

(** The world when the [i]-th handshake of the chain starts. *)
Definition world_at (t : string) (m0 c0 : Z) (sent0 : list CoAPMessage) (i k : nat)
  (body : string) (h : Z) : world script_ctx :=
  mk_world (Some (sess_at (Some t) false c0 i
                    (mk_sctx (mid_at m0 i) [] (sent0 ++ reqs m0 c0 i) (replies c0 i k body))))
    h [] (1000 * Z.of_nat i).

(** The world when the chain is over. *)
Definition world_final (v : string) (m0 c0 : Z) (sent0 : list CoAPMessage) (k : nat) (h : Z)
  : world script_ctx :=
  mk_world (Some (sess_at (Some v) true c0 (S k)
                    (mk_sctx (mid_at m0 (S k)) [] (sent0 ++ reqs m0 c0 (S k)) [])))
    h [] (1000 * Z.of_nat k).

(** ** Lemmas *)

Lemma u32_succ c0 i : u32 (u32 (c0 + Z.of_nat i) + 1) = u32 (c0 + Z.of_nat (S i)).
Proof. unfold u32. rewrite Zplus_mod_idemp_l. f_equal. lia. Qed.

Lemma reqs_succ m0 c0 i : reqs m0 c0 (S i) = reqs m0 c0 i ++ [req_at m0 c0 i].
Proof. unfold reqs. now rewrite seq_S, map_app. Qed.

Lemma replies_500 c0 i k body :
  (i < k)%nat -> replies c0 i k body = e500 c0 i :: replies c0 (S i) k body.
Proof.
  intros Hi. unfold replies. replace (k - i)%nat with (S (k - S i)) by lia. reflexivity.
Qed.

Lemma replies_last c0 k body : replies c0 k k body = [ok205 c0 k body].
Proof. unfold replies. now rewrite Nat.sub_diag. Qed.

Lemma take_pending_one tok h u : take_pending tok [(tok, h, u)] = (Some (h, u), []).
Proof. simpl. now rewrite decide_True. Qed.

Lemma sc_send_ok c m :
  msg_wire_len m <= COAP_MSG_MAX_PDU_LEN ->
  sc_send c m = (COAP_SUCCESS,
    mk_sctx (sc_next_mid c)
      (if decide (cm_type m = COAP_MESSAGE_TYPE_CON)
       then sc_pending c ++ [(cm_token m, cm_handler m, cm_user m)] else sc_pending c)
      (sc_sent c ++ [m]) (sc_inbox c)).
Proof. intros Hm. unfold sc_send. now replace (COAP_MSG_MAX_PDU_LEN <? msg_wire_len m) with false by lia. Qed.

Lemma req_at_wire_len m0 c0 i : msg_wire_len (req_at m0 c0 i) = 120.
Proof. reflexivity. Qed.

(** The handshake of the chain up to its receive: one request, accepted. *)
Lemma auth_at_send t m0 c0 sent0 i k body h f :
  IOT_CoAP_DeviceNameAuth (S f) P_SESSION (world_at t m0 c0 sent0 i k body h) =
  Auth.auth_tail (IOT_CoAP_DeviceNameAuth f P_SESSION)
    (mk_world (Some (sess_at (Some t) false c0 (S i)
                       (mk_sctx (mid_at m0 (S i)) [(tok_at c0 i, H_DEVICE_NAME_AUTH, P_SESSION)]
                          (sent0 ++ reqs m0 c0 (S i)) (replies c0 i k body))))
       h [] (1000 * Z.of_nat i)).
Proof.
  rewrite (Auth.auth_run f _ _ t _ demo_devinfo) by (try reflexivity; vm_compute; try reflexivity; discriminate).
  cbv zeta. cbn [CoAPMessage_send script_engine].
  rewrite sc_send_ok
    by (apply (Z.le_trans _ 120); [apply Z.eq_le_incl, (req_at_wire_len m0 c0 i)|unfold COAP_MSG_MAX_PDU_LEN; lia]).
  cbn -[Auth.auth_tail IOT_CoAP_DeviceNameAuth u32 reqs replies].
  rewrite (bool_decide_eq_true_2 (COAP_SUCCESS = COAP_SUCCESS) eq_refl).
  rewrite decide_True by reflexivity. rewrite u32_succ, reqs_succ, <- app_assoc. reflexivity.
Qed.

(** The world after the [i]-th request is sent. *)
Definition world_sent (t : string) (m0 c0 : Z) (sent0 : list CoAPMessage) (i k : nat)
  (body : string) (h : Z) : world script_ctx :=
  mk_world (Some (sess_at (Some t) false c0 (S i)
                    (mk_sctx (mid_at m0 (S i)) [(tok_at c0 i, H_DEVICE_NAME_AUTH, P_SESSION)]
                       (sent0 ++ reqs m0 c0 (S i)) (replies c0 i k body))))
    h [] (1000 * Z.of_nat i).

Lemma sc_match_one m tok sent inb d h u :
  dg_token d = tok ->
  sc_match (mk_sctx m [(tok, h, u)] sent inb) d = (Some (h, u), mk_sctx m [] sent inb).
Proof. intros <-. unfold sc_match. simpl. now rewrite decide_True. Qed.

(** After a 5.00 answer, the callback's nested handshake starts from the
    next world of the chain; when it ends the chain, the running handshake
    ends too, with the same world. *)
Lemma tail_500 f t v m0 c0 sent0 i k body h :
  (i < k)%nat ->
  IOT_CoAP_DeviceNameAuth f P_SESSION (world_at t m0 c0 sent0 (S i) k body h) =
    Ok (IOTX_SUCCESS, world_final v m0 c0 sent0 k h) ->
  auth_tail (IOT_CoAP_DeviceNameAuth f P_SESSION) (world_sent t m0 c0 sent0 i k body h) =
    Ok (IOTX_SUCCESS, world_final v m0 c0 sent0 k h).
Proof.
  intros Hi Hrec. unfold world_sent. rewrite (replies_500 c0 i k body Hi).
  unfold auth_tail. cbn [CoAPMessage_recv]. unfold CoAPMessage_handle, net_read, net_match, with_ctx, sess_get, sess_put.
  st_unfold. cbn -[IOT_CoAP_DeviceNameAuth iotx_coap_report_mid u32 reqs replies mid_at].
  rewrite sc_match_one by reflexivity.
  unfold run_handler, iotx_device_name_auth_callback, HAL_SleepMs. st_unfold.
  cbn -[IOT_CoAP_DeviceNameAuth iotx_coap_report_mid u32 reqs replies mid_at].
  match goal with |- context [IOT_CoAP_DeviceNameAuth f P_SESSION ?w] =>
    replace w with (world_at t m0 c0 sent0 (S i) k body h) end.
  2: { unfold world_at, sess_at, set_coap_ctx. cbn. f_equal. lia. }
  rewrite Hrec. reflexivity.
Qed.

(** The last answer, a 2.05 whose token fits, authenticates the session;
    the handshake that sent the request then ends with [IOTX_SUCCESS]. *)
Lemma tail_205 f t v m0 c0 sent0 k body h :
  json_value_of "token" body = Some v -> strlen v <= IOTX_AUTH_TOKEN_LEN - 1 ->
  auth_tail (IOT_CoAP_DeviceNameAuth f P_SESSION) (world_sent t m0 c0 sent0 k k body h) =
    Ok (IOTX_SUCCESS, world_final v m0 c0 sent0 k h).
Proof.
  intros Hv Hl. unfold world_sent. rewrite replies_last.
  unfold auth_tail. cbn [CoAPMessage_recv]. unfold CoAPMessage_handle, net_read, net_match, with_ctx, sess_get, sess_put.
  st_unfold. cbn -[IOT_CoAP_DeviceNameAuth iotx_coap_report_mid u32 reqs replies mid_at json_value_of].
  rewrite sc_match_one by reflexivity.
  unfold run_handler, iotx_device_name_auth_callback, AuthToken.iotx_get_token_from_json,
    AuthToken.lite_json_value_of, sess_update, sess_get, sess_put, coap_malloc, coap_free.
  st_unfold. cbn -[IOT_CoAP_DeviceNameAuth iotx_coap_report_mid u32 reqs replies mid_at json_value_of].
  rewrite Hv. cbn -[IOT_CoAP_DeviceNameAuth iotx_coap_report_mid u32 reqs replies mid_at json_value_of].
  change (AuthToken.size_t_of (IOTX_AUTH_TOKEN_LEN - 1)) with 192.
  unfold IOTX_AUTH_TOKEN_LEN in *.
  replace (192 <? strlen v) with false by (symmetry; apply Z.ltb_ge; lia).
  replace (192 + 1 <? strlen v) with false by (symmetry; apply Z.ltb_ge; lia).
  destruct (decide (IOTX_SUCCESS = IOTX_SUCCESS)) as [_|C]; [|congruence].
  cbn -[IOT_CoAP_DeviceNameAuth u32 reqs replies mid_at json_value_of].
  replace (h + 1 - 1) with h by lia. reflexivity.
Qed.

Lemma chain_from t v m0 c0 sent0 k body h :
  json_value_of "token" body = Some v -> strlen v <= IOTX_AUTH_TOKEN_LEN - 1 ->
  forall d i f, (i + d = k)%nat -> (d < f)%nat ->
  IOT_CoAP_DeviceNameAuth f P_SESSION (world_at t m0 c0 sent0 i k body h) =
    Ok (IOTX_SUCCESS, world_final v m0 c0 sent0 k h).
Proof.
  intros Hv Hl d. induction d as [|d IH]; intros i [|f] Hi Hf; try lia; rewrite auth_at_send.
  - replace i with k by lia. exact (tail_205 f t v m0 c0 sent0 k body h Hv Hl).
  - apply tail_500; [lia|]. apply IH; lia.
Qed.

(** C19 (functional; the spec's open question on unbounded retries): for
    every [k], against a server that answers the first [k] authentication
    requests with 5.00 and the next with a 2.05 whose token fits, the
    handshake, given more fuel than [k], returns [IOTX_SUCCESS] in the
    world [world_final]: the engine has logged exactly the [k + 1] requests
    [reqs m0 c0 (S k)] (each sent from the callback of the previous 5.00),
    [1000 * k] ms were slept, and the session is authenticated with the
    server's token. *)
Theorem auth_retry_chain t v m0 c0 sent0 k body h fuel :
  json_value_of "token" body = Some v -> strlen v <= IOTX_AUTH_TOKEN_LEN - 1 -> (k < fuel)%nat ->
  IOT_CoAP_DeviceNameAuth fuel P_SESSION (world_at t m0 c0 sent0 0 k body h) =
    Ok (IOTX_SUCCESS, world_final v m0 c0 sent0 k h).
Proof. intros Hv Hl Hf. exact (chain_from t v m0 c0 sent0 k body h Hv Hl k 0 fuel eq_refl Hf). Qed.

(** ** Witness *)

Lemma auth_retry_chain_witness :
  (json_value_of "token" AuthToken.demo_auth_body = Some "T123"%string /\
   strlen "T123" <= IOTX_AUTH_TOKEN_LEN - 1 /\ (2 < 3)%nat) /\
  IOT_CoAP_DeviceNameAuth 3 P_SESSION (world_at "T123" 1 IOTX_COAP_INIT_TOKEN [] 0 2 AuthToken.demo_auth_body 0) =
    Ok (IOTX_SUCCESS, world_final "T123" 1 IOTX_COAP_INIT_TOKEN [] 2 0).
Proof.
  assert (H1 : json_value_of "token" AuthToken.demo_auth_body = Some "T123"%string) by reflexivity.
  assert (H2 : strlen "T123" <= IOTX_AUTH_TOKEN_LEN - 1) by wit_hyp.
  assert (H3 : (2 < 3)%nat) by lia.
  split; [auto|].
  exact (auth_retry_chain "T123" "T123" 1 IOTX_COAP_INIT_TOKEN [] 2 AuthToken.demo_auth_body 0 3 H1 H2 H3).
Defined.

End Retry.
